(** * AdCampaignManager: storage gateway, user directory, session manager,
      campaign store, screen router and asset editors

    A shallow embedding of the JavaScript services of the repository
    (LocalStorageService, UserService, AuthService, CampaignService,
    NavigationService, and the three asset editors) and the properties the
    specification states about them.

    Conventions.
    - JavaScript values are the type [JsVal]; objects keep their properties
      in insertion order.
    - The browser is a [World]: localStorage, the console, the clock, the
      [hidden] class of DOM elements, and the mutable fields of the service
      objects.
    - Code runs in the monad [M]: a state transformer on [World] whose result
      is a normal completion or a thrown exception.  The state survives a
      throw, as it does in JavaScript.
    - What the host supplies and the repository does not define (the storage
      quota and the order of its keys, the formatting of numbers, ISO
      formatting and parsing of dates, the sort of arrays) is the class
      [Platform]; the elements of the page that the render callbacks work on
      are the class [Page]. *)

From stdpp Require Import gmap strings list fin_maps pretty sorting.
From Stdlib Require Import ZArith.

Open Scope string_scope.
Open Scope Z_scope.
Open Scope list_scope.

Set Warnings "-register-all,-clear-no-such-hyp".

(** ** JavaScript values *)

Inductive JsVal : Type :=
| JUndefined
| JNull
| JBool (b : bool)
| JNum (n : Z)
| JBigInt (n : Z)
| JStr (s : string)
| JArr (elems : list JsVal)
| JObj (props : list (string * JsVal)).

(** ToBoolean. *)
Definition truthy (v : JsVal) : bool :=
  match v with
  | JUndefined | JNull => false
  | JBool b => b
  | JNum n | JBigInt n => negb (n =? 0)
  | JStr s => negb (String.eqb s "")
  | JArr _ | JObj _ => true
  end.

(** [a || b]. *)
Definition js_or (a b : JsVal) : JsVal := if truthy a then a else b.

(** Strict equality [a === b] where at least one side is a primitive or a
    freshly built value: two objects (or arrays) are equal only when they are
    the same reference, which never happens between a value read back from
    storage and anything else. *)
Definition strict_eq (a b : JsVal) : bool :=
  match a, b with
  | JUndefined, JUndefined => true
  | JNull, JNull => true
  | JBool x, JBool y => Bool.eqb x y
  | JNum x, JNum y => x =? y
  | JBigInt x, JBigInt y => x =? y
  | JStr x, JStr y => String.eqb x y
  | _, _ => false
  end.

(** Own-property lookup in an ordered property list. *)
Fixpoint obj_get (props : list (string * JsVal)) (k : string) : JsVal :=
  match props with
  | [] => JUndefined
  | (k', v) :: rest => if String.eqb k' k then v else obj_get rest k
  end.

(** Property assignment on a property list: an existing key keeps its
    position, a new key goes last. *)
Fixpoint obj_set (props : list (string * JsVal)) (k : string) (v : JsVal)
  : list (string * JsVal) :=
  match props with
  | [] => [(k, v)]
  | (k', v') :: rest =>
      if String.eqb k' k then (k', v) :: rest else (k', v') :: obj_set rest k v
  end.

Definition has_key (props : list (string * JsVal)) (k : string) : bool :=
  existsb (fun p => String.eqb p.1 k) props.

(** The own enumerable properties copied by object spread [{...v}]. *)
Definition spread (v : JsVal) : list (string * JsVal) :=
  match v with
  | JObj props => props
  | JArr l => imap (fun i x => (pretty i, x)) l
  | JStr s =>
      imap (fun i c => (pretty i, JStr (String c EmptyString)))
           (String.list_ascii_of_string s)
  | _ => []
  end.

(** ** JSON *)

(** JSON.stringify throws a TypeError on a BigInt anywhere in the value. *)
Fixpoint has_bigint (v : JsVal) : bool :=
  match v with
  | JBigInt _ => true
  | JArr l => existsb has_bigint l
  | JObj ps => existsb (fun '(_, x) => has_bigint x) ps
  | _ => false
  end.

(** The value JSON.parse reads back from JSON.stringify's text: undefined
    properties are dropped, undefined array elements become null. *)
Fixpoint to_json (v : JsVal) : JsVal :=
  match v with
  | JArr l =>
      JArr (map (fun x => match x with
                          | JUndefined => JNull
                          | _ => to_json x
                          end) l)
  | JObj ps =>
      JObj (flat_map (fun '(k, x) => match x with
                                     | JUndefined => []
                                     | _ => [(k, to_json x)]
                                     end) ps)
  | _ => v
  end.

(** A value that is already JSON: what JSON.parse can return. *)
Fixpoint is_json (v : JsVal) : bool :=
  match v with
  | JUndefined | JBigInt _ => false
  | JArr l => forallb is_json l
  | JObj ps => forallb (fun '(_, x) => is_json x) ps
  | _ => true
  end.

(** Induction on values, through arrays and objects. *)
Section JsVal_induction.
Variable P : JsVal -> Prop.
Hypothesis Hundefined : P JUndefined.
Hypothesis Hnull : P JNull.
Hypothesis Hbool : forall b, P (JBool b).
Hypothesis Hnum : forall n, P (JNum n).
Hypothesis Hbigint : forall n, P (JBigInt n).
Hypothesis Hstr : forall s, P (JStr s).
Hypothesis Harr : forall l, Forall P l -> P (JArr l).
Hypothesis Hobj : forall ps, Forall (fun p => P p.2) ps -> P (JObj ps).

Fixpoint JsVal_nested_ind (v : JsVal) : P v :=
  match v with
  | JUndefined => Hundefined
  | JNull => Hnull
  | JBool b => Hbool b
  | JNum n => Hnum n
  | JBigInt n => Hbigint n
  | JStr s => Hstr s
  | JArr l =>
      Harr l ((fix go (l : list JsVal) : Forall P l :=
                 match l with
                 | [] => @List.Forall_nil _ P
                 | x :: rest => @List.Forall_cons _ P x rest (JsVal_nested_ind x) (go rest)
                 end) l)
  | JObj ps =>
      Hobj ps ((fix go (ps : list (string * JsVal)) : Forall (fun p => P p.2) ps :=
                  match ps with
                  | [] => @List.Forall_nil _ _
                  | (k, x) :: rest =>
                      @List.Forall_cons _ (fun p => P p.2) (k, x) rest
                                        (JsVal_nested_ind x) (go rest)
                  end) ps)
  end.

End JsVal_induction.

(** A string held by localStorage: either the JSON text of a value (written
    [JsonText v], with [v] the value the text denotes) or some other text,
    which JSON.parse rejects. *)
Inductive Item : Type :=
| JsonText (v : JsVal)
| RawText (s : string).

(** A non-empty string is truthy; JSON text is never empty. *)
Definition item_truthy (i : Item) : bool :=
  match i with
  | JsonText _ => true
  | RawText s => negb (String.eqb s "")
  end.

(** ** Completions *)

Inductive Exn : Type :=
| TypeError
| SyntaxError
| QuotaExceededError.

Inductive Completion (A : Type) : Type :=
| Normal (a : A)
| Throw (e : Exn).
Arguments Normal {A} a.
Arguments Throw {A} e.

(** The completions of a list of steps done left to right: the results, or
    the first throw. *)
Fixpoint in_turn {A} (steps : list (Completion A)) : Completion (list A) :=
  match steps with
  | [] => Normal []
  | Normal a :: rest =>
      match in_turn rest with
      | Normal l => Normal (a :: l)
      | Throw e => Throw e
      end
  | Throw e :: _ => Throw e
  end.

(** ** The engine and the browser *)

(** The member names an object literal inherits from [Object.prototype]: a
    lookup of one of them in an object that has no such property of its own
    finds the inherited member. *)
Definition inherited_names : list string :=
  ["constructor"; "__proto__"; "hasOwnProperty"; "isPrototypeOf";
   "propertyIsEnumerable"; "toLocaleString"; "toString"; "valueOf";
   "__defineGetter__"; "__defineSetter__"; "__lookupGetter__"; "__lookupSetter__"].

(** What the engine and the browser supply.
    - [quota_ok]: whether localStorage accepts a new content (its quota
      policy);
    - [key_order]: the keys of localStorage in the order of
      [localStorage.key(0)], [localStorage.key(1)], ..., which is the user
      agent's;
    - [toISOString]: [Date.prototype.toISOString] on a time value;
    - [Date_parse]: [Date.parse], [None] for NaN;
    - [Number_toString]: the string of a Number;
    - [Array_sort]: [Array.prototype.sort] with a comparator that completes
      with a number ([None] for NaN) or throws; the sort throws what the
      comparator throws.
    The engine sorts as ECMAScript requires: when the comparator completes
    on the elements, the result is a rearrangement of them, and it is in
    order when the comparator is the difference of a weight. *)
Class Platform : Type := {
  quota_ok : gmap string Item -> bool;
  key_order : gmap string Item -> list string;
  toISOString : Z -> string;
  Date_parse : string -> option Z;
  Number_toString : Z -> string;
  Array_sort : (JsVal -> JsVal -> Completion (option Z)) -> list JsVal
               -> Completion (list JsVal);
  key_order_perm : forall m, key_order m ≡ₚ (map_to_list m).*1;
  Array_sort_perm : forall cmp l,
    (forall x y, x ∈ l -> y ∈ l -> exists d, cmp x y = Normal d) ->
    exists l', Array_sort cmp l = Normal l' /\ l' ≡ₚ l;
  Array_sort_sorted : forall cmp (weight : JsVal -> Z) l l',
    (forall x y, x ∈ l -> y ∈ l -> cmp x y = Normal (Some (weight x - weight y))) ->
    Array_sort cmp l = Normal l' ->
    StronglySorted (fun x y => weight x <= weight y) l'
}.

Section Conversions.
Context `{Platform}.

(** ToString, and ToPrimitive followed by ToString for an object.  An object
    with a property [toString] of its own throws a TypeError: what JSON.parse
    or an object literal of this program puts there is not callable, and
    then neither [toString] nor [valueOf] gives a primitive.  An array is
    joined from the strings of its elements. *)
Fixpoint to_string (v : JsVal) : Completion string :=
  match v with
  | JUndefined => Normal "undefined"
  | JNull => Normal "null"
  | JBool true => Normal "true"
  | JBool false => Normal "false"
  | JNum n => Normal (Number_toString n)
  | JBigInt n => Normal (pretty n)
  | JStr s => Normal s
  | JArr l =>
      match in_turn (map (fun x => match x with
                                   | JUndefined | JNull => Normal ""
                                   | _ => to_string x
                                   end) l) with
      | Normal texts => Normal (String.concat "," texts)
      | Throw e => Throw e
      end
  | JObj props =>
      if has_key props "toString" then Throw TypeError
      else Normal "[object Object]"
  end.

(** The time value of [new Date(v)]; [None] is NaN (an invalid date).  An
    object is converted to a primitive first, which may throw, and a BigInt
    has no Number. *)
Definition date_value (v : JsVal) : Completion (option Z) :=
  let clip (t : Z) :=
    if Z.abs t <=? 8640000000000000 then Some t else None in
  match v with
  | JUndefined => Normal None
  | JNull => Normal (Some 0)
  | JBool b => Normal (Some (if b then 1 else 0))
  | JNum n => Normal (clip n)
  | JBigInt _ => Throw TypeError
  | JStr s => Normal (Date_parse s)
  | JArr _ | JObj _ =>
      match to_string v with
      | Normal s => Normal (Date_parse s)
      | Throw e => Throw e
      end
  end.

End Conversions.

(** ** The host *)

Inductive Level : Type := LLog | LWarn | LError.

(** A console line: its level and its text (data arguments are not kept). *)
Record LogEntry : Type := mkLog { level : Level; text : string }.

(** Closures registered with [AuthService.onAuthChange] in this repository:
    the one of [UIController._bindEvents] and the one of
    [NavigationService.setUIController]. *)
Inductive Listener : Type :=
| DashboardRefreshListener
| NavigationListener.

(** Render callbacks the router triggers on the controller's components. *)
Inductive Hook : Type :=
| BannerEditorRender
| MarketingPageEditorRender
| LandingPageEditorRender
| DisplayActiveCampaign.

Definition Elem : Type := nat.

Record World : Type := mkWorld {
  localStorage : gmap string Item;       (* window.localStorage *)
  console : list LogEntry;               (* oldest line first *)
  clock : nat -> Z;                      (* successive readings, in ms *)
  ticks : nat;                           (* readings taken so far *)
  classHidden : gset Elem;               (* elements with class 'hidden' *)
  screens : list (string * option Elem); (* NavigationService.screens *)
  uiController : bool;                   (* NavigationService.uiController set *)
  dashboardScreen : option Elem;         (* UIController.dashboardScreen *)
  authChangeListeners : list Listener;   (* AuthService.authChangeListeners *)
  rendered : list Hook                   (* hooks run so far, oldest first *)
}.

Definition with_localStorage (f : gmap string Item -> gmap string Item) (w : World) : World :=
  mkWorld (f (localStorage w)) (console w) (clock w) (ticks w) (classHidden w)
          (screens w) (uiController w) (dashboardScreen w)
          (authChangeListeners w) (rendered w).

Definition with_console (f : list LogEntry -> list LogEntry) (w : World) : World :=
  mkWorld (localStorage w) (f (console w)) (clock w) (ticks w) (classHidden w)
          (screens w) (uiController w) (dashboardScreen w)
          (authChangeListeners w) (rendered w).

Definition with_ticks (f : nat -> nat) (w : World) : World :=
  mkWorld (localStorage w) (console w) (clock w) (f (ticks w)) (classHidden w)
          (screens w) (uiController w) (dashboardScreen w)
          (authChangeListeners w) (rendered w).

Definition with_classHidden (f : gset Elem -> gset Elem) (w : World) : World :=
  mkWorld (localStorage w) (console w) (clock w) (ticks w) (f (classHidden w))
          (screens w) (uiController w) (dashboardScreen w)
          (authChangeListeners w) (rendered w).




Definition with_rendered (f : list Hook -> list Hook) (w : World) : World :=
  mkWorld (localStorage w) (console w) (clock w) (ticks w) (classHidden w)
          (screens w) (uiController w) (dashboardScreen w)
          (authChangeListeners w) (f (rendered w)).

(** ** The monad of JavaScript code *)

Definition M (A : Type) : Type := World -> Completion A * World.

Definition ret {A} (a : A) : M A := fun w => (Normal a, w).

Definition bind {A B} (m : M A) (k : A -> M B) : M B :=
  fun w => match m w with
           | (Normal a, w') => k a w'
           | (Throw e, w') => (Throw e, w')
           end.

Definition throw {A} (e : Exn) : M A := fun w => (Throw e, w).

(** [try { body } catch (e) { handler }]. *)
Definition try_catch {A} (body : M A) (handler : Exn -> M A) : M A :=
  fun w => match body w with
           | (Normal a, w') => (Normal a, w')
           | (Throw e, w') => handler e w'
           end.

#[global] Instance M_ret : MRet M := @ret.
#[global] Instance M_bind : MBind M := fun A B k m => bind m k.

(** A step that does not touch the world. *)
Definition complete {A} (c : Completion A) : M A := fun w => (c, w).

Definition modify (f : World -> World) : M unit := fun w => (Normal tt, f w).
Definition gets {A} (f : World -> A) : M A := fun w => (Normal (f w), w).

(** Unfolds the monad's operations in a goal. *)
Ltac run_monad :=
  unfold mbind, M_bind, bind, mret, M_ret, ret, gets, modify, throw, try_catch,
         complete;
  simpl.

(** Run a command for effect on each element, left to right
    ([Array.prototype.forEach]). *)
Fixpoint for_each {A} (f : A -> M unit) (l : list A) : M unit :=
  match l with
  | [] => ret tt
  | x :: rest => f x;; for_each f rest
  end.

Definition console_log (s : string) : M unit :=
  modify (with_console (fun c => c ++ [mkLog LLog s])).
Definition console_warn (s : string) : M unit :=
  modify (with_console (fun c => c ++ [mkLog LWarn s])).
Definition console_error (s : string) : M unit :=
  modify (with_console (fun c => c ++ [mkLog LError s])).

(** Member access [v.k] for the property names this program uses (none is a
    prototype member, an array index or [length]). *)
Definition get_member (v : JsVal) (k : string) : M JsVal :=
  match v with
  | JUndefined | JNull => throw TypeError
  | JObj props => ret (obj_get props k)
  | _ => ret JUndefined
  end.

(** Member assignment [v.k = x] in strict mode (the sources are ES modules),
    returning the updated [v].  A named property set on an array is not an
    element and JSON.stringify does not print it. *)
Definition set_member (v : JsVal) (k : string) (x : JsVal) : M JsVal :=
  match v with
  | JObj props => ret (JObj (obj_set props k x))
  | JArr l => ret (JArr l)
  | _ => throw TypeError
  end.

(** [Date.now()]: the next clock reading. *)
Definition Date_now : M Z :=
  fun w => (Normal (clock w (ticks w)), with_ticks S w).

Definition dquote : string := String (Ascii.ascii_of_nat 34) EmptyString.

Section Program.
Context `{Platform}.

(** *** window.localStorage and JSON *)

(** [localStorage.setItem(key, text)] throws when the quota is exceeded and
    then stores nothing. *)
Definition localStorage_setItem (key : string) (text : Item) : M unit :=
  fun w =>
    let s := <[key := text]> (localStorage w) in
    if quota_ok s then (Normal tt, with_localStorage (fun _ => s) w)
    else (Throw QuotaExceededError, w).

Definition localStorage_getItem (key : string) : M (option Item) :=
  gets (fun w => localStorage w !! key).

Definition localStorage_removeItem (key : string) : M unit :=
  modify (with_localStorage (delete key)).

(** [localStorage.key(0)], ..., [localStorage.key(length - 1)]; the order is
    the user agent's. *)
Definition localStorage_keys : M (list string) :=
  gets (fun w => key_order (localStorage w)).

(** [JSON.stringify(value)]: a text, or [undefined] for [undefined]. *)
Definition JSON_stringify (value : JsVal) : M (option Item) :=
  if has_bigint value then throw TypeError
  else match value with
       | JUndefined => mret None
       | _ => mret (Some (JsonText (to_json value)))
       end.

(** The string a storage call receives for its value argument. *)
Definition string_arg (text : option Item) : Item :=
  match text with
  | Some i => i
  | None => RawText "undefined"
  end.

Definition JSON_parse (text : Item) : M JsVal :=
  match text with
  | JsonText v => mret v
  | RawText _ => throw SyntaxError
  end.

(** *** LocalStorageService *)

Definition setItem (key : string) (value : JsVal) : M bool :=
  try_catch
    (text ← JSON_stringify value;
     localStorage_setItem key (string_arg text);;
     mret true)
    (fun e =>
       console_error "Error setting item to Local Storage:";;
       mret false).

Definition getItem (key : string) : M JsVal :=
  try_catch
    (item ← localStorage_getItem key;
     match item with
     | Some i => if item_truthy i then JSON_parse i else mret JNull
     | None => mret JNull
     end)
    (fun e =>
       console_error "Error getting item from Local Storage:";;
       mret JNull).

Definition removeItem (key : string) : M unit :=
  try_catch
    (localStorage_removeItem key)
    (fun e => console_error "Error removing item from Local Storage:").

(** *** Arrays *)

(** Calling an array method on [v]: a TypeError unless [v] is an array. *)
Definition array_of (v : JsVal) : M (list JsVal) :=
  match v with
  | JArr l => mret l
  | _ => throw TypeError
  end.

(** [Array.prototype.some]. *)
Fixpoint array_some (p : JsVal -> M bool) (l : list JsVal) : M bool :=
  match l with
  | [] => mret false
  | x :: rest => b ← p x; if (b : bool) then mret true else array_some p rest
  end.

(** [Array.prototype.find]. *)
Fixpoint array_find (p : JsVal -> M bool) (l : list JsVal) : M JsVal :=
  match l with
  | [] => mret JUndefined
  | x :: rest => b ← p x; if (b : bool) then mret x else array_find p rest
  end.

(** *** UserService *)

Definition USERS_KEY : string := "app_users".

Definition _getUsers : M JsVal :=
  users ← getItem USERS_KEY;
  mret (js_or users (JArr [])).

Definition _saveUsers (users : JsVal) : M unit :=
  setItem USERS_KEY users;;
  mret tt.

Definition createInitialUser : M unit :=
  users ← _getUsers;
  match users with
  | JArr [] =>
      let initialUser :=
        JObj [("username", JStr "testuser"); ("password", JStr "password123")] in
      _saveUsers (JArr [initialUser]);;
      console_log ("Initial user " +:+ dquote +:+ "testuser" +:+ dquote +:+ " created.")
  | JObj props =>
      (* an object whose own [length] is 0 passes the test and has no
         [push] to call *)
      if strict_eq (obj_get props "length") (JNum 0) then throw TypeError
      else mret tt
  | _ => mret tt
  end.

Definition getUser (username : string) : M JsVal :=
  users ← _getUsers;
  l ← array_of users;
  array_find
    (fun user =>
       name ← get_member user "username";
       mret (strict_eq name (JStr username)))
    l.

Definition saveUser (user : JsVal) : M bool :=
  users ← _getUsers;
  l ← array_of users;
  taken ← array_some
             (fun u =>
                a ← get_member u "username";
                b ← get_member user "username";
                mret (strict_eq a b))
             l;
  if (taken : bool) then mret false
  else
    _saveUsers (JArr (l ++ [user]));;
    mret true.

(** *** CampaignService *)

Definition ACTIVE_CAMPAIGN_KEY : string := "active_campaign".
Definition CAMPAIGN_PREFIX : string := "campaign_".

(** [new Date().toISOString()]. *)
Definition new_Date_toISOString : M string :=
  t ← Date_now;
  mret (toISOString t).

Definition getActiveCampaign : M JsVal :=
  getItem ACTIVE_CAMPAIGN_KEY.

Definition setActiveCampaign (campaignData : JsVal) : M unit :=
  lastUpdated ← new_Date_toISOString;
  let campaign :=
    JObj (obj_set (spread campaignData) "lastUpdated" (JStr lastUpdated)) in
  setItem ACTIVE_CAMPAIGN_KEY campaign;;
  console_log "Active campaign updated:".

Definition _generateCampaignId : M string :=
  t ← Date_now;
  mret ("campaign_" +:+ Number_toString t).

Definition saveCampaign (campaign : JsVal) : M unit :=
  id ← get_member campaign "id";
  idText ← complete (to_string id);
  let campaignKey := CAMPAIGN_PREFIX +:+ idText in
  setItem campaignKey campaign;;
  name ← get_member campaign "name";
  nameText ← complete (to_string name);
  console_log ("Campaign " +:+ dquote +:+ nameText +:+ dquote
               +:+ " saved with key: " +:+ campaignKey).

Definition createCampaign (campaignName : string) : M JsVal :=
  campaignId ← _generateCampaignId;
  createdAt ← new_Date_toISOString;
  let newCampaign :=
    JObj [("id", JStr campaignId);
          ("name", JStr campaignName);
          ("status", JStr "Draft");
          ("assets", JObj [("banner", JNull);
                           ("marketingPage", JNull);
                           ("landingPage", JNull)]);
          ("createdAt", JStr createdAt)] in
  saveCampaign newCampaign;;
  mret newCampaign.

(** The comparator of [getAllCampaigns]:
    [new Date(b.lastUpdated) - new Date(a.lastUpdated)], [None] for NaN.
    Both records are truthy, so the member accesses cannot throw; the two
    dates are made left to right. *)
Definition by_lastUpdated_desc (a b : JsVal) : Completion (option Z) :=
  let field (v : JsVal) :=
    match v with
    | JObj props => obj_get props "lastUpdated"
    | _ => JUndefined
    end in
  match date_value (field b) with
  | Normal tb =>
      match date_value (field a) with
      | Normal ta =>
          Normal (match tb, ta with
                  | Some x, Some y => Some (x - y)
                  | _, _ => None
                  end)
      | Throw e => Throw e
      end
  | Throw e => Throw e
  end.

(** The loop of [getAllCampaigns] over the storage keys. *)
Fixpoint collect_campaigns (keys : list string) (campaigns : list JsVal)
  : M (list JsVal) :=
  match keys with
  | [] => mret campaigns
  | key :: rest =>
      if String.prefix CAMPAIGN_PREFIX key then
        campaign ← getItem key;
        if truthy campaign then collect_campaigns rest (campaigns ++ [campaign])
        else collect_campaigns rest campaigns
      else collect_campaigns rest campaigns
  end.

Definition getAllCampaigns : M (list JsVal) :=
  keys ← localStorage_keys;
  campaigns ← collect_campaigns keys [];
  complete (Array_sort by_lastUpdated_desc campaigns).



(** *** AuthService: reading the session *)

Definition CURRENT_USER_KEY : string := "current_user".

Definition getLoggedInUser : M JsVal :=
  getItem CURRENT_USER_KEY.

End Program.

(** ** Asset editors *)

(** A form control is [None] when the page has no such element, else its
    current value. *)

(** [if (input) input.value = v]. *)
Definition set_value {A} (input : option A) (v : A) : option A :=
  match input with
  | Some _ => Some v
  | None => None
  end.

(** [input?.value || fallback]. *)
Definition value_or (input : option string) (fallback : string) : string :=
  match input with
  | Some v => if String.eqb v "" then fallback else v
  | None => fallback
  end.

(** [checkbox?.checked || false]. *)
Definition checked_or_false (checkbox : option bool) : bool :=
  match checkbox with
  | Some b => b
  | None => false
  end.

(** [if (current) input.value = current]: [current] was read from [input],
    so a non-empty [current] means the element exists. *)
Definition restore_value (input : option string) (current : string) : option string :=
  if String.eqb current "" then input else set_value input current.

(** [input.value = v] with a value read from storage: the control takes the
    string of [v], and [null] gives the empty string.  A control is taken to
    keep the text assigned to it, as a text field does and as a colour field
    or a select does for a text it offers. *)
Definition dom_string `{Platform} (v : JsVal) : Completion string :=
  match v with
  | JNull => Normal ""
  | _ => to_string v
  end.

(** [if (input) input.value = v]: the control after the assignment. *)
Definition assign_value `{Platform} (input : option string) (v : JsVal)
  : M (option string) :=
  match input with
  | Some _ =>
      text ← complete (dom_string v);
      mret (Some text)
  | None => mret None
  end.

(** [activeCampaign && activeCampaign.assets && activeCampaign.assets[slot]]
    for the three slots [banner], [marketingPage] and [landingPage]. *)
Definition saved_asset (activeCampaign : JsVal) (slot : string) : M JsVal :=
  if truthy activeCampaign then
    assets ← get_member activeCampaign "assets";
    if truthy assets then get_member assets slot else mret assets
  else mret activeCampaign.

Module LandingPageEditor.

Record t : Type := mk {
  currentTemplateId : JsVal;
  titleInput : option string;
  paragraphInput : option string;
  imageUrlInput : option string;
  ctaTextInput : option string;
  ctaLinkInput : option string;
  bgColorInput : option string;
  textColorInput : option string;
  collectLeadsCheckbox : option bool
}.

Record Defaults : Type := mkDefaults {
  title : string;
  paragraph : string;
  imageUrl : string;
  ctaText : string;
  ctaLink : string;
  bgColor : string;
  textColor : string
}.

(** [templatesDefaults[templateId]] (template ids are not names of
    [Object.prototype] members). *)
Definition templatesDefaults (templateId : string) : option Defaults :=
  if String.eqb templateId "template1" then
    Some (mkDefaults
      "Boost Your Business!"
      "Learn how our innovative solutions can help you reach new customers and grow your revenue. Sign up now for a free consultation!"
      "https://placehold.co/800x400/eeeeee/333333?text=Your+Amazing+Product"
      "Get Started Today"
      "#signup"
      "#e0f2f7"
      "#0a2a43")
  else if String.eqb templateId "template2" then
    Some (mkDefaults
      "Limited Time Offer!"
      "Grab this incredible deal before it's gone! High-quality products at unbeatable prices."
      "https://placehold.co/800x400/ffe0b2/8d6e63?text=Special+Discount"
      "Claim Your Discount"
      "#discount"
      "#fce4ec"
      "#4a148c")
  else if String.eqb templateId "template3" then
    Some (mkDefaults
      "Join Our Community"
      "Become part of a thriving community of professionals. Share ideas, gain insights, and connect with peers."
      "https://placehold.co/800x400/c8e6c9/2e7d32?text=Community+Hub"
      "Join Now"
      "#join"
      "#e8f5e9"
      "#1b5e20")
  else None.

Definition _applyTemplate (templateId : string) (ed : t) : t :=
  let currentTitle := value_or (titleInput ed) "" in
  let currentParagraph := value_or (paragraphInput ed) "" in
  let currentImageUrl := value_or (imageUrlInput ed) "" in
  let ed1 :=
    match templatesDefaults templateId with
    | Some defaults =>
        mk (currentTemplateId ed)
           (set_value (titleInput ed) (title defaults))
           (set_value (paragraphInput ed) (paragraph defaults))
           (set_value (imageUrlInput ed) (imageUrl defaults))
           (set_value (ctaTextInput ed) (ctaText defaults))
           (set_value (ctaLinkInput ed) (ctaLink defaults))
           (set_value (bgColorInput ed) (bgColor defaults))
           (set_value (textColorInput ed) (textColor defaults))
           (collectLeadsCheckbox ed)
    | None => ed
    end in
  mk (currentTemplateId ed1)
     (restore_value (titleInput ed1) currentTitle)
     (restore_value (paragraphInput ed1) currentParagraph)
     (restore_value (imageUrlInput ed1) currentImageUrl)
     (ctaTextInput ed1)
     (ctaLinkInput ed1)
     (bgColorInput ed1)
     (textColorInput ed1)
     (collectLeadsCheckbox ed1).

Section Save.
Context `{Platform}.

Definition savePage (ed : t) : M unit :=
  activeCampaign ← getActiveCampaign;
  if negb (truthy activeCampaign) then
    console_error "No active campaign to save to."
  else
    let pageData :=
      JObj [("templateId", currentTemplateId ed);
            ("title", JStr (value_or (titleInput ed) ""));
            ("paragraph", JStr (value_or (paragraphInput ed) ""));
            ("imageUrl", JStr (value_or (imageUrlInput ed) ""));
            ("ctaText", JStr (value_or (ctaTextInput ed) ""));
            ("ctaLink", JStr (value_or (ctaLinkInput ed) "#"));
            ("bgColor", JStr (value_or (bgColorInput ed) "#e0f2f7"));
            ("textColor", JStr (value_or (textColorInput ed) "#0a2a43"));
            ("includeLeadForm", JBool (checked_or_false (collectLeadsCheckbox ed)))] in
    (* activeCampaign.assets.landingPage = pageData, seen through
       activeCampaign *)
    assets ← get_member activeCampaign "assets";
    assets' ← set_member assets "landingPage" pageData;
    activeCampaign' ← set_member activeCampaign "assets" assets';
    saveCampaign activeCampaign';;
    setActiveCampaign activeCampaign';;
    console_log "Landing page saved and campaign updated.".

(** [loadPage] up to its call of [updatePreview]; the preview is not part of
    the editor's state here.  An assignment to a control converts the value
    to a string, which throws for a value that has no string. *)
Definition loadPage (ed : t) : M t :=
  activeCampaign ← getActiveCampaign;
  savedPage ← saved_asset activeCampaign "landingPage";
  if truthy savedPage then
    templateId ← get_member savedPage "templateId";
    title ← get_member savedPage "title";
    titleInput' ← assign_value (titleInput ed) title;
    paragraph ← get_member savedPage "paragraph";
    paragraphInput' ← assign_value (paragraphInput ed) paragraph;
    imageUrl ← get_member savedPage "imageUrl";
    imageUrlInput' ← assign_value (imageUrlInput ed) imageUrl;
    ctaText ← get_member savedPage "ctaText";
    ctaTextInput' ← assign_value (ctaTextInput ed) ctaText;
    ctaLink ← get_member savedPage "ctaLink";
    ctaLinkInput' ← assign_value (ctaLinkInput ed) ctaLink;
    bgColor ← get_member savedPage "bgColor";
    bgColorInput' ← assign_value (bgColorInput ed) bgColor;
    textColor ← get_member savedPage "textColor";
    textColorInput' ← assign_value (textColorInput ed) textColor;
    includeLeadForm ← get_member savedPage "includeLeadForm";
    console_log "Landing page loaded from active campaign.";;
    mret (mk templateId titleInput' paragraphInput' imageUrlInput'
             ctaTextInput' ctaLinkInput' bgColorInput' textColorInput'
             (set_value (collectLeadsCheckbox ed) (truthy includeLeadForm)))
  else
    console_log "No landing page found in active campaign, starting new.";;
    let ed1 :=
      _applyTemplate "template1"
        (mk (JStr "template1") (titleInput ed) (paragraphInput ed)
            (imageUrlInput ed) (ctaTextInput ed) (ctaLinkInput ed)
            (bgColorInput ed) (textColorInput ed) (collectLeadsCheckbox ed)) in
    mret (mk (currentTemplateId ed1) (titleInput ed1) (paragraphInput ed1)
             (imageUrlInput ed1) (ctaTextInput ed1) (ctaLinkInput ed1)
             (bgColorInput ed1) (textColorInput ed1)
             (set_value (collectLeadsCheckbox ed1) false)).

End Save.

End LandingPageEditor.

Module MarketingPageEditor.

Record t : Type := mk {
  currentTemplateId : JsVal;
  titleInput : option string;
  paragraph1Input : option string;
  imageUrlInput : option string;
  bgColorInput : option string;
  textColorInput : option string
}.

Record Defaults : Type := mkDefaults {
  title : string;
  paragraph1 : string;
  imageUrl : string;
  bgColor : string;
  textColor : string
}.

Definition templatesDefaults (templateId : string) : option Defaults :=
  if String.eqb templateId "template1" then
    Some (mkDefaults
      "Welcome to Our New Campaign!"
      "Discover amazing new offers and products designed just for you. Click below to learn more!"
      "https://placehold.co/600x200/cccccc/333333?text=Your+Image"
      "#f8f8f8"
      "#333333")
  else if String.eqb templateId "template2" then
    Some (mkDefaults
      "Exclusive Offer Just For You!"
      "Don't miss out on our limited-time discounts. Get ready for savings that will surprise you!"
      "https://placehold.co/600x300/aaddff/000000?text=Special+Deal"
      "#e0f7fa"
      "#004d40")
  else if String.eqb templateId "template3" then
    Some (mkDefaults
      "Quick Update from Our Team"
      "We've got exciting news coming soon. Stay tuned for more information."
      "https://placehold.co/200x150/ffcccb/880000?text=News"
      "#fffde7"
      "#424242")
  else None.

Definition _applyTemplate (templateId : string) (ed : t) : t :=
  let currentTitle := value_or (titleInput ed) "" in
  let currentParagraph1 := value_or (paragraph1Input ed) "" in
  let currentImageUrl := value_or (imageUrlInput ed) "" in
  let ed1 :=
    match templatesDefaults templateId with
    | Some defaults =>
        mk (currentTemplateId ed)
           (set_value (titleInput ed) (title defaults))
           (set_value (paragraph1Input ed) (paragraph1 defaults))
           (set_value (imageUrlInput ed) (imageUrl defaults))
           (set_value (bgColorInput ed) (bgColor defaults))
           (set_value (textColorInput ed) (textColor defaults))
    | None => ed
    end in
  mk (currentTemplateId ed1)
     (restore_value (titleInput ed1) currentTitle)
     (restore_value (paragraph1Input ed1) currentParagraph1)
     (restore_value (imageUrlInput ed1) currentImageUrl)
     (bgColorInput ed1)
     (textColorInput ed1).

Section Save.
Context `{Platform}.

Definition savePage (ed : t) : M unit :=
  activeCampaign ← getActiveCampaign;
  if negb (truthy activeCampaign) then
    console_error "No active campaign to save to."
  else
    let pageData :=
      JObj [("templateId", currentTemplateId ed);
            ("title", JStr (value_or (titleInput ed) ""));
            ("paragraph1", JStr (value_or (paragraph1Input ed) ""));
            ("imageUrl", JStr (value_or (imageUrlInput ed) ""));
            ("bgColor", JStr (value_or (bgColorInput ed) "#f8f8f8"));
            ("textColor", JStr (value_or (textColorInput ed) "#333333"))] in
    assets ← get_member activeCampaign "assets";
    assets' ← set_member assets "marketingPage" pageData;
    activeCampaign' ← set_member activeCampaign "assets" assets';
    saveCampaign activeCampaign';;
    setActiveCampaign activeCampaign';;
    console_log "Marketing page saved and campaign updated.".

(** [loadPage] up to its call of [updatePreview]. *)
Definition loadPage (ed : t) : M t :=
  activeCampaign ← getActiveCampaign;
  savedPage ← saved_asset activeCampaign "marketingPage";
  if truthy savedPage then
    templateId ← get_member savedPage "templateId";
    title ← get_member savedPage "title";
    titleInput' ← assign_value (titleInput ed) title;
    paragraph1 ← get_member savedPage "paragraph1";
    paragraph1Input' ← assign_value (paragraph1Input ed) paragraph1;
    imageUrl ← get_member savedPage "imageUrl";
    imageUrlInput' ← assign_value (imageUrlInput ed) imageUrl;
    bgColor ← get_member savedPage "bgColor";
    bgColorInput' ← assign_value (bgColorInput ed) bgColor;
    textColor ← get_member savedPage "textColor";
    textColorInput' ← assign_value (textColorInput ed) textColor;
    console_log "Marketing page loaded from active campaign.";;
    mret (mk templateId titleInput' paragraph1Input' imageUrlInput'
             bgColorInput' textColorInput')
  else
    console_log "No marketing page found in active campaign, starting new.";;
    mret (_applyTemplate "template1"
            (mk (JStr "template1") (titleInput ed) (paragraph1Input ed)
                (imageUrlInput ed) (bgColorInput ed) (textColorInput ed))).

End Save.

End MarketingPageEditor.

Module BannerEditor.

Record t : Type := mk {
  bannerTypeSelect : option string;
  bannerTextInput : option string;
  bannerBgColorInput : option string;
  bannerTextColorInput : option string;
  bannerFontSizeInput : option string;
  bannerFontFamilySelect : option string
}.

Record Template : Type := mkTemplate {
  bgColor : string;
  textColor : string;
  fontSize : Z;
  fontFamily : string
}.

Definition templates (templateName : string) : option Template :=
  if String.eqb templateName "template1" then
    Some (mkTemplate "#4a90e2" "#ffffff" 24 "Arial, sans-serif")
  else if String.eqb templateName "template2" then
    Some (mkTemplate "#f9c74f" "#333333" 28 "Verdana, sans-serif")
  else if String.eqb templateName "template3" then
    Some (mkTemplate "#e76f51" "#f4f1de" 20 "Georgia, serif")
  else None.

Definition _applyTemplate (templateName : string) (ed : t) : t :=
  match templates templateName with
  | Some template =>
      mk (bannerTypeSelect ed)
         (bannerTextInput ed)
         (set_value (bannerBgColorInput ed) (bgColor template))
         (set_value (bannerTextColorInput ed) (textColor template))
         (set_value (bannerFontSizeInput ed) (pretty (fontSize template)))
         (set_value (bannerFontFamilySelect ed) (fontFamily template))
  | None => ed
  end.

Section Save.
Context `{Platform}.

Definition saveBanner (ed : t) : M unit :=
  activeCampaign ← getActiveCampaign;
  if negb (truthy activeCampaign) then
    console_error "No active campaign to save to."
  else
    let bannerData :=
      JObj [("type", JStr (value_or (bannerTypeSelect ed) "square"));
            ("text", JStr (value_or (bannerTextInput ed) ""));
            ("bgColor", JStr (value_or (bannerBgColorInput ed) "#ffffff"));
            ("textColor", JStr (value_or (bannerTextColorInput ed) "#000000"));
            ("fontSize",
              match bannerFontSizeInput ed with
              | Some v => if String.eqb v "" then JNum 16 else JStr v
              | None => JNum 16
              end);
            ("fontFamily", JStr (value_or (bannerFontFamilySelect ed) "sans-serif"))] in
    assets ← get_member activeCampaign "assets";
    assets' ← set_member assets "banner" bannerData;
    activeCampaign' ← set_member activeCampaign "assets" assets';
    saveCampaign activeCampaign';;
    setActiveCampaign activeCampaign';;
    console_log "Banner saved and campaign updated.".

(** [loadBanner] up to its call of [updatePreview]. *)
Definition loadBanner (ed : t) : M t :=
  activeCampaign ← getActiveCampaign;
  savedBanner ← saved_asset activeCampaign "banner";
  if truthy savedBanner then
    type ← get_member savedBanner "type";
    bannerTypeSelect' ← assign_value (bannerTypeSelect ed) type;
    text ← get_member savedBanner "text";
    bannerTextInput' ← assign_value (bannerTextInput ed) text;
    bgColor ← get_member savedBanner "bgColor";
    bannerBgColorInput' ← assign_value (bannerBgColorInput ed) bgColor;
    textColor ← get_member savedBanner "textColor";
    bannerTextColorInput' ← assign_value (bannerTextColorInput ed) textColor;
    fontSize ← get_member savedBanner "fontSize";
    bannerFontSizeInput' ← assign_value (bannerFontSizeInput ed) fontSize;
    fontFamily ← get_member savedBanner "fontFamily";
    bannerFontFamilySelect' ← assign_value (bannerFontFamilySelect ed) fontFamily;
    console_log "Banner loaded from active campaign.";;
    mret (mk bannerTypeSelect' bannerTextInput' bannerBgColorInput'
             bannerTextColorInput' bannerFontSizeInput' bannerFontFamilySelect')
  else
    console_log "No banner found in active campaign, starting new.";;
    let ed1 := _applyTemplate "template1" ed in
    mret (mk (bannerTypeSelect ed1)
             (set_value (bannerTextInput ed1) "Your Ad Text Here")
             (bannerBgColorInput ed1)
             (bannerTextColorInput ed1)
             (bannerFontSizeInput ed1)
             (bannerFontFamilySelect ed1)).

End Save.

End BannerEditor.

(** ** The page *)

(** The elements of the page that the render callbacks work on: the forms of
    the three editors, two previews, and the five elements of the
    dashboard's overview of the active campaign.  A callback's writes to
    these elements are not part of the world; of a form, which controls
    exist decides what the callback logs and whether it throws, the text
    they hold does not. *)
Class Page : Type := {
  bannerEditor : BannerEditor.t;
  bannerPreview : bool;
  marketingPageEditor : MarketingPageEditor.t;
  marketingPreviewContainer : bool;
  landingPageEditor : LandingPageEditor.t;
  campaignOverview : bool;
  activeCampaignName : bool;
  activeCampaignStatus : bool;
  activeCampaignLastUpdated : bool;
  noCampaignMessage : bool
}.

(** ** The router and the session *)

Section Navigation_and_session.
Context `{Platform} `{Page}.

(** *** The render callbacks *)

(** [CampaignService.displayActiveCampaign], run by the router and the
    controller: it reads the active campaign and, on a page that has the
    five elements of the dashboard's overview, converts the name, the status
    and the date to show them. *)
Definition displayActiveCampaign : M unit :=
  campaign ← getActiveCampaign;
  if campaignOverview && activeCampaignName && activeCampaignStatus
     && activeCampaignLastUpdated && noCampaignMessage then
    if truthy campaign then
      name ← get_member campaign "name";
      complete (to_string (js_or name (JStr "Unnamed Campaign")));;
      status ← get_member campaign "status";
      complete (to_string (js_or status (JStr "Active")));;
      lastUpdated ← get_member campaign "lastUpdated";
      complete (date_value lastUpdated);;
      mret tt
    else mret tt
  else mret tt.

(** [BannerEditor.render]. *)
Definition BannerEditor_render : M unit :=
  if bannerPreview
     && bool_decide (is_Some (BannerEditor.bannerTextInput bannerEditor))
     && bool_decide (is_Some (BannerEditor.bannerTypeSelect bannerEditor))
  then
    BannerEditor.loadBanner bannerEditor;;
    mret tt
  else
    console_warn "Banner Editor DOM elements not fully loaded or available.".

(** [MarketingPageEditor.render]: [loadPage], whose [updatePreview] logs a
    line on a page that has the preview. *)
Definition MarketingPageEditor_render : M unit :=
  MarketingPageEditor.loadPage marketingPageEditor;;
  if marketingPreviewContainer
  then console_log "Marketing Page Preview: Using image URL:"
  else mret tt.

(** [LandingPageEditor.render]. *)
Definition LandingPageEditor_render : M unit :=
  LandingPageEditor.loadPage landingPageEditor;;
  mret tt.

(** A render callback of the controller's components: the call is recorded
    and the callback runs. *)
Definition run_hook (h : Hook) : M unit :=
  modify (with_rendered (fun r => r ++ [h]));;
  match h with
  | BannerEditorRender => BannerEditor_render
  | MarketingPageEditorRender => MarketingPageEditor_render
  | LandingPageEditorRender => LandingPageEditor_render
  | DisplayActiveCampaign => displayActiveCampaign
  end.

(** *** NavigationService *)

(** [screen.classList.add('hidden')]; [screen] may be null. *)
Definition classList_add_hidden (screen : option Elem) : M unit :=
  match screen with
  | Some e => modify (with_classHidden (fun h => h ∪ {[e]}))
  | None => throw TypeError
  end.

(** [screen.classList.remove('hidden')]. *)
Definition classList_remove_hidden (screen : option Elem) : M unit :=
  match screen with
  | Some e => modify (with_classHidden (fun h => h ∖ {[e]}))
  | None => throw TypeError
  end.

(** The property [screenId] of [this.screens] itself: [None] stands for both
    [undefined] (no such key) and [null] (the page has no such element); the
    code treats them alike. *)
Fixpoint screens_get (s : list (string * option Elem)) (screenId : string)
  : option Elem :=
  match s with
  | [] => None
  | (k, e) :: rest => if String.eqb k screenId then e else screens_get rest screenId
  end.

(** [this.screens] has a property [screenId] of its own. *)
Definition is_registered (s : list (string * option Elem)) (screenId : string)
  : bool :=
  existsb (fun p => String.eqb p.1 screenId) s.


Definition _hideAllScreens : M unit :=
  s ← gets screens;
  for_each (fun '(_, screen) => classList_add_hidden screen) s.

Definition _showScreen (screenId : string) : M unit :=
  _hideAllScreens;;
  s ← gets screens;
  match screens_get s screenId with
  | Some screen =>
      classList_remove_hidden (Some screen);;
      (if negb (String.eqb screenId "login-screen")
       then classList_remove_hidden (screens_get s "main-app-content")
       else classList_add_hidden (screens_get s "main-app-content"));;
      ui ← gets uiController;
      if (ui : bool) then
        if String.eqb screenId "banner-editor-screen" then
          run_hook BannerEditorRender
        else if String.eqb screenId "marketing-editor-screen" then
          run_hook MarketingPageEditorRender
        else if String.eqb screenId "landing-editor-screen" then
          run_hook LandingPageEditorRender
        else if String.eqb screenId "dashboard-screen" then
          run_hook DisplayActiveCampaign
        else mret tt
      else mret tt
  | None =>
      if negb (is_registered s screenId)
         && bool_decide (screenId ∈ inherited_names)
      then
        (* [this.screens[screenId]] is the member inherited from
           [Object.prototype], which is truthy and has no [classList] *)
        throw TypeError
      else
        console_error ("Screen with ID " +:+ dquote +:+ screenId +:+ dquote
                       +:+ " not registered.")
  end.

Definition goToLogin : M unit :=
  _showScreen "login-screen".

Definition goToDashboard : M unit :=
  user ← getLoggedInUser;
  if truthy user then _showScreen "dashboard-screen" else goToLogin.

Definition goToBannerEditor : M unit :=
  user ← getLoggedInUser;
  if truthy user then _showScreen "banner-editor-screen" else goToLogin.

Definition goToMarketingPageEditor : M unit :=
  user ← getLoggedInUser;
  if truthy user then _showScreen "marketing-editor-screen" else goToLogin.

Definition goToLandingPageEditor : M unit :=
  user ← getLoggedInUser;
  if truthy user then _showScreen "landing-editor-screen" else goToLogin.

(** *** AuthService: listeners, login, signup, logout *)


(** The bodies of the two closures. *)
Definition run_listener (listener : Listener) (user : JsVal) : M unit :=
  match listener with
  | NavigationListener =>
      if truthy user then goToDashboard else goToLogin
  | DashboardRefreshListener =>
      d ← gets dashboardScreen;
      h ← gets classHidden;
      match d with
      | Some e =>
          if truthy user && negb (bool_decide (e ∈ h))
          then run_hook DisplayActiveCampaign
          else mret tt
      | None => mret tt
      end
  end.

Definition _notifyAuthChange (user : JsVal) : M unit :=
  ls ← gets authChangeListeners;
  for_each (fun listener => run_listener listener user) ls.

Definition login (username password : string) : M bool :=
  user ← getUser username;
  if truthy user then
    stored ← get_member user "password";
    if strict_eq stored (JStr password) then
      name ← get_member user "username";
      setItem CURRENT_USER_KEY (JObj [("username", name)]);;
      _notifyAuthChange (JObj [("username", name)]);;
      mret true
    else mret false
  else mret false.

Definition signup (username password : string) : M bool :=
  let newUser := JObj [("username", JStr username); ("password", JStr password)] in
  success ← saveUser newUser;
  if (success : bool) then login username password else mret false.

Definition checkLoginStatus : M unit :=
  user ← getLoggedInUser;
  _notifyAuthChange user.

Definition logout : M unit :=
  removeItem CURRENT_USER_KEY;;
  _notifyAuthChange JNull.


(** The object [UIController._registerScreens] passes to [registerScreens]:
    the six elements looked up by id, each possibly null. *)
Definition UIController_screens
    (loginScreen mainAppContent dashboard bannerEditorScreen
     marketingEditorScreen landingEditorScreen : option Elem)
  : list (string * option Elem) :=
  [("login-screen", loginScreen);
   ("main-app-content", mainAppContent);
   ("dashboard-screen", dashboard);
   ("banner-editor-screen", bannerEditorScreen);
   ("marketing-editor-screen", marketingEditorScreen);
   ("landing-editor-screen", landingEditorScreen)].

End Navigation_and_session.

(** ** The services as main.js constructs them *)



(** ** UIController *)

Module UIController.

(** The elements the controller's handlers read and write, each [None] when
    the page has no such element: the two inputs of the login form, the
    login error line (its text and whether it carries the class [hidden]),
    the input for a new campaign's name, the campaign list (per item the
    text put into its markup as the name and the text put in as the id of
    its Load button) and the message shown when there is no campaign
    (whether it carries the class [hidden]). *)
Record t : Type := mk {
  usernameInput : option string;
  passwordInput : option string;
  loginErrorDisplay : option (string * bool);
  newCampaignNameInput : option string;
  campaignListContainer : option (list (string * string));
  noCampaignsFoundMessage : option bool
}.

(** Handlers run on the controller's elements and the world; both survive a
    throw.  The handlers declared [async] have no suspension point other
    than the [await] of an already settled call; a throw is the rejection of
    their promise. *)
Definition U (A : Type) : Type := t * World -> Completion A * (t * World).

Definition U_unit {A} (a : A) : U A := fun s => (Normal a, s).

Definition U_then {A B} (m : U A) (k : A -> U B) : U B :=
  fun s => match m s with
           | (Normal a, s') => k a s'
           | (Throw e, s') => (Throw e, s')
           end.

#[global] Instance U_ret : MRet U := @U_unit.
#[global] Instance U_bind : MBind U := fun A B k m => U_then m k.

(** A call into a service. *)
Definition service {A} (m : M A) : U A :=
  fun s => match m s.2 with
           | (r, w') => (r, (s.1, w'))
           end.

(** A read or an update of the controller's elements. *)
Definition element {A} (f : t -> A) : U A := fun s => (Normal (f s.1), s).
Definition update (f : t -> t) : U unit := fun s => (Normal tt, (f s.1, s.2)).
Definition raise {A} (e : Exn) : U A := fun s => (Throw e, s).

Ltac run_ui :=
  unfold mbind, U_bind, U_then, mret, U_ret, U_unit, service, element, update, raise;
  simpl.

(** The same, leaving the calls into the services folded. *)
Ltac open_ui :=
  unfold mbind, U_bind, U_then, mret, U_ret, U_unit, service, element, update, raise;
  cbv beta; cbn [fst snd].

Definition _displayLoginError (message : string) : U unit :=
  update (fun ui =>
    mk (usernameInput ui) (passwordInput ui)
       (set_value (loginErrorDisplay ui) (message, false))
       (newCampaignNameInput ui) (campaignListContainer ui)
       (noCampaignsFoundMessage ui)).

Definition _hideLoginError : U unit :=
  update (fun ui =>
    mk (usernameInput ui) (passwordInput ui)
       (set_value (loginErrorDisplay ui) ("", true))
       (newCampaignNameInput ui) (campaignListContainer ui)
       (noCampaignsFoundMessage ui)).

Definition _resetLoginForm : U unit :=
  update (fun ui =>
    mk (set_value (usernameInput ui) "") (set_value (passwordInput ui) "")
       (loginErrorDisplay ui)
       (newCampaignNameInput ui) (campaignListContainer ui)
       (noCampaignsFoundMessage ui)).

Section Handlers.
Context `{Platform} `{Page}.

Definition handleLogin : U unit :=
  usernameField ← element usernameInput;
  passwordField ← element passwordInput;
  (* [input?.value]: undefined and the empty string are both falsy *)
  let username := value_or usernameField "" in
  let password := value_or passwordField "" in
  if String.eqb username "" || String.eqb password "" then
    _displayLoginError "Please enter both username and password."
  else
    success ← service (login username password);
    if (success : bool) then
      service (console_log "Login successful!");;
      _hideLoginError;;
      service goToDashboard;;
      _resetLoginForm
    else
      _displayLoginError "Invalid username or password.".

Definition handleSignup : U unit :=
  usernameField ← element usernameInput;
  passwordField ← element passwordInput;
  let username := value_or usernameField "" in
  let password := value_or passwordField "" in
  if String.eqb username "" || String.eqb password "" then
    _displayLoginError "Please enter both username and password for signup."
  else
    success ← service (signup username password);
    if (success : bool) then
      service (console_log "Signup successful! Logged in automatically.");;
      _hideLoginError;;
      service goToDashboard;;
      _resetLoginForm
    else
      _displayLoginError "Username already exists. Please choose a different one.".

Definition handleCreateCampaign : U unit :=
  nameField ← element newCampaignNameInput;
  let campaignName := value_or nameField "New Campaign" in
  newCampaign ← service (createCampaign campaignName);
  service (setActiveCampaign newCampaign);;
  service (console_log "New campaign created and set as active:");;
  service (run_hook DisplayActiveCampaign);;
  (* this.newCampaignNameInput.value = '' *)
  match nameField with
  | Some _ =>
      update (fun ui =>
        mk (usernameInput ui) (passwordInput ui) (loginErrorDisplay ui)
           (Some "") (campaignListContainer ui) (noCampaignsFoundMessage ui))
  | None => raise TypeError
  end.

Definition handleLoadCampaign (campaignId : string) : M unit :=
  allCampaigns ← getAllCampaigns;
  campaignToLoad ← array_find
                     (fun c =>
                        id ← get_member c "id";
                        mret (strict_eq id (JStr campaignId)))
                     allCampaigns;
  if truthy campaignToLoad then
    setActiveCampaign campaignToLoad;;
    name ← get_member campaignToLoad "name";
    nameText ← complete (to_string name);
    console_log ("Campaign " +:+ dquote +:+ nameText +:+ dquote
                 +:+ " loaded and set as active.");;
    run_hook DisplayActiveCampaign
  else
    console_error ("Campaign with ID " +:+ dquote +:+ campaignId +:+ dquote
                   +:+ " not found.").

Definition handleSaveCampaign : M unit :=
  activeCampaign ← getActiveCampaign;
  if truthy activeCampaign then
    version ← Date_now;
    let updatedCampaign :=
      JObj (obj_set (spread activeCampaign) "assets"
              (JObj [("banner", JObj [("content", JStr "Saved banner content");
                                      ("version", JNum version)]);
                     ("marketingPage", JNull);
                     ("landingPage", JNull)])) in
    saveCampaign updatedCampaign;;
    setActiveCampaign updatedCampaign;;
    console_log "Campaign assets saved and active campaign updated!"
  else
    console_error "No active campaign to save.".

(** The two texts [renderCampaignList] puts into a list item's markup:
    [campaign.name || 'Unnamed Campaign'] and [campaign.id]. *)
Definition list_item (campaign : JsVal) : M (string * string) :=
  name ← get_member campaign "name";
  nameText ← complete (to_string (js_or name (JStr "Unnamed Campaign")));
  id ← get_member campaign "id";
  idText ← complete (to_string id);
  mret (nameText, idText).

Fixpoint append_items (campaigns : list JsVal) : U unit :=
  match campaigns with
  | [] => mret tt
  | campaign :: rest =>
      li ← service (list_item campaign);
      update (fun ui =>
        mk (usernameInput ui) (passwordInput ui) (loginErrorDisplay ui)
           (newCampaignNameInput ui)
           (match campaignListContainer ui with
            | Some items => Some (items ++ [li])
            | None => None
            end)
           (noCampaignsFoundMessage ui));;
      append_items rest
  end.

Definition renderCampaignList : U unit :=
  campaigns ← service getAllCampaigns;
  container ← element campaignListContainer;
  match container with
  | None => raise TypeError
  | Some _ =>
      update (fun ui =>
        mk (usernameInput ui) (passwordInput ui) (loginErrorDisplay ui)
           (newCampaignNameInput ui)
           (Some [])
           (set_value (noCampaignsFoundMessage ui)
                      (negb (Nat.eqb (length campaigns) 0))));;
      append_items campaigns
  end.

Definition init : U unit :=
  service checkLoginStatus;;
  renderCampaignList.



End Handlers.

End UIController.

(** ** The mail function of main.js *)

Module SendMail.

(** The request as the function receives it: the method and the body, a
    text that JSON.parse accepts or rejects. *)
Record Event : Type := mkEvent {
  httpMethod : JsVal;
  body : Item
}.

(** The object the function returns; its [body] is called [reply] here. *)
Record Response : Type := mkResponse {
  statusCode : Z;
  reply : string
}.

(** The host of the function: the mails nodemailer accepted, each with the
    transport options it was sent through, and the console. *)
Record Host : Type := mkHost {
  sent : list (JsVal * JsVal);
  console : list LogEntry
}.

(** What the function finds around it: [process.env.EMAIL_SERVICE],
    [process.env.EMAIL_USER] and [process.env.EMAIL_PASSWORD], strings or
    undefined when not set, and nodemailer: whether
    [createTransport(options)] returns and the promise of
    [sendMail(mailOptions)] resolves, rather than one of them throwing or the
    promise being rejected. *)
Class Mailer : Type := {
  EMAIL_SERVICE : JsVal;
  EMAIL_USER : JsVal;
  EMAIL_PASSWORD : JsVal;
  sendMail_resolves : JsVal -> JsVal -> bool
}.

Section Handler.
Context `{Mailer}.

(** A name picked from a parsed body by destructuring. *)
Definition picked (v : JsVal) (k : string) : JsVal :=
  match v with
  | JObj props => obj_get props k
  | _ => JUndefined
  end.

Definition transportOptions : JsVal :=
  JObj [("service", EMAIL_SERVICE);
        ("auth", JObj [("user", EMAIL_USER); ("pass", EMAIL_PASSWORD)])].

Definition mailOptions (recipient subject htmlContent : JsVal) : JsVal :=
  JObj [("from", EMAIL_USER);
        ("to", recipient);
        ("subject", subject);
        ("html", htmlContent)].

Definition handler (event : Event) (host : Host) : Completion Response * Host :=
  if negb (strict_eq (httpMethod event) (JStr "POST")) then
    (Normal (mkResponse 405 "Method Not Allowed"), host)
  else
    match body event with
    | RawText _ => (Throw SyntaxError, host)
    | JsonText JUndefined | JsonText JNull =>
        (* destructuring null *)
        (Throw TypeError, host)
    | JsonText parsed =>
        let recipient := picked parsed "recipient" in
        let subject := picked parsed "subject" in
        let htmlContent := picked parsed "htmlContent" in
        if negb (truthy recipient) || negb (truthy subject) || negb (truthy htmlContent)
        then
          (Normal (mkResponse 400
                     "Missing required fields: recipient, subject, or htmlContent"),
           host)
        else
          let mail := mailOptions recipient subject htmlContent in
          if sendMail_resolves transportOptions mail then
            (Normal (mkResponse 200 "Email sent successfully!"),
             mkHost (sent host ++ [(transportOptions, mail)]) (console host))
          else
            (Normal (mkResponse 500 "Failed to send email."),
             mkHost (sent host) (console host ++ [mkLog LError "Error sending email:"]))
    end.

(** The mail a body asks for. *)
Definition mail_of (parsed : JsVal) : JsVal :=
  mailOptions (picked parsed "recipient") (picked parsed "subject")
              (picked parsed "htmlContent").

(** The three fields of the body are present and truthy. *)
Definition complete (parsed : JsVal) : Prop :=
  truthy (picked parsed "recipient") = true /\
  truthy (picked parsed "subject") = true /\
  truthy (picked parsed "htmlContent") = true.

End Handler.

End SendMail.

(** ** A sample browser

    The functions of a [Platform] for the examples: ISO-8601 formatting of
    time values, a [Date.parse] that accepts that format, and a sort by
    insertion. *)

Module SampleBrowser.

Definition pad (width : nat) (n : Z) : string :=
  let digits := pretty (Z.abs n) in
  String.concat "" (replicate (width - String.length digits) "0") +:+ digits.

(** Year, month and day of a day number counted from 1970-01-01. *)
Definition civil_from_days (z : Z) : Z * Z * Z :=
  let z := z + 719468 in
  let era := z / 146097 in
  let doe := z - era * 146097 in
  let yoe := (doe - doe / 1460 + doe / 36524 - doe / 146096) / 365 in
  let doy := doe - (365 * yoe + yoe / 4 - yoe / 100) in
  let mp := (5 * doy + 2) / 153 in
  let d := doy - (153 * mp + 2) / 5 + 1 in
  let m := if mp <? 10 then mp + 3 else mp - 9 in
  let y := yoe + era * 400 + (if m <=? 2 then 1 else 0) in
  (y, m, d).

Definition days_from_civil (y m d : Z) : Z :=
  let y := if m <=? 2 then y - 1 else y in
  let era := y / 400 in
  let yoe := y - era * 400 in
  let doy := (153 * (if 2 <? m then m - 3 else m + 9) + 2) / 5 + d - 1 in
  let doe := yoe * 365 + yoe / 4 - yoe / 100 + doy in
  era * 146097 + doe - 719468.

Definition iso_string (t : Z) : string :=
  let '(y, m, d) := civil_from_days (t / 86400000) in
  let r := t mod 86400000 in
  let year :=
    if (0 <=? y) && (y <=? 9999) then pad 4 y
    else (if y <? 0 then "-" else "+") +:+ pad 6 y in
  year +:+ "-" +:+ pad 2 m +:+ "-" +:+ pad 2 d +:+ "T"
  +:+ pad 2 (r / 3600000) +:+ ":" +:+ pad 2 (r / 60000 mod 60) +:+ ":"
  +:+ pad 2 (r / 1000 mod 60) +:+ "." +:+ pad 3 (r mod 1000) +:+ "Z".

Definition digit (c : Ascii.ascii) : option Z :=
  let n := Z.of_nat (Ascii.nat_of_ascii c) in
  if (48 <=? n) && (n <=? 57) then Some (n - 48) else None.

Fixpoint number (acc : Z) (cs : list Ascii.ascii) : option Z :=
  match cs with
  | [] => Some acc
  | c :: rest =>
      match digit c with
      | Some d => number (10 * acc + d) rest
      | None => None
      end
  end.

(** Reads [YYYY-MM-DDTHH:mm:ss.sssZ] and nothing else. *)
Definition parse_iso (s : string) : option Z :=
  let cs := String.list_ascii_of_string s in
  let field (from len : nat) := number 0 (take len (drop from cs)) in
  let sep (at_ : nat) (c : string) :=
    String.eqb (String.substring at_ 1 s) c in
  if (String.length s =? 24)%nat && sep 4%nat "-" && sep 7%nat "-"
     && sep 10%nat "T" && sep 13%nat ":" && sep 16%nat ":"
     && sep 19%nat "." && sep 23%nat "Z"
  then
    y ← field 0%nat 4%nat; m ← field 5%nat 2%nat; d ← field 8%nat 2%nat;
    hh ← field 11%nat 2%nat; mm ← field 14%nat 2%nat; ss ← field 17%nat 2%nat;
    ms ← field 20%nat 3%nat;
    Some (days_from_civil y m d * 86400000
          + hh * 3600000 + mm * 60000 + ss * 1000 + ms)
  else None.

(** A stable sort by insertion: an element moves behind another only when
    the comparator is positive; NaN counts as 0. *)
Fixpoint sort_insert (cmp : JsVal -> JsVal -> Completion (option Z)) (x : JsVal)
    (l : list JsVal) : Completion (list JsVal) :=
  match l with
  | [] => Normal [x]
  | y :: rest =>
      match cmp x y with
      | Normal d =>
          if match d with Some n => 0 <? n | None => false end then
            match sort_insert cmp x rest with
            | Normal rest' => Normal (y :: rest')
            | Throw e => Throw e
            end
          else Normal (x :: y :: rest)
      | Throw e => Throw e
      end
  end.

Definition insertion_sort (cmp : JsVal -> JsVal -> Completion (option Z))
    (l : list JsVal) : Completion (list JsVal) :=
  foldr (fun x sorted =>
           match sorted with
           | Normal l' => sort_insert cmp x l'
           | Throw e => Throw e
           end)
        (Normal []) l.

End SampleBrowser.

(** ** Vocabulary of the statements *)

(** The value [JSON.parse] gives for what is stored under [key], [null] when
    nothing parseable is there: what [getItem key] is to return. *)
Definition read (m : gmap string Item) (key : string) : JsVal :=
  match m !! key with
  | Some (JsonText v) => v
  | _ => JNull
  end.

(** The stored text is not empty and not JSON: JSON.parse throws on it. *)
Definition unparseable (m : gmap string Item) (key : string) : bool :=
  match m !! key with
  | Some (RawText s) => negb (String.eqb s "")
  | _ => false
  end.

(** The string [localStorage.setItem] receives for [value]. *)
Definition text_of (value : JsVal) : Item :=
  match value with
  | JUndefined => RawText "undefined"
  | _ => JsonText (to_json value)
  end.

Definition getItem_error : LogEntry :=
  mkLog LError "Error getting item from Local Storage:".
Definition setItem_error : LogEntry :=
  mkLog LError "Error setting item to Local Storage:".
Definition no_active_campaign_error : LogEntry :=
  mkLog LError "No active campaign to save to.".

(** A user record of the directory. *)
Definition user_record (u : string * string) : JsVal :=
  JObj [("username", JStr u.1); ("password", JStr u.2)].

(** The user directory as [UserService._getUsers] reads it. *)
Definition directory (w : World) : JsVal :=
  js_or (read (localStorage w) USERS_KEY) (JArr []).

(** A session exists: the marker reads back as a truthy value. *)
Definition logged_in (w : World) : bool :=
  truthy (read (localStorage w) CURRENT_USER_KEY).

(** An active campaign exists: the pointer reads back as a truthy value. *)
Definition active_campaign_exists (w : World) : bool :=
  truthy (read (localStorage w) ACTIVE_CAMPAIGN_KEY).


(** Every registered screen has its element. *)
Definition all_elements (s : list (string * option Elem)) : bool :=
  forallb (fun '(_, screen) => bool_decide (is_Some screen)) s.

(** The elements of the registered screens. *)
Definition elements_of (s : list (string * option Elem)) : gset Elem :=
  list_to_set (omap snd s).

(** The campaign records in storage: the truthy values parsed from the keys
    that start with the campaign prefix. *)
Definition campaign_at (m : gmap string Item) (key : string) : option JsVal :=
  if String.prefix CAMPAIGN_PREFIX key then
    let campaign := read m key in
    if truthy campaign then Some campaign else None
  else None.

Definition stored_campaigns (m : gmap string Item) : list JsVal :=
  omap (campaign_at m) (map_to_list m).*1.

(** [v.name === name]. *)
Definition has_name (name : string) (v : JsVal) : bool :=
  match v with
  | JObj props => strict_eq (obj_get props "name") (JStr name)
  | _ => false
  end.

(** The time value of a record's [lastUpdated], if it has a valid one. *)
Definition stamp `{Platform} (v : JsVal) : option Z :=
  match date_value (match v with
                    | JObj props => obj_get props "lastUpdated"
                    | _ => JUndefined
                    end) with
  | Normal t => t
  | Throw _ => None
  end.

(** [a] is at least as recent as [b]; both carry a valid [lastUpdated]. *)
Definition not_older `{Platform} (a b : JsVal) : Prop :=
  exists ta tb, stamp a = Some ta /\ stamp b = Some tb /\ tb <= ta.

(** The record [createCampaign] builds from the two clock readings. *)
Definition new_campaign `{Platform} (campaignName : string) (t_id t_created : Z) : JsVal :=
  JObj [("id", JStr ("campaign_" +:+ Number_toString t_id));
        ("name", JStr campaignName);
        ("status", JStr "Draft");
        ("assets", JObj [("banner", JNull);
                         ("marketingPage", JNull);
                         ("landingPage", JNull)]);
        ("createdAt", JStr (toISOString t_created))].

(** The storage key of a campaign created at clock reading [t_id]. *)
Definition campaign_key `{Platform} (t_id : Z) : string :=
  CAMPAIGN_PREFIX +:+ ("campaign_" +:+ Number_toString t_id).

(** The scenario of the dashboard: create, activate, list. *)
Definition create_activate_list `{Platform} (campaignName : string) : M (list JsVal) :=
  newCampaign ← createCampaign campaignName;
  setActiveCampaign newCampaign;;
  getAllCampaigns.

(** The router can run: every registered screen has its element and the
    authenticated shell is registered. *)
Definition router_ready (s : list (string * option Elem)) : bool :=
  all_elements s && bool_decide (is_Some (screens_get s "main-app-content")).

(** The classes after [_showScreen screenId], from the classes before. *)
Definition shown (s : list (string * option Elem)) (screenId : string)
    (hidden : gset Elem) : gset Elem :=
  match screens_get s screenId, screens_get s "main-app-content" with
  | Some screen, Some shell =>
      if String.eqb screenId "login-screen"
      then ((hidden ∪ elements_of s) ∖ {[screen]}) ∪ {[shell]}
      else ((hidden ∪ elements_of s) ∖ {[screen]}) ∖ {[shell]}
  | _, _ => hidden ∪ elements_of s
  end.

(** The session marker [login] stores. *)
Definition session_marker (username : string) : JsVal :=
  JObj [("username", JStr username)].

(** The campaign read from one storage entry, if it is one. *)
Definition campaign_of_entry (entry : string * Item) : option JsVal :=
  if String.prefix CAMPAIGN_PREFIX entry.1 then
    match entry.2 with
    | JsonText v => if truthy v then Some v else None
    | RawText _ => None
    end
  else None.

(** The claim on create, activate, list as the specification words it:
    exactly one listed record has the name, and it is first whenever it is
    at least as recent as every listed record. *)
Definition exactly_one_and_first_if_most_recent `{Platform}
    (campaignName : string) (w : World) : Prop :=
  exists l w',
    create_activate_list campaignName w = (Normal l, w') /\
    exists r,
      List.filter (has_name campaignName) l = [r] /\
      (Forall (not_older r) l -> head l = Some r).

(** The form controls a template touches, in the order of the source. *)
Definition landing_inputs (ed : LandingPageEditor.t) : list (option string) :=
  [LandingPageEditor.titleInput ed;
   LandingPageEditor.paragraphInput ed;
   LandingPageEditor.imageUrlInput ed;
   LandingPageEditor.ctaTextInput ed;
   LandingPageEditor.ctaLinkInput ed;
   LandingPageEditor.bgColorInput ed;
   LandingPageEditor.textColorInput ed].

(** The control exists and holds text. *)
Definition populated (input : option string) : Prop :=
  exists v, input = Some v /\ v <> "".

(** The claim on switching templates as the specification words it, for the
    landing page editor: populated title, paragraph and image are left as
    they are, and a control changes only if it was empty. *)
Definition template_overwrites_only_empty_fields
    (templateId : string) (ed : LandingPageEditor.t) : Prop :=
  populated (LandingPageEditor.titleInput ed) ->
  populated (LandingPageEditor.paragraphInput ed) ->
  populated (LandingPageEditor.imageUrlInput ed) ->
  let ed' := LandingPageEditor._applyTemplate templateId ed in
  LandingPageEditor.titleInput ed' = LandingPageEditor.titleInput ed /\
  LandingPageEditor.paragraphInput ed' = LandingPageEditor.paragraphInput ed /\
  LandingPageEditor.imageUrlInput ed' = LandingPageEditor.imageUrlInput ed /\
  Forall2 (fun before after => after <> before -> before = Some "")
          (landing_inputs ed) (landing_inputs ed').

(** A control that keeps typed text and takes the preset only when empty. *)
Definition kept_or_filled (before after : option string) (preset : string) : Prop :=
  (forall v, before = Some v -> v <> "" -> after = Some v) /\
  (before = Some "" -> after = Some preset) /\
  (before = None -> after = None).

(** A control that takes the preset whatever it held. *)
Definition overwritten (before after : option string) (preset : string) : Prop :=
  (forall v, before = Some v -> after = Some preset) /\
  (before = None -> after = None).

(** Only the login screen shows: its element is visible and the element of
    every other registered screen is hidden. *)
Definition login_only (loginScreen : Elem) (w : World) : Prop :=
  (loginScreen ∉ classHidden w) /\
  (forall screenId e,
      (screenId, Some e) ∈ screens w -> e <> loginScreen -> e ∈ classHidden w).

(** The record [createInitialUser] seeds the directory with. *)
Definition initialUser : JsVal :=
  JObj [("username", JStr "testuser"); ("password", JStr "password123")].

(** An authenticated screen shows: its element and the shell are visible and
    the element of every other registered screen is hidden. *)
Definition shows_only (target shell : Elem) (w : World) : Prop :=
  (target ∉ classHidden w) /\
  (shell ∉ classHidden w) /\
  (forall screenId e,
      (screenId, Some e) ∈ screens w -> e <> target -> e <> shell ->
      e ∈ classHidden w).

(** What an editor's save does once it holds the active campaign: it puts
    the asset into the slot of the campaign's [assets], saves the campaign
    under its id and makes it the active campaign again. *)
Definition store_asset `{Platform} (slot : string) (data : JsVal)
    (message : string) (activeCampaign : JsVal) : M unit :=
  assets ← get_member activeCampaign "assets";
  assets' ← set_member assets slot data;
  activeCampaign' ← set_member activeCampaign "assets" assets';
  saveCampaign activeCampaign';;
  setActiveCampaign activeCampaign';;
  console_log message.

(** The campaign record with [data] in the slot of its [assets]. *)
Definition with_asset (props aprops : list (string * JsVal)) (slot : string)
    (data : JsVal) : list (string * JsVal) :=
  obj_set props "assets" (JObj (obj_set aprops slot data)).

(** The record with [lastUpdated] set to the ISO text of the time [t]. *)
Definition stamped `{Platform} (props : list (string * JsVal)) (t : Z)
  : list (string * JsVal) :=
  obj_set props "lastUpdated" (JStr (toISOString t)).

(** Plain data: no BigInt and no property called [toString] anywhere in
    the value.  What this program writes to storage is plain: numbers,
    strings, booleans, null, and objects built from literals with fixed
    property names. *)
Fixpoint plain (v : JsVal) : bool :=
  match v with
  | JBigInt _ => false
  | JArr l => forallb plain l
  | JObj ps =>
      negb (has_key ps "toString") && forallb (fun '(_, x) => plain x) ps
  | _ => true
  end.

(** [v.k] of a truthy [v], for the property names this program uses. *)
Definition field (v : JsVal) (k : string) : JsVal :=
  match v with
  | JObj props => obj_get props k
  | _ => JUndefined
  end.

(** The record's [lastUpdated] is plain data, so that it converts to a
    date, valid or not. *)
Definition datable (campaign : JsVal) : bool :=
  plain (field campaign "lastUpdated").

(** Every campaign record in storage is [datable]. *)
Definition campaigns_datable (m : gmap string Item) : Prop :=
  forall key v,
    m !! key = Some (JsonText v) ->
    String.prefix CAMPAIGN_PREFIX key = true ->
    datable v = true.

(** Every campaign record in storage is plain data. *)
Definition campaigns_plain (m : gmap string Item) : Prop :=
  forall key v,
    m !! key = Some (JsonText v) ->
    String.prefix CAMPAIGN_PREFIX key = true ->
    plain v = true.

(** The lines [lines] are added to the console and nothing else changes. *)
Definition logged (lines : list LogEntry) (w : World) : World :=
  with_console (fun c => c ++ lines) w.

(** Whatever its outcome, [m] changes nothing but the console, to which it
    adds. *)
Definition only_logs {A} (m : M A) : Prop :=
  forall w, exists lines, (m w).2 = logged lines w.

(** The campaign has an [assets] that takes a named property: an object or
    an array. *)
Definition has_assets_object (v : JsVal) : bool :=
  match v with
  | JObj props =>
      match obj_get props "assets" with
      | JObj _ | JArr _ => true
      | _ => false
      end
  | _ => false
  end.

(** The asset objects the three saves build from the form. *)
Definition bannerData (ed : BannerEditor.t) : JsVal :=
  JObj [("type", JStr (value_or (BannerEditor.bannerTypeSelect ed) "square"));
        ("text", JStr (value_or (BannerEditor.bannerTextInput ed) ""));
        ("bgColor", JStr (value_or (BannerEditor.bannerBgColorInput ed) "#ffffff"));
        ("textColor", JStr (value_or (BannerEditor.bannerTextColorInput ed) "#000000"));
        ("fontSize",
          match BannerEditor.bannerFontSizeInput ed with
          | Some v => if String.eqb v "" then JNum 16 else JStr v
          | None => JNum 16
          end);
        ("fontFamily", JStr (value_or (BannerEditor.bannerFontFamilySelect ed) "sans-serif"))].

Definition marketingPageData (ed : MarketingPageEditor.t) : JsVal :=
  JObj [("templateId", MarketingPageEditor.currentTemplateId ed);
        ("title", JStr (value_or (MarketingPageEditor.titleInput ed) ""));
        ("paragraph1", JStr (value_or (MarketingPageEditor.paragraph1Input ed) ""));
        ("imageUrl", JStr (value_or (MarketingPageEditor.imageUrlInput ed) ""));
        ("bgColor", JStr (value_or (MarketingPageEditor.bgColorInput ed) "#f8f8f8"));
        ("textColor", JStr (value_or (MarketingPageEditor.textColorInput ed) "#333333"))].

Definition landingPageData (ed : LandingPageEditor.t) : JsVal :=
  JObj [("templateId", LandingPageEditor.currentTemplateId ed);
        ("title", JStr (value_or (LandingPageEditor.titleInput ed) ""));
        ("paragraph", JStr (value_or (LandingPageEditor.paragraphInput ed) ""));
        ("imageUrl", JStr (value_or (LandingPageEditor.imageUrlInput ed) ""));
        ("ctaText", JStr (value_or (LandingPageEditor.ctaTextInput ed) ""));
        ("ctaLink", JStr (value_or (LandingPageEditor.ctaLinkInput ed) "#"));
        ("bgColor", JStr (value_or (LandingPageEditor.bgColorInput ed) "#e0f2f7"));
        ("textColor", JStr (value_or (LandingPageEditor.textColorInput ed) "#0a2a43"));
        ("includeLeadForm",
          JBool (checked_or_false (LandingPageEditor.collectLeadsCheckbox ed)))].

(** Every control of the form exists and holds text. *)
Definition banner_filled (ed : BannerEditor.t) : Prop :=
  populated (BannerEditor.bannerTypeSelect ed) /\
  populated (BannerEditor.bannerTextInput ed) /\
  populated (BannerEditor.bannerBgColorInput ed) /\
  populated (BannerEditor.bannerTextColorInput ed) /\
  populated (BannerEditor.bannerFontSizeInput ed) /\
  populated (BannerEditor.bannerFontFamilySelect ed).

Definition marketing_filled (ed : MarketingPageEditor.t) : Prop :=
  is_json (MarketingPageEditor.currentTemplateId ed) = true /\
  populated (MarketingPageEditor.titleInput ed) /\
  populated (MarketingPageEditor.paragraph1Input ed) /\
  populated (MarketingPageEditor.imageUrlInput ed) /\
  populated (MarketingPageEditor.bgColorInput ed) /\
  populated (MarketingPageEditor.textColorInput ed).

Definition landing_filled (ed : LandingPageEditor.t) : Prop :=
  is_json (LandingPageEditor.currentTemplateId ed) = true /\
  populated (LandingPageEditor.titleInput ed) /\
  populated (LandingPageEditor.paragraphInput ed) /\
  populated (LandingPageEditor.imageUrlInput ed) /\
  populated (LandingPageEditor.ctaTextInput ed) /\
  populated (LandingPageEditor.ctaLinkInput ed) /\
  populated (LandingPageEditor.bgColorInput ed) /\
  populated (LandingPageEditor.textColorInput ed) /\
  is_Some (LandingPageEditor.collectLeadsCheckbox ed).

(** Storage after an editor's save of [data] into [slot] of the active
    campaign [props], whose storage key is [key], at clock reading [t], both
    writes accepted. *)
Definition saved_storage `{Platform} (key : string)
    (props aprops : list (string * JsVal))
    (slot : string) (data : JsVal) (t : Z) (m : gmap string Item)
  : gmap string Item :=
  <[ACTIVE_CAMPAIGN_KEY := JsonText (JObj (stamped (with_asset props aprops slot data) t))]>
    (<[key := JsonText (JObj (with_asset props aprops slot data))]> m).

(** [v && v.assets && v.assets[slot]] as a value: what [saved_asset]
    returns. *)
Definition asset_of (v : JsVal) (slot : string) : JsVal :=
  if truthy v then
    match v with
    | JObj props =>
        let assets := obj_get props "assets" in
        if truthy assets then
          match assets with
          | JObj aprops => obj_get aprops slot
          | _ => JUndefined
          end
        else assets
    | _ => JUndefined
    end
  else v.

(** Every control of the form exists. *)
Definition banner_present (ed : BannerEditor.t) : Prop :=
  is_Some (BannerEditor.bannerTypeSelect ed) /\
  is_Some (BannerEditor.bannerTextInput ed) /\
  is_Some (BannerEditor.bannerBgColorInput ed) /\
  is_Some (BannerEditor.bannerTextColorInput ed) /\
  is_Some (BannerEditor.bannerFontSizeInput ed) /\
  is_Some (BannerEditor.bannerFontFamilySelect ed).

Definition marketing_present (ed : MarketingPageEditor.t) : Prop :=
  is_Some (MarketingPageEditor.titleInput ed) /\
  is_Some (MarketingPageEditor.paragraph1Input ed) /\
  is_Some (MarketingPageEditor.imageUrlInput ed) /\
  is_Some (MarketingPageEditor.bgColorInput ed) /\
  is_Some (MarketingPageEditor.textColorInput ed).

Definition landing_present (ed : LandingPageEditor.t) : Prop :=
  is_Some (LandingPageEditor.titleInput ed) /\
  is_Some (LandingPageEditor.paragraphInput ed) /\
  is_Some (LandingPageEditor.imageUrlInput ed) /\
  is_Some (LandingPageEditor.ctaTextInput ed) /\
  is_Some (LandingPageEditor.ctaLinkInput ed) /\
  is_Some (LandingPageEditor.bgColorInput ed) /\
  is_Some (LandingPageEditor.textColorInput ed) /\
  is_Some (LandingPageEditor.collectLeadsCheckbox ed).

(** [v.id === campaignId]. *)
Definition has_id (campaignId : string) (v : JsVal) : bool :=
  match v with
  | JObj props => strict_eq (obj_get props "id") (JStr campaignId)
  | _ => false
  end.

(** The assets [handleSaveCampaign] writes at time [t]. *)
Definition placeholder_assets (t : Z) : JsVal :=
  JObj [("banner", JObj [("content", JStr "Saved banner content");
                         ("version", JNum t)]);
        ("marketingPage", JNull);
        ("landingPage", JNull)].


Definition campaign_not_found_error (campaignId : string) : LogEntry :=
  mkLog LError ("Campaign with ID " +:+ dquote +:+ campaignId +:+ dquote
                +:+ " not found.").

Definition campaign_saved_log (nameText key : string) : LogEntry :=
  mkLog LLog ("Campaign " +:+ dquote +:+ nameText +:+ dquote
              +:+ " saved with key: " +:+ key).

Definition active_campaign_updated_log : LogEntry :=
  mkLog LLog "Active campaign updated:".

(** The list item [renderCampaignList] builds for a listed campaign: the
    text put into its markup as the name, "Unnamed Campaign" for a falsy
    name, and the text put in as the id of its button. *)
Definition item_of `{Platform} (campaign : JsVal) : Completion (string * string) :=
  match to_string (js_or (field campaign "name") (JStr "Unnamed Campaign")) with
  | Normal nameText =>
      match to_string (field campaign "id") with
      | Normal idText => Normal (nameText, idText)
      | Throw e => Throw e
      end
  | Throw e => Throw e
  end.

(** The controller's elements with the login error line set to [line]. *)
Definition with_login_error (line : string * bool) (ui : UIController.t)
  : UIController.t :=
  UIController.mk (UIController.usernameInput ui) (UIController.passwordInput ui)
    (set_value (UIController.loginErrorDisplay ui) line)
    (UIController.newCampaignNameInput ui) (UIController.campaignListContainer ui)
    (UIController.noCampaignsFoundMessage ui).

(** Case analysis on a lookup in a sample storage written with inserts. *)
Ltac by_stored_key H :=
  repeat
    (first
       [ apply lookup_insert_Some in H as [[<- H] | [? H]]
       | apply lookup_singleton_Some in H as [<- H] ]).

(** ** Sample pages and editors for the examples *)

Module Samples.

(** The clock starts at 2024-01-01T00:00:00.000Z and advances one
    millisecond per reading. *)
Definition clock (n : nat) : Z := 1704067200000 + Z.of_nat n.

(** The six screens of the page; elements are numbered in registration
    order. *)
Definition screens : list (string * option Elem) :=
  UIController_screens (Some 1%nat) (Some 2%nat) (Some 3%nat)
                       (Some 4%nat) (Some 5%nat) (Some 6%nat).

(** The page as first wired: empty storage, the login screen showing. *)
Definition page (storage : gmap string Item) : World :=
  mkWorld storage [] clock 0
          {[2%nat; 3%nat; 4%nat; 5%nat; 6%nat]}
          screens true (Some 3%nat)
          [DashboardRefreshListener; NavigationListener] [].

Definition fresh_page : World := page ∅.

(** A fresh page whose clock stands still: every reading is the same
    millisecond. *)
Definition frozen_page : World :=
  mkWorld ∅ [] (fun _ => 1704067200000) 0
          {[2%nat; 3%nat; 4%nat; 5%nat; 6%nat]}
          screens true (Some 3%nat)
          [DashboardRefreshListener; NavigationListener] [].

(** A directory with one user. *)
Definition ann : JsVal :=
  JObj [("username", JStr "ann"); ("password", JStr "s3cret")].

Definition page_with_ann : World :=
  page {[ USERS_KEY := JsonText (JArr [ann]) ]}.

(** A stored campaign with a stamp, as an editor save leaves it. *)
Definition stored_campaign (id name lastUpdated : string) : JsVal :=
  JObj [("id", JStr id);
        ("name", JStr name);
        ("status", JStr "Draft");
        ("assets", JObj [("banner", JNull);
                         ("marketingPage", JNull);
                         ("landingPage", JNull)]);
        ("createdAt", JStr "2023-12-31T00:00:00.000Z");
        ("lastUpdated", JStr lastUpdated)].

Definition winter_sale : JsVal :=
  stored_campaign "campaign_1703980800000" "Winter Sale" "2023-12-31T08:00:00.000Z".

Definition old_spring_sale : JsVal :=
  stored_campaign "campaign_1703980800000" "Spring Sale" "2023-12-31T08:00:00.000Z".

Definition page_with_winter_sale : World :=
  page {[ "campaign_campaign_1703980800000" := JsonText winter_sale ]}.

Definition page_with_spring_sale : World :=
  page {[ "campaign_campaign_1703980800000" := JsonText old_spring_sale ]}.

(** A landing page form in which every control holds the user's text. *)
Definition typed_landing : LandingPageEditor.t :=
  LandingPageEditor.mk (JStr "template1")
    (Some "Summer Launch")
    (Some "Everything new this summer.")
    (Some "https://example.com/summer.png")
    (Some "Shop now")
    (Some "#shop")
    (Some "#123456")
    (Some "#fefefe")
    (Some true).

Definition typed_marketing : MarketingPageEditor.t :=
  MarketingPageEditor.mk (JStr "template1")
    (Some "Summer Launch")
    (Some "")
    (Some "https://example.com/summer.png")
    (Some "#123456")
    None.

Definition typed_banner : BannerEditor.t :=
  BannerEditor.mk (Some "square") (Some "50% off") (Some "#4a90e2")
                  (Some "#ffffff") (Some "24") (Some "Arial, sans-serif").

(** The page with ann logged in. *)
Definition page_with_session : World :=
  page {[ USERS_KEY := JsonText (JArr [ann]);
          CURRENT_USER_KEY := JsonText (session_marker "ann") ]}.

(** A document that lacks the landing editor screen. *)
Definition page_without_landing_screen : World :=
  mkWorld ∅ [] clock 0 {[2%nat; 3%nat; 4%nat; 5%nat]}
          (UIController_screens (Some 1%nat) (Some 2%nat) (Some 3%nat)
                                (Some 4%nat) (Some 5%nat) None)
          true (Some 3%nat)
          [DashboardRefreshListener; NavigationListener] [].

(** A directory that was overwritten with an object. *)
Definition page_with_corrupted_directory : World :=
  page {[ USERS_KEY := JsonText (JObj [("ann", JStr "s3cret")]) ]}.

(** Two stored campaigns, the winter sale being the active one. *)
Definition summer_sale : JsVal :=
  stored_campaign "campaign_1703984400000" "Summer Sale" "2023-12-31T09:00:00.000Z".

Definition winter_sale_props : list (string * JsVal) := spread winter_sale.
Definition summer_sale_props : list (string * JsVal) := spread summer_sale.

Definition empty_assets : list (string * JsVal) :=
  [("banner", JNull); ("marketingPage", JNull); ("landingPage", JNull)].

Definition page_with_two_campaigns : World :=
  page {[ "campaign_campaign_1703980800000" := JsonText winter_sale;
          "campaign_campaign_1703984400000" := JsonText summer_sale;
          ACTIVE_CAMPAIGN_KEY := JsonText winter_sale ]}.

(** An active campaign that was stored without its assets. *)
Definition page_with_bare_campaign : World :=
  page {[ ACTIVE_CAMPAIGN_KEY := JsonText (JObj [("name", JStr "Winter Sale")]) ]}.

(** A marketing form in which every control holds text. *)
Definition filled_marketing : MarketingPageEditor.t :=
  MarketingPageEditor.mk (JStr "template2")
    (Some "Summer Launch")
    (Some "Everything new this summer.")
    (Some "https://example.com/summer.png")
    (Some "#123456")
    (Some "#fefefe").

(** A banner form as the page first shows it: nothing typed. *)
Definition blank_banner : BannerEditor.t :=
  BannerEditor.mk (Some "") (Some "") (Some "") (Some "") (Some "") (Some "").

(** The controller's elements with the login form filled in. *)
Definition login_form (username password : string) : UIController.t :=
  UIController.mk (Some username) (Some password) (Some ("", true))
                  (Some "Spring Sale") (Some []) (Some false).

(** A document without the campaign list and the input for a new
    campaign's name. *)
Definition bare_elements : UIController.t :=
  UIController.mk (Some "") (Some "") None None None None.


(** A mail account through which every mail goes out except one to an
    address known to bounce. *)
Definition mailer : SendMail.Mailer :=
  {| SendMail.EMAIL_SERVICE := JStr "gmail";
     SendMail.EMAIL_USER := JStr "ads@example.com";
     SendMail.EMAIL_PASSWORD := JStr "app-password";
     SendMail.sendMail_resolves := fun _ mail =>
       negb (strict_eq (obj_get (spread mail) "to") (JStr "bounce@example.com")) |}.

(** A request to mail the winter sale page to a colleague. *)
Definition review_request : SendMail.Event :=
  SendMail.mkEvent (JStr "POST")
    (JsonText (JObj [("recipient", JStr "lee@example.com");
                     ("subject", JStr "Winter Sale");
                     ("htmlContent", JStr "<h1>Winter Sale</h1>")])).

End Samples.

(** * Properties *)

Section Gateway.
Context {browser : Platform}.

Lemma getItem_run key w :
  getItem key w =
  (Normal (read (localStorage w) key),
   if unparseable (localStorage w) key
   then with_console (fun c => c ++ [getItem_error]) w
   else w).
Proof.
  unfold getItem, localStorage_getItem, read, unparseable, console_error.
  run_monad.
  destruct (localStorage w !! key) as [[v|s]|]; simpl; try reflexivity.
  destruct (String.eqb s ""); reflexivity.
Qed.

Lemma getItem_storage key w r w' :
  getItem key w = (r, w') -> localStorage w' = localStorage w.
Proof.
  rewrite getItem_run. intros [= _ <-].
  destruct (unparseable (localStorage w) key); reflexivity.
Qed.

Lemma setItem_run key value w :
  setItem key value w =
  if negb (has_bigint value)
     && quota_ok (<[key := text_of value]> (localStorage w))
  then (Normal true,
        with_localStorage (fun _ => <[key := text_of value]> (localStorage w)) w)
  else (Normal false, with_console (fun c => c ++ [setItem_error]) w).
Proof.
  unfold setItem, JSON_stringify, localStorage_setItem, console_error, text_of.
  run_monad.
  destruct (has_bigint value) eqn:Hb; simpl; [reflexivity|].
  destruct value; simpl in *;
    match goal with
    | |- context [quota_ok ?m] => destruct (quota_ok m)
    end; reflexivity.
Qed.

Lemma removeItem_run key w :
  removeItem key w = (Normal tt, with_localStorage (delete key) w).
Proof. reflexivity. Qed.

End Gateway.

(** Code that only logs, and the conversions of plain values. *)
Section Plain_values.
Context {browser : Platform}.

Lemma logged_nil (w : World) : logged [] w = w.
Proof. destruct w. unfold logged, with_console. simpl. rewrite app_nil_r. reflexivity. Qed.

Lemma logged_logged (l1 l2 : list LogEntry) (w : World) :
  logged l2 (logged l1 w) = logged (l1 ++ l2) w.
Proof. unfold logged, with_console. simpl. rewrite app_assoc. reflexivity. Qed.

Lemma only_logs_ret {A} (a : A) : only_logs (mret a : M A).
Proof. intros w. exists []. symmetry. apply logged_nil. Qed.

Lemma only_logs_complete {A} (c : Completion A) : only_logs (complete c).
Proof. intros w. exists []. symmetry. apply logged_nil. Qed.

Lemma only_logs_throw {A} (e : Exn) : only_logs (throw e : M A).
Proof. intros w. exists []. symmetry. apply logged_nil. Qed.

Lemma only_logs_bind {A B} (m : M A) (k : A -> M B) :
  only_logs m -> (forall a, only_logs (k a)) -> only_logs (m ≫= k).
Proof.
  intros Hm Hk w. destruct (Hm w) as [l1 H1].
  unfold mbind, M_bind, bind. destruct (m w) as [[a|e] w1]; simpl in H1; subst w1.
  - destruct (Hk a (logged l1 w)) as [l2 H2]. exists (l1 ++ l2).
    rewrite H2. apply logged_logged.
  - exists l1. reflexivity.
Qed.

Lemma only_logs_console (lvl : Level) (s : string) :
  only_logs (modify (with_console (fun c => c ++ [mkLog lvl s]))).
Proof. intros w. exists [mkLog lvl s]. reflexivity. Qed.

Lemma only_logs_get_member (v : JsVal) (k : string) : only_logs (get_member v k).
Proof. destruct v; simpl; first [apply only_logs_throw | apply (only_logs_ret (A := JsVal))]. Qed.

Lemma only_logs_getItem (key : string) : only_logs (getItem key).
Proof.
  intros w. rewrite getItem_run. destruct (unparseable (localStorage w) key); simpl.
  - exists [getItem_error]. reflexivity.
  - exists []. symmetry. apply logged_nil.
Qed.

Lemma in_turn_normal {A} (steps : list (Completion A)) :
  Forall (fun c => exists a, c = Normal a) steps ->
  exists l, in_turn steps = Normal l.
Proof.
  induction 1 as [|c steps [a ->] _ [l IH]]; simpl.
  - eexists. reflexivity.
  - rewrite IH. eexists. reflexivity.
Qed.

(** A plain value has a string. *)
Lemma to_string_plain (v : JsVal) :
  plain v = true -> exists text, to_string v = Normal text.
Proof.
  induction v as [| |b|n|n|s|l IH|ps IH] using JsVal_nested_ind;
    simpl; intros Hplain; try (eexists; reflexivity).
  - destruct b; eexists; reflexivity.
  - destruct (in_turn_normal
                (map (fun x => match x with
                               | JUndefined | JNull => Normal ""
                               | _ => to_string x
                               end) l)) as [texts ->]; [|eexists; reflexivity].
    apply Forall_map. rewrite forallb_forall in Hplain.
    rewrite Forall_forall in IH. apply Forall_forall. intros x Hx.
    destruct (IH x Hx (Hplain x (proj1 (list_elem_of_In _ _) Hx))) as [text Htext].
    destruct x; try (eexists; reflexivity); exact (ex_intro _ text Htext).
  - apply andb_prop in Hplain as [Hkey _]. apply negb_true_iff in Hkey.
    rewrite Hkey. eexists. reflexivity.
Qed.

(** A plain value has a date, valid or not. *)
Lemma date_value_plain (v : JsVal) :
  plain v = true -> exists t, date_value v = Normal t.
Proof.
  intros Hplain. destruct (to_string_plain v Hplain) as [text Htext].
  destruct v; try (eexists; reflexivity); try discriminate;
    unfold date_value; rewrite Htext; eexists; reflexivity.
Qed.

Lemma plain_obj_get (props : list (string * JsVal)) (k : string) :
  plain (JObj props) = true -> plain (obj_get props k) = true.
Proof.
  simpl. intros Hplain. apply andb_prop in Hplain as [_ Hall].
  induction props as [|[k' v] props IH]; simpl in *; [reflexivity|].
  apply andb_prop in Hall as [Hv Hall].
  destruct (String.eqb k' k); [exact Hv|apply IH, Hall].
Qed.

Lemma plain_field (v : JsVal) (k : string) :
  plain v = true -> plain (field v k) = true.
Proof. destruct v; simpl; try reflexivity. apply plain_obj_get. Qed.

Lemma plain_js_or (a b : JsVal) :
  plain a = true -> plain b = true -> plain (js_or a b) = true.
Proof. unfold js_or. destruct (truthy a); auto. Qed.

Lemma plain_obj_set (props : list (string * JsVal)) (k : string) (v : JsVal) :
  k <> "toString" ->
  plain (JObj props) = true -> plain v = true ->
  plain (JObj (obj_set props k v)) = true.
Proof.
  intros Hk. apply String.eqb_neq in Hk. simpl. intros Hprops Hv.
  apply andb_prop in Hprops as [Hkey Hall]. apply negb_true_iff in Hkey.
  unfold has_key in *.
  induction props as [|[k' v'] props IH]; simpl in *.
  - rewrite Hk, Hv. reflexivity.
  - apply orb_false_elim in Hkey as [Hk' Hkey].
    apply andb_prop in Hall as [Hv' Hall].
    specialize (IH Hkey Hall). apply andb_prop in IH as [IH1 IH2].
    apply negb_true_iff in IH1.
    destruct (String.eqb k' k); simpl; rewrite Hk'; simpl.
    + rewrite Hkey, Hv, Hall. reflexivity.
    + rewrite IH1, Hv', IH2. reflexivity.
Qed.

Lemma get_member_truthy (v : JsVal) (k : string) (w : World) :
  truthy v = true -> get_member v k w = (Normal (field v k), w).
Proof. destruct v; simpl; try discriminate; reflexivity. Qed.

End Plain_values.


Section Claims_storage_session.
Context {browser : Platform}.

(** C8.  No operation of the storage gateway throws.  [setItem] completes
    with a boolean that is [false] exactly when JSON.stringify fails (a
    BigInt in the value) or the browser refuses the write (its quota), and
    then storage is unchanged; when it is [true] the text is stored under the
    key.  [getItem] completes with the value parsed from the stored text, and
    with [null] when the key is missing or the text is not JSON; it never
    writes.  [removeItem] completes and the key is gone. *)
Theorem C8_storage_gateway_absorbs_failures (key : string) (value : JsVal) (w : World) :
  (exists b w1,
      setItem key value w = (Normal b, w1) /\
      (b = false <->
         has_bigint value = true \/
         quota_ok (<[key := text_of value]> (localStorage w)) = false) /\
      (b = false -> localStorage w1 = localStorage w) /\
      (b = true -> localStorage w1 = <[key := text_of value]> (localStorage w)))
  /\ (exists v w2,
        getItem key w = (Normal v, w2) /\
        localStorage w2 = localStorage w /\
        (forall x, localStorage w !! key = Some (JsonText x) -> v = x) /\
        (localStorage w !! key = None -> v = JNull) /\
        (forall s, localStorage w !! key = Some (RawText s) -> v = JNull))
  /\ (exists w3,
        removeItem key w = (Normal tt, w3) /\ localStorage w3 !! key = None).
Proof.
  split; [|split].
  - rewrite setItem_run.
    destruct (has_bigint value) eqn:Hb; simpl.
    + eexists _, _. split; [reflexivity|]. repeat split; auto; discriminate.
    + destruct (quota_ok _) eqn:Hq.
      * eexists _, _. split; [reflexivity|]. repeat split; auto; try discriminate.
        intros [?|?]; discriminate.
      * eexists _, _. split; [reflexivity|]. repeat split; auto; discriminate.
  - eexists _, _. split; [apply getItem_run|].
    split; [eapply getItem_storage, getItem_run|].
    unfold read. repeat split.
    + intros x ->. reflexivity.
    + intros ->. reflexivity.
    + intros s ->. reflexivity.
  - eexists. split; [apply removeItem_run|]. simpl. apply lookup_delete_eq.
Qed.

Lemma getActiveCampaign_absent w :
  active_campaign_exists w = false ->
  exists w', getActiveCampaign w = (Normal (read (localStorage w) ACTIVE_CAMPAIGN_KEY), w') /\
             localStorage w' = localStorage w /\
             truthy (read (localStorage w) ACTIVE_CAMPAIGN_KEY) = false.
Proof.
  intros Hno. eexists. split; [apply getItem_run|].
  split; [eapply getItem_storage, getItem_run|exact Hno].
Qed.

Lemma last_snoc_console e w :
  last (console (with_console (fun c => c ++ [e]) w)) = Some e.
Proof. simpl. apply last_snoc. Qed.

(** C6.  With no active campaign, each editor's save (banner, marketing
    page, landing page) completes after logging "No active campaign to save
    to." as an error, and localStorage afterwards is localStorage before. *)
Theorem C6_save_without_active_campaign_writes_nothing (w : World) :
  active_campaign_exists w = false ->
  forall (banner : BannerEditor.t) (marketing : MarketingPageEditor.t)
         (landing : LandingPageEditor.t),
    (exists w1, BannerEditor.saveBanner banner w = (Normal tt, w1) /\
                localStorage w1 = localStorage w /\
                last (console w1) = Some no_active_campaign_error)
    /\ (exists w2, MarketingPageEditor.savePage marketing w = (Normal tt, w2) /\
                   localStorage w2 = localStorage w /\
                   last (console w2) = Some no_active_campaign_error)
    /\ (exists w3, LandingPageEditor.savePage landing w = (Normal tt, w3) /\
                   localStorage w3 = localStorage w /\
                   last (console w3) = Some no_active_campaign_error).
Proof.
  intros Hno banner marketing landing.
  destruct (getActiveCampaign_absent w Hno) as (w' & Hget & Hst & Hf).
  repeat split.
  - unfold BannerEditor.saveBanner. run_monad. rewrite Hget, Hf. simpl.
    eexists. split; [reflexivity|]. split; [exact Hst|apply last_snoc].
  - unfold MarketingPageEditor.savePage. run_monad. rewrite Hget, Hf. simpl.
    eexists. split; [reflexivity|]. split; [exact Hst|apply last_snoc].
  - unfold LandingPageEditor.savePage. run_monad. rewrite Hget, Hf. simpl.
    eexists. split; [reflexivity|]. split; [exact Hst|apply last_snoc].
Qed.

End Claims_storage_session.


Section Router.
Context {browser : Platform} {document : Page}.

Lemma for_each_hide (l : list (string * option Elem)) (w : World) :
  all_elements l = true ->
  for_each (fun '(_, screen) => classList_add_hidden screen) l w =
  (Normal tt, with_classHidden (fun h => h ∪ elements_of l) w).
Proof.
  revert w. unfold all_elements.
  induction l as [|[k [e|]] l IH]; intros w Hall; simpl in *.
  - unfold ret, elements_of, with_classHidden. simpl. destruct w; simpl.
    do 2 f_equal. set_solver.
  - run_monad. rewrite (IH _ Hall). unfold with_classHidden, elements_of. simpl.
    do 2 f_equal. set_solver.
  - discriminate.
Qed.

Lemma hideAllScreens_run (w : World) :
  all_elements (screens w) = true ->
  _hideAllScreens w =
  (Normal tt, with_classHidden (fun h => h ∪ elements_of (screens w)) w).
Proof.
  intros Hall. unfold _hideAllScreens. run_monad. apply for_each_hide, Hall.
Qed.

(** The callbacks only log. *)
Ltac only_logging :=
  unfold console_log, console_warn, console_error;
  repeat first
    [ apply only_logs_getItem
    | apply only_logs_get_member
    | apply only_logs_complete
    | apply only_logs_console
    | apply only_logs_throw
    | apply only_logs_ret
    | apply only_logs_bind; [|intros ?]
    | match goal with
      | |- only_logs (if ?b then _ else _) => destruct b
      | |- only_logs (match ?x with _ => _ end) => destruct x
      end ].

Lemma only_logs_assign_value (input : option string) (v : JsVal) :
  only_logs (assign_value input v).
Proof. unfold assign_value. only_logging. Qed.

Lemma only_logs_saved_asset (activeCampaign : JsVal) (slot : string) :
  only_logs (saved_asset activeCampaign slot).
Proof. unfold saved_asset. only_logging. Qed.

Lemma only_logs_loadBanner (ed : BannerEditor.t) : only_logs (BannerEditor.loadBanner ed).
Proof.
  unfold BannerEditor.loadBanner, getActiveCampaign.
  repeat first [apply only_logs_assign_value | apply only_logs_saved_asset | progress only_logging].
Qed.

Lemma only_logs_loadMarketingPage (ed : MarketingPageEditor.t) :
  only_logs (MarketingPageEditor.loadPage ed).
Proof.
  unfold MarketingPageEditor.loadPage, getActiveCampaign.
  repeat first [apply only_logs_assign_value | apply only_logs_saved_asset | progress only_logging].
Qed.

Lemma only_logs_loadLandingPage (ed : LandingPageEditor.t) :
  only_logs (LandingPageEditor.loadPage ed).
Proof.
  unfold LandingPageEditor.loadPage, getActiveCampaign.
  repeat first [apply only_logs_assign_value | apply only_logs_saved_asset | progress only_logging].
Qed.

Lemma only_logs_displayActiveCampaign : only_logs displayActiveCampaign.
Proof. unfold displayActiveCampaign, getActiveCampaign. only_logging. Qed.

(** The active campaign holding plain data, the callbacks complete. *)
Lemma saved_asset_plain (activeCampaign : JsVal) (slot : string) (w : World) :
  exists v,
    saved_asset activeCampaign slot w = (Normal v, w) /\
    (plain activeCampaign = true -> plain v = true).
Proof.
  unfold saved_asset. destruct (truthy activeCampaign) eqn:Hc.
  - run_monad. rewrite (get_member_truthy _ _ _ Hc).
    destruct (truthy (field activeCampaign "assets")) eqn:Ha.
    + rewrite (get_member_truthy _ _ _ Ha). eexists. split; [reflexivity|].
      intros Hp. apply plain_field, plain_field, Hp.
    + eexists. split; [reflexivity|]. intros Hp. apply plain_field, Hp.
  - eexists. split; [reflexivity|]. auto.
Qed.

Lemma assign_value_plain (input : option string) (v : JsVal) (w : World) :
  plain v = true -> exists input', assign_value input v w = (Normal input', w).
Proof.
  intros Hp. unfold assign_value, dom_string. destruct input; [|eexists; reflexivity].
  run_monad. destruct (to_string_plain v Hp) as [text Htext].
  destruct v; try rewrite Htext; eexists; reflexivity.
Qed.

(** Runs the assignments of a load from the plain asset [v]. *)
Ltac assign_plain Hv Ht :=
  repeat first
    [ rewrite (get_member_truthy _ _ _ Ht); simpl
    | match goal with
      | |- context [assign_value ?i (field ?v ?k) ?w] =>
          let input' := fresh "input'" in
          destruct (assign_value_plain i (field v k) w (plain_field v k Hv))
            as [input' ->]; simpl
      end ].

Lemma loadBanner_completes (ed : BannerEditor.t) (w : World) :
  plain (read (localStorage w) ACTIVE_CAMPAIGN_KEY) = true ->
  exists ed', (BannerEditor.loadBanner ed w).1 = Normal ed'.
Proof.
  intros Hp. unfold BannerEditor.loadBanner, getActiveCampaign. run_monad.
  rewrite getItem_run. simpl.
  match goal with
  | |- context [saved_asset ?c ?slot ?w0] =>
      destruct (saved_asset_plain c slot w0) as (v & -> & Hv)
  end.
  specialize (Hv Hp). destruct (truthy v) eqn:Ht; [|eexists; reflexivity].
  assign_plain Hv Ht. eexists. reflexivity.
Qed.

Lemma loadMarketingPage_completes (ed : MarketingPageEditor.t) (w : World) :
  plain (read (localStorage w) ACTIVE_CAMPAIGN_KEY) = true ->
  exists ed', (MarketingPageEditor.loadPage ed w).1 = Normal ed'.
Proof.
  intros Hp. unfold MarketingPageEditor.loadPage, getActiveCampaign. run_monad.
  rewrite getItem_run. simpl.
  match goal with
  | |- context [saved_asset ?c ?slot ?w0] =>
      destruct (saved_asset_plain c slot w0) as (v & -> & Hv)
  end.
  specialize (Hv Hp). destruct (truthy v) eqn:Ht; [|eexists; reflexivity].
  assign_plain Hv Ht. eexists. reflexivity.
Qed.

Lemma loadLandingPage_completes (ed : LandingPageEditor.t) (w : World) :
  plain (read (localStorage w) ACTIVE_CAMPAIGN_KEY) = true ->
  exists ed', (LandingPageEditor.loadPage ed w).1 = Normal ed'.
Proof.
  intros Hp. unfold LandingPageEditor.loadPage, getActiveCampaign. run_monad.
  rewrite getItem_run. simpl.
  match goal with
  | |- context [saved_asset ?c ?slot ?w0] =>
      destruct (saved_asset_plain c slot w0) as (v & -> & Hv)
  end.
  specialize (Hv Hp). destruct (truthy v) eqn:Ht; [|eexists; reflexivity].
  assign_plain Hv Ht. eexists. reflexivity.
Qed.

Lemma displayActiveCampaign_completes (w : World) :
  plain (read (localStorage w) ACTIVE_CAMPAIGN_KEY) = true ->
  (displayActiveCampaign w).1 = Normal tt.
Proof.
  intros Hp. unfold displayActiveCampaign, getActiveCampaign. run_monad.
  rewrite getItem_run. simpl.
  destruct (campaignOverview && activeCampaignName && activeCampaignStatus
            && activeCampaignLastUpdated && noCampaignMessage); [|reflexivity].
  set (c := read (localStorage w) ACTIVE_CAMPAIGN_KEY) in *.
  destruct (truthy c) eqn:Ht; [|reflexivity].
  rewrite (get_member_truthy _ _ _ Ht).
  destruct (to_string_plain (js_or (field c "name") (JStr "Unnamed Campaign")))
    as [? ->]; [apply plain_js_or; [apply plain_field, Hp|reflexivity]|].
  rewrite (get_member_truthy _ _ _ Ht).
  destruct (to_string_plain (js_or (field c "status") (JStr "Active")))
    as [? ->]; [apply plain_js_or; [apply plain_field, Hp|reflexivity]|].
  rewrite (get_member_truthy _ _ _ Ht).
  destruct (date_value_plain (field c "lastUpdated")) as [? ->];
    [apply plain_field, Hp|].
  reflexivity.
Qed.

Lemma displayActiveCampaign_run (w : World) :
  plain (read (localStorage w) ACTIVE_CAMPAIGN_KEY) = true ->
  exists lines, displayActiveCampaign w = (Normal tt, logged lines w).
Proof.
  intros Hplain. destruct (only_logs_displayActiveCampaign w) as [lines Hlines].
  pose proof (displayActiveCampaign_completes w Hplain) as Hc.
  destruct (displayActiveCampaign w) as [r w1]. simpl in *. subst. eauto.
Qed.

(** A render callback is recorded and adds lines to the console; it changes
    nothing else, and it completes when the active campaign holds plain
    data. *)
Lemma run_hook_run (h : Hook) (w : World) :
  exists r lines,
    run_hook h w = (r, logged lines (with_rendered (fun l => l ++ [h]) w)) /\
    (plain (read (localStorage w) ACTIVE_CAMPAIGN_KEY) = true -> r = Normal tt).
Proof.
  unfold run_hook. run_monad.
  set (w0 := with_rendered (fun l => l ++ [h]) w).
  assert (Hst : localStorage w0 = localStorage w) by reflexivity.
  destruct h.
  - (* the banner editor *)
    unfold BannerEditor_render.
    destruct (bannerPreview
              && bool_decide (is_Some (BannerEditor.bannerTextInput bannerEditor))
              && bool_decide (is_Some (BannerEditor.bannerTypeSelect bannerEditor))).
    + run_monad.
      destruct (only_logs_loadBanner bannerEditor w0) as [lines Hlines].
      destruct (BannerEditor.loadBanner bannerEditor w0) as [[ed'|e] w1] eqn:Hload;
        simpl in Hlines; subst w1; eexists _, lines; (split; [reflexivity|]);
        intros Hp; [reflexivity|].
      rewrite <- Hst in Hp. destruct (loadBanner_completes bannerEditor w0 Hp) as [? Hc].
      rewrite Hload in Hc. discriminate.
    + exists (Normal tt), [mkLog LWarn "Banner Editor DOM elements not fully loaded or available."].
      split; reflexivity.
  - (* the marketing page editor *)
    unfold MarketingPageEditor_render. run_monad.
    destruct (only_logs_loadMarketingPage marketingPageEditor w0) as [lines Hlines].
    destruct (MarketingPageEditor.loadPage marketingPageEditor w0) as [[ed'|e] w1] eqn:Hload;
      simpl in Hlines; subst w1.
    + destruct marketingPreviewContainer.
      * exists (Normal tt), (lines ++ [mkLog LLog "Marketing Page Preview: Using image URL:"]).
        split; [|reflexivity]. unfold console_log. run_monad.
        rewrite <- logged_logged. reflexivity.
      * exists (Normal tt), lines. split; reflexivity.
    + eexists _, lines. split; [reflexivity|]. intros Hp.
      rewrite <- Hst in Hp.
      destruct (loadMarketingPage_completes marketingPageEditor w0 Hp) as [? Hc].
      rewrite Hload in Hc. discriminate.
  - (* the landing page editor *)
    unfold LandingPageEditor_render. run_monad.
    destruct (only_logs_loadLandingPage landingPageEditor w0) as [lines Hlines].
    destruct (LandingPageEditor.loadPage landingPageEditor w0) as [[ed'|e] w1] eqn:Hload;
      simpl in Hlines; subst w1; eexists _, lines; (split; [reflexivity|]);
      intros Hp; [reflexivity|].
    rewrite <- Hst in Hp.
    destruct (loadLandingPage_completes landingPageEditor w0 Hp) as [? Hc].
    rewrite Hload in Hc. discriminate.
  - (* the dashboard *)
    destruct (only_logs_displayActiveCampaign w0) as [lines Hlines].
    pose proof (displayActiveCampaign_completes w0) as Hc.
    destruct (displayActiveCampaign w0) as [r w1]; simpl in *; subst w1.
    exists r, lines. split; [reflexivity|]. intros Hp. rewrite Hc; [reflexivity|].
    exact Hp.
Qed.

(** [_showScreen] on a page whose router can run: whatever the outcome, the
    classes are those of [shown] and storage, the registry, the listeners
    and the dashboard element are as before.  It completes for the login
    screen, and for any screen id that is not an inherited member name when
    the active campaign holds plain data. *)
Lemma showScreen_run (screenId : string) (w : World) :
  router_ready (screens w) = true ->
  exists r w',
    _showScreen screenId w = (r, w') /\
    localStorage w' = localStorage w /\
    screens w' = screens w /\
    authChangeListeners w' = authChangeListeners w /\
    dashboardScreen w' = dashboardScreen w /\
    classHidden w' = shown (screens w) screenId (classHidden w) /\
    (screenId = "login-screen" -> r = Normal tt) /\
    (screenId ∉ inherited_names ->
     plain (read (localStorage w) ACTIVE_CAMPAIGN_KEY) = true -> r = Normal tt).
Proof.
  intros Hready. apply andb_prop in Hready as [Hall Hshell].
  apply bool_decide_eq_true in Hshell as [shell Hshell].
  unfold _showScreen. run_monad.
  rewrite (hideAllScreens_run w Hall). simpl.
  unfold shown. rewrite Hshell.
  destruct (screens_get (screens w) screenId) as [screen|] eqn:Hget; simpl.
  - unfold classList_remove_hidden, classList_add_hidden. run_monad.
    destruct (String.eqb screenId "login-screen") eqn:Hlogin; simpl;
      destruct (uiController w); simpl;
      repeat match goal with
             | |- context [if String.eqb screenId ?s then _ else _] =>
                 let E := fresh "E" in destruct (String.eqb screenId s) eqn:E; simpl
             end;
      try match goal with
          | |- context [run_hook ?h ?w0] =>
              destruct (run_hook_run h w0) as (r & lines & -> & Hr)
          end;
      eexists _, _; (split; [reflexivity|]); simpl;
      repeat split; try reflexivity;
      try (intros ->; discriminate);
      try (intros _ Hp; apply Hr; exact Hp).
  - destruct (negb (is_registered (screens w) screenId)
              && bool_decide (screenId ∈ inherited_names)) eqn:Hin.
    + eexists _, _. split; [reflexivity|]. simpl. repeat split.
      * intros ->. apply andb_prop in Hin as [_ Hin]. vm_compute in Hin. discriminate.
      * intros Hout _. apply andb_prop in Hin as [_ Hin].
        apply bool_decide_eq_true in Hin. contradiction.
    + unfold console_error. run_monad.
      eexists _, _. split; [reflexivity|]. simpl. repeat split; reflexivity.
Qed.

End Router.


Section Navigation.
Context {browser : Platform} {document : Page}.

Lemma getItem_frame key w :
  exists w',
    getItem key w = (Normal (read (localStorage w) key), w') /\
    localStorage w' = localStorage w /\
    screens w' = screens w /\
    classHidden w' = classHidden w.
Proof.
  rewrite getItem_run.
  destruct (unparseable (localStorage w) key);
    eexists; (split; [reflexivity|]); repeat split; reflexivity.
Qed.

(** Without a session, each of the four guarded navigations is a navigation
    to the login screen. *)
Lemma guarded_navigation_redirects (nav : M unit) (w : World) :
  nav = goToDashboard \/ nav = goToBannerEditor \/
  nav = goToMarketingPageEditor \/ nav = goToLandingPageEditor ->
  logged_in w = false ->
  nav w = goToLogin (getItem CURRENT_USER_KEY w).2.
Proof.
  intros Hnav Hout.
  destruct (getItem_frame CURRENT_USER_KEY w) as (w0 & Hget & _).
  unfold logged_in in Hout.
  destruct Hnav as [-> | [-> | [-> | ->]]];
    unfold goToDashboard, goToBannerEditor, goToMarketingPageEditor,
           goToLandingPageEditor, getLoggedInUser;
    run_monad; rewrite Hget, Hout; reflexivity.
Qed.

Lemma registered_in_elements (s : list (string * option Elem)) screenId e :
  (screenId, Some e) ∈ s -> e ∈ elements_of s.
Proof.
  intros Hin. unfold elements_of. apply elem_of_list_to_set.
  apply list_elem_of_omap. exists (screenId, Some e). split; [exact Hin|reflexivity].
Qed.


End Navigation.

Section Session_loss.
Context {browser : Platform} {document : Page}.

Lemma goToLogin_login_only (w : World) (loginScreen shell : Elem) :
  all_elements (screens w) = true ->
  screens_get (screens w) "login-screen" = Some loginScreen ->
  screens_get (screens w) "main-app-content" = Some shell ->
  shell <> loginScreen ->
  exists w',
    goToLogin w = (Normal tt, w') /\
    localStorage w' = localStorage w /\
    screens w' = screens w /\
    login_only loginScreen w'.
Proof.
  intros Hall Hlogin Hshell Hne.
  destruct (showScreen_run "login-screen" w)
    as (r & w' & Hshow & Hst & Hsc & _ & _ & Hcl & Hr & _).
  { unfold router_ready. rewrite Hall, Hshell. reflexivity. }
  rewrite (Hr eq_refl) in Hshow.
  exists w'. split; [exact Hshow|]. split; [exact Hst|]. split; [exact Hsc|].
  unfold login_only. rewrite Hcl, Hsc. unfold shown. rewrite Hlogin, Hshell. simpl.
  split.
  - set_solver.
  - intros screenId e Hin He.
    pose proof (registered_in_elements _ _ _ Hin). set_solver.
Qed.

(** Told that the session is gone, the listeners leave the login screen
    showing, provided the router's listener is among them. *)
Lemma notify_session_loss (ls : list Listener) (w : World) (loginScreen shell : Elem) :
  all_elements (screens w) = true ->
  screens_get (screens w) "login-screen" = Some loginScreen ->
  screens_get (screens w) "main-app-content" = Some shell ->
  shell <> loginScreen ->
  NavigationListener ∈ ls \/ login_only loginScreen w ->
  exists w',
    for_each (fun listener => run_listener listener JNull) ls w = (Normal tt, w') /\
    localStorage w' = localStorage w /\
    login_only loginScreen w'.
Proof.
  revert w. induction ls as [|listener ls IH]; intros w Hall Hlogin Hshell Hne Hcase.
  - destruct Hcase as [Hin|Honly]; [inversion Hin|].
    exists w. repeat split; try reflexivity; apply Honly.
  - simpl. run_monad. destruct listener.
    + (* the dashboard's listener does nothing for a null user *)
      assert (Hskip : run_listener DashboardRefreshListener JNull w = (Normal tt, w)).
      { unfold run_listener. run_monad. destruct (dashboardScreen w); reflexivity. }
      rewrite Hskip.
      apply (IH w Hall Hlogin Hshell Hne).
      destruct Hcase as [Hin|Honly]; [|right; exact Honly].
      apply elem_of_cons in Hin as [Hin|Hin]; [discriminate|left; exact Hin].
    + destruct (goToLogin_login_only w loginScreen shell Hall Hlogin Hshell Hne)
        as (w1 & Hgo & Hst1 & Hsc1 & Honly1).
      change (run_listener NavigationListener JNull w) with (goToLogin w).
      rewrite Hgo.
      rewrite <- Hsc1 in Hall, Hlogin, Hshell.
      destruct (IH w1 Hall Hlogin Hshell Hne (or_intror Honly1))
        as (w' & Hrest & Hst' & Honly').
      exists w'. split; [exact Hrest|]. split; [congruence|exact Honly'].
Qed.

(** After [logout] on a page wired with the router's listener, no session
    exists and only the login screen shows. *)
Lemma logout_returns_to_login (w : World) (loginScreen shell : Elem) :
  NavigationListener ∈ authChangeListeners w ->
  all_elements (screens w) = true ->
  screens_get (screens w) "login-screen" = Some loginScreen ->
  screens_get (screens w) "main-app-content" = Some shell ->
  shell <> loginScreen ->
  exists w',
    logout w = (Normal tt, w') /\
    logged_in w' = false /\
    login_only loginScreen w'.
Proof.
  intros Hwired Hall Hlogin Hshell Hne.
  unfold logout, _notifyAuthChange. run_monad.
  destruct (notify_session_loss (authChangeListeners w)
              (with_localStorage (delete CURRENT_USER_KEY) w) loginScreen shell)
    as (w' & Hrun & Hst & Honly); try assumption.
  { left. exact Hwired. }
  exists w'. split; [exact Hrun|]. split; [|exact Honly].
  unfold logged_in, read. rewrite Hst. simpl. rewrite lookup_delete_eq. reflexivity.
Qed.

End Session_loss.

Section Claims_navigation.
Context {browser : Platform} {document : Page}.

(** C7.  A request for the dashboard or one of the three editors, made
    while no session exists, runs as a navigation to the login screen: on a
    page whose registered screens all have their elements, with the login
    screen and the shell registered on distinct elements, the login element
    ends up visible and the element of every other registered screen, the
    shell included, ends up hidden.  Storage is not written. *)
Theorem C7_no_session_shows_login_only
    (nav : M unit) (w : World) (loginScreen shell : Elem) :
  nav = goToDashboard \/ nav = goToBannerEditor \/
  nav = goToMarketingPageEditor \/ nav = goToLandingPageEditor ->
  logged_in w = false ->
  all_elements (screens w) = true ->
  screens_get (screens w) "login-screen" = Some loginScreen ->
  screens_get (screens w) "main-app-content" = Some shell ->
  shell <> loginScreen ->
  exists w',
    nav w = (Normal tt, w') /\
    nav w = goToLogin (getItem CURRENT_USER_KEY w).2 /\
    localStorage w' = localStorage w /\
    screens w' = screens w /\
    login_only loginScreen w'.
Proof.
  intros Hnav Hout Hall Hlogin Hshell Hne.
  pose proof (guarded_navigation_redirects nav w Hnav Hout) as Hredirect.
  destruct (getItem_frame CURRENT_USER_KEY w) as (w0 & Hget & Hst & Hsc & Hcl).
  rewrite Hget in Hredirect. simpl in Hredirect.
  rewrite <- Hsc in Hall, Hlogin, Hshell.
  destruct (goToLogin_login_only w0 loginScreen shell Hall Hlogin Hshell Hne)
    as (w' & Hgo & Hst' & Hsc' & Honly).
  exists w'. split; [congruence|]. split; [rewrite Hget; exact Hredirect|].
  split; [congruence|]. split; [congruence|exact Honly].
Qed.


End Claims_navigation.


Section Session.
Context {browser : Platform} {document : Page}.

Lemma strict_eq_JStr (v : JsVal) (s : string) :
  strict_eq v (JStr s) = true <-> v = JStr s.
Proof.
  destruct v; simpl; try (split; [discriminate|discriminate]).
  rewrite String.eqb_eq. split; [intros ->; reflexivity|intros [= ->]; reflexivity].
Qed.

(** The callbacks of [getUser] and [saveUser] read and never write. *)
Lemma array_find_state (p : JsVal -> M bool) l w r w' :
  (forall x w0, (p x w0).2 = w0) ->
  array_find p l w = (r, w') -> w' = w.
Proof.
  intros Hp. revert w. induction l as [|x l IH]; intros w; simpl.
  - intros [= _ <-]. reflexivity.
  - run_monad. specialize (Hp x w). destruct (p x w) as [[b|e] w0]; simpl in Hp; subst w0.
    + destruct b; [intros [= _ <-]; reflexivity|apply IH].
    + intros [= _ <-]. reflexivity.
Qed.

Lemma username_test_state (against : JsVal) x w0 :
  ((name ← get_member x "username"; mret (strict_eq name against)) w0).2 = w0.
Proof. destruct x; reflexivity. Qed.

Lemma getItem_state_found key w :
  truthy (read (localStorage w) key) = true -> getItem key w = (Normal (read (localStorage w) key), w).
Proof.
  intros Ht. rewrite getItem_run. unfold read, unparseable in *.
  destruct (localStorage w !! key) as [[v|s]|]; try reflexivity; discriminate.
Qed.

Lemma getUser_found_state username w user w1 :
  getUser username w = (Normal user, w1) -> truthy user = true -> w1 = w.
Proof.
  unfold getUser, _getUsers. run_monad. rewrite getItem_run. simpl.
  unfold js_or.
  destruct (truthy (read (localStorage w) USERS_KEY)) eqn:Ht.
  - assert (Hu : unparseable (localStorage w) USERS_KEY = false).
    { unfold read, unparseable in *.
      destruct (localStorage w !! USERS_KEY) as [[v|s]|]; try reflexivity; discriminate. }
    rewrite Hu. destruct (read (localStorage w) USERS_KEY); simpl; try discriminate.
    intros Hfind _. eapply array_find_state; [|exact Hfind].
    intros x w0. apply username_test_state.
  - simpl. intros [= <- _]. discriminate.
Qed.

(** C5.  When [getUser] finds a user for the username and the password
    given is not the stored one, [login] returns [false] and the world after
    it is the world before it: the session marker, all of storage, the
    screens and the console.  No listener runs. *)
Theorem C5_login_wrong_password_changes_nothing
    (username password : string) (props : list (string * JsVal)) (w w1 : World) :
  getUser username w = (Normal (JObj props), w1) ->
  obj_get props "password" <> JStr password ->
  login username password w = (Normal false, w).
Proof.
  intros Hget Hpw.
  assert (w1 = w) by (eapply getUser_found_state; [exact Hget|reflexivity]).
  subst w1. unfold login. run_monad. rewrite Hget. simpl.
  destruct (strict_eq (obj_get props "password") (JStr password)) eqn:Heq;
    [|reflexivity].
  apply strict_eq_JStr in Heq. contradiction.
Qed.

End Session.


Section Directory.
Context {browser : Platform} {document : Page}.

Lemma to_json_users (users : list (string * string)) :
  to_json (JArr (user_record <$> users)) = JArr (user_record <$> users) /\
  has_bigint (JArr (user_record <$> users)) = false.
Proof.
  split; simpl.
  - f_equal. induction users as [|u users IH]; simpl; [reflexivity|].
    f_equal. exact IH.
  - induction users as [|u users IH]; simpl; [reflexivity|exact IH].
Qed.

Lemma array_find_users (p : JsVal -> M bool) (username : string)
    (users : list (string * string)) w :
  (forall u w0, p (user_record u) w0 = (Normal (String.eqb u.1 username), w0)) ->
  array_find p (user_record <$> users) w
  = (Normal (from_option user_record JUndefined
               (find (fun u => String.eqb u.1 username) users)), w).
Proof.
  intros Hp. induction users as [|u users IH]; simpl; [reflexivity|].
  run_monad. rewrite Hp. destruct (String.eqb u.1 username); [reflexivity|exact IH].
Qed.

Lemma array_some_users (p : JsVal -> M bool) (username : string)
    (users : list (string * string)) w :
  (forall u w0, p (user_record u) w0 = (Normal (String.eqb u.1 username), w0)) ->
  array_some p (user_record <$> users) w
  = (Normal (existsb (fun u => String.eqb u.1 username) users), w).
Proof.
  intros Hp. induction users as [|u users IH]; simpl; [reflexivity|].
  run_monad. rewrite Hp. destruct (String.eqb u.1 username); [reflexivity|exact IH].
Qed.

Lemma existsb_username_absent (username : string) (users : list (string * string)) :
  username ∉ users.*1 ->
  existsb (fun u => String.eqb u.1 username) users = false.
Proof.
  induction users as [|u users IH]; simpl; intros Hnot; [reflexivity|].
  apply not_elem_of_cons in Hnot as [Hne Hnot].
  rewrite (IH Hnot), orb_false_r. apply String.eqb_neq. congruence.
Qed.

Lemma find_username_last (username password : string) (users : list (string * string)) :
  username ∉ users.*1 ->
  find (fun u => String.eqb u.1 username) (users ++ [(username, password)])
  = Some (username, password).
Proof.
  induction users as [|u users IH]; simpl; intros Hnot.
  - rewrite String.eqb_refl. reflexivity.
  - apply not_elem_of_cons in Hnot as [Hne Hnot].
    assert (String.eqb u.1 username = false) as -> by (apply String.eqb_neq; congruence).
    apply IH, Hnot.
Qed.

Lemma read_insert_ne (m : gmap string Item) (key key' : string) (i : Item) :
  key <> key' -> read (<[key := i]> m) key' = read m key'.
Proof. intros Hne. unfold read. rewrite lookup_insert_ne by exact Hne. reflexivity. Qed.

Lemma run_listener_ok (listener : Listener) (user : JsVal) (w : World) :
  router_ready (screens w) = true ->
  plain (read (localStorage w) ACTIVE_CAMPAIGN_KEY) = true ->
  exists w',
    run_listener listener user w = (Normal tt, w') /\
    localStorage w' = localStorage w /\
    screens w' = screens w /\
    authChangeListeners w' = authChangeListeners w.
Proof.
  intros Hready Hplain. destruct listener; simpl.
  - run_monad.
    destruct (dashboardScreen w) as [e|]; simpl.
    + destruct (truthy user && negb (bool_decide (e ∈ classHidden w))).
      * destruct (run_hook_run DisplayActiveCampaign w) as (r & lines & -> & Hr).
        rewrite (Hr Hplain). eexists. split; [reflexivity|]. repeat split; reflexivity.
      * eexists; (split; [reflexivity|]); repeat split; reflexivity.
    + eexists; (split; [reflexivity|]); repeat split; reflexivity.
  - assert (Hnav : forall screenId guarded,
               screenId ∉ inherited_names ->
               exists w', (user0 ← getLoggedInUser;
                           if truthy user0 then _showScreen screenId
                           else if (guarded : bool) then goToLogin else _showScreen screenId) w
                          = (Normal tt, w') /\
                          localStorage w' = localStorage w /\
                          screens w' = screens w /\
                          authChangeListeners w' = authChangeListeners w).
    { intros screenId guarded Hid. unfold getLoggedInUser. run_monad.
      rewrite getItem_run. simpl.
      set (w0 := if unparseable (localStorage w) CURRENT_USER_KEY
                 then with_console (fun c => c ++ [getItem_error]) w else w).
      assert (Hw0 : localStorage w0 = localStorage w /\ screens w0 = screens w /\
                    authChangeListeners w0 = authChangeListeners w).
      { subst w0. destruct (unparseable _ _); repeat split; reflexivity. }
      destruct Hw0 as (Hst & Hsc & Hls).
      assert (Hready0 : router_ready (screens w0) = true) by (rewrite Hsc; exact Hready).
      assert (Hplain0 : plain (read (localStorage w0) ACTIVE_CAMPAIGN_KEY) = true)
        by (rewrite Hst; exact Hplain).
      unfold goToLogin.
      destruct (truthy _); [|destruct guarded].
      - destruct (showScreen_run screenId w0 Hready0)
          as (r & w' & -> & ? & ? & ? & _ & _ & _ & Hr).
        rewrite (Hr Hid Hplain0). exists w'. repeat split; congruence.
      - destruct (showScreen_run "login-screen" w0 Hready0)
          as (r & w' & -> & ? & ? & ? & _ & _ & Hr & _).
        rewrite (Hr eq_refl). exists w'. repeat split; congruence.
      - destruct (showScreen_run screenId w0 Hready0)
          as (r & w' & -> & ? & ? & ? & _ & _ & _ & Hr).
        rewrite (Hr Hid Hplain0). exists w'. repeat split; congruence. }
    destruct (truthy user).
    + apply (Hnav "dashboard-screen" true).
      apply (bool_decide_unpack ("dashboard-screen" ∉ inherited_names)).
      vm_compute. exact I.
    + destruct (showScreen_run "login-screen" w Hready)
        as (r & w' & Hs & ? & ? & ? & _ & _ & Hr & _).
      rewrite (Hr eq_refl) in Hs.
      exists w'. unfold goToLogin. repeat split; assumption.
Qed.

Lemma notifyAuthChange_ok (user : JsVal) (w : World) :
  router_ready (screens w) = true ->
  plain (read (localStorage w) ACTIVE_CAMPAIGN_KEY) = true ->
  exists w',
    _notifyAuthChange user w = (Normal tt, w') /\
    localStorage w' = localStorage w /\
    screens w' = screens w.
Proof.
  unfold _notifyAuthChange. run_monad.
  generalize (authChangeListeners w) as ls. intros ls. revert w.
  induction ls as [|listener ls IH]; intros w Hready Hplain; simpl.
  - exists w. repeat split; reflexivity.
  - run_monad.
    destruct (run_listener_ok listener user w Hready Hplain) as (w1 & -> & Hst & Hsc & _).
    destruct (IH w1) as (w2 & -> & Hst2 & Hsc2);
      [rewrite Hsc; exact Hready|rewrite Hst; exact Hplain|].
    exists w2. repeat split; congruence.
Qed.

Lemma getUser_run (username : string) (users : list (string * string)) (w : World) :
  read (localStorage w) USERS_KEY = JArr (user_record <$> users) ->
  getUser username w =
  (Normal (from_option user_record JUndefined
             (find (fun u => String.eqb u.1 username) users)), w).
Proof.
  intros Hdir. unfold getUser, _getUsers. run_monad.
  rewrite getItem_state_found by (rewrite Hdir; reflexivity).
  rewrite Hdir. simpl.
  apply array_find_users. intros u w0. reflexivity.
Qed.

Lemma login_registered (username password : string)
    (users : list (string * string)) (w : World) :
  read (localStorage w) USERS_KEY = JArr (user_record <$> users) ->
  find (fun u => String.eqb u.1 username) users = Some (username, password) ->
  quota_ok (<[CURRENT_USER_KEY := JsonText (session_marker username)]> (localStorage w)) = true ->
  router_ready (screens w) = true ->
  plain (read (localStorage w) ACTIVE_CAMPAIGN_KEY) = true ->
  exists w',
    login username password w = (Normal true, w') /\
    localStorage w' = <[CURRENT_USER_KEY := JsonText (session_marker username)]> (localStorage w) /\
    screens w' = screens w.
Proof.
  intros Hdir Hfind Hquota Hready Hplain.
  unfold login. run_monad. rewrite (getUser_run _ _ _ Hdir), Hfind. simpl.
  rewrite String.eqb_refl. simpl.
  rewrite setItem_run. simpl. fold (session_marker username). rewrite Hquota.
  match goal with
  | |- context [_notifyAuthChange ?u ?w0] =>
      destruct (notifyAuthChange_ok u w0 Hready) as (w' & -> & Hst & Hsc)
  end.
  { simpl. rewrite read_insert_ne by discriminate. exact Hplain. }
  exists w'. repeat split; assumption.
Qed.

End Directory.


Section Claims_signup.
Context {browser : Platform} {document : Page}.

Lemma saveUser_taken (username password : string)
    (users : list (string * string)) (w : World) :
  read (localStorage w) USERS_KEY = JArr (user_record <$> users) ->
  username ∈ users.*1 ->
  saveUser (user_record (username, password)) w = (Normal false, w).
Proof.
  intros Hdir Hin. unfold saveUser, _getUsers. run_monad.
  rewrite getItem_state_found by (rewrite Hdir; reflexivity).
  rewrite Hdir. simpl.
  rewrite (array_some_users _ username) by (intros; reflexivity).
  assert (existsb (fun u => String.eqb u.1 username) users = true) as ->.
  { apply existsb_exists. apply list_elem_of_fmap in Hin as (u & -> & Hu).
    exists u. split; [apply list_elem_of_In, Hu|apply String.eqb_refl]. }
  reflexivity.
Qed.

(** C4 (amended).  Let the directory hold the user records [users], none of
    them with this username, let the browser accept the two writes, and let
    the listeners complete: the router is ready and the active campaign, if
    there is one, holds plain data.  Then [signup] returns [true], storage
    afterwards holds the directory extended with the new user and the session
    marker of that user; a following [login] with the same credentials
    returns [true] and leaves storage as it is; and a second [signup] with
    the same username, whatever the password, returns [false] and changes
    nothing. *)
Theorem C4_signup_then_login_succeeds_second_signup_fails
    (username password : string) (users : list (string * string)) (w : World) :
  let m1 := <[USERS_KEY :=
                JsonText (JArr (user_record <$> (users ++ [(username, password)])))]>
              (localStorage w) in
  let m2 := <[CURRENT_USER_KEY := JsonText (session_marker username)]> m1 in
  directory w = JArr (user_record <$> users) ->
  username ∉ users.*1 ->
  quota_ok m1 = true ->
  quota_ok m2 = true ->
  router_ready (screens w) = true ->
  plain (read (localStorage w) ACTIVE_CAMPAIGN_KEY) = true ->
  exists w1,
    signup username password w = (Normal true, w1) /\
    localStorage w1 = m2 /\
    logged_in w1 = true /\
    (exists w2,
        login username password w1 = (Normal true, w2) /\
        localStorage w2 = m2) /\
    (forall password', signup username password' w1 = (Normal false, w1)).
Proof.
  intros m1 m2 Hdir Hfresh Hq1 Hq2 Hready Hplain.
  destruct (getItem_frame USERS_KEY w) as (w0 & Hget & Hst0 & Hsc0 & _).
  set (users' := users ++ [(username, password)]).
  assert (Hsave : saveUser (user_record (username, password)) w
                  = (Normal true, with_localStorage (fun _ => m1) w0)).
  { unfold saveUser, _getUsers, _saveUsers. run_monad. rewrite Hget. simpl.
    unfold directory in Hdir. rewrite Hdir. simpl.
    rewrite (array_some_users _ username) by (intros; reflexivity).
    rewrite (existsb_username_absent _ _ Hfresh).
    rewrite setItem_run.
    replace ((user_record <$> users) ++
               [JObj [("username", JStr username); ("password", JStr password)]])
      with (user_record <$> users')
      by (unfold users'; rewrite fmap_app; reflexivity).
    destruct (to_json_users users') as [Hj Hb].
    rewrite Hb. unfold text_of. rewrite Hj, Hst0. unfold users'. fold m1.
    rewrite Hq1. reflexivity. }
  set (wa := with_localStorage (fun _ => m1) w0) in *.
  assert (Hdir_a : read (localStorage wa) USERS_KEY = JArr (user_record <$> users')).
  { unfold read. simpl. unfold m1. rewrite lookup_insert_eq. reflexivity. }
  assert (Hplain_a : plain (read (localStorage wa) ACTIVE_CAMPAIGN_KEY) = true).
  { simpl. unfold m1. rewrite read_insert_ne by discriminate. exact Hplain. }
  destruct (login_registered username password users' wa Hdir_a)
    as (w1 & Hlogin & Hst1 & Hsc1).
  { apply find_username_last, Hfresh. }
  { exact Hq2. }
  { simpl. rewrite Hsc0. exact Hready. }
  { exact Hplain_a. }
  change (localStorage wa) with m1 in Hst1. fold m2 in Hst1.
  assert (Hdir_1 : read (localStorage w1) USERS_KEY = JArr (user_record <$> users')).
  { unfold read. rewrite Hst1. unfold m2, m1.
    rewrite lookup_insert_ne by discriminate. rewrite lookup_insert_eq. reflexivity. }
  exists w1. split; [|split; [exact Hst1|split; [|split]]].
  - unfold signup. run_monad.
    change (user_record (username, password))
      with (JObj [("username", JStr username); ("password", JStr password)]) in Hsave.
    rewrite Hsave. exact Hlogin.
  - unfold logged_in, read. rewrite Hst1. unfold m2.
    rewrite lookup_insert_eq. reflexivity.
  - destruct (login_registered username password users' w1 Hdir_1)
      as (w2 & Hlogin2 & Hst2 & _).
    + apply find_username_last, Hfresh.
    + rewrite Hst1. unfold m2. rewrite insert_insert_eq. exact Hq2.
    + rewrite Hsc1. simpl. rewrite Hsc0. exact Hready.
    + rewrite Hst1. unfold m2. rewrite read_insert_ne by discriminate. exact Hplain_a.
    + exists w2. split; [exact Hlogin2|].
      rewrite Hst2, Hst1. unfold m2. apply insert_insert_eq.
  - intros password'. unfold signup. run_monad.
    pose proof (saveUser_taken username password' users' w1 Hdir_1) as Htaken.
    change (user_record (username, password'))
      with (JObj [("username", JStr username); ("password", JStr password')]) in Htaken.
    rewrite Htaken; [reflexivity|].
    unfold users'. rewrite fmap_app. apply elem_of_app. right. simpl. left.
Qed.

End Claims_signup.

Section Campaigns.
Context {browser : Platform} {document : Page}.

(** A JSON value survives JSON.stringify and JSON.parse unchanged. *)
Lemma to_json_id (v : JsVal) :
  is_json v = true -> to_json v = v /\ has_bigint v = false.
Proof.
  induction v as [| | | | | |l IH|ps IH] using JsVal_nested_ind;
    simpl; intros Hj; try discriminate; try (split; reflexivity).
  - assert (map (fun x => match x with JUndefined => JNull | _ => to_json x end) l = l
            /\ existsb has_bigint l = false) as [-> ->]; [|split; reflexivity].
    induction IH as [|x l Hx _ IHl]; simpl in *; [split; reflexivity|].
    apply andb_prop in Hj as [Hjx Hjl].
    destruct (Hx Hjx) as [Hx1 Hx2]. destruct (IHl Hjl) as [-> ->].
    rewrite Hx2. split; [|reflexivity].
    f_equal. destruct x; try exact Hx1; discriminate.
  - assert (flat_map (fun '(k, x) => match x with
                                     | JUndefined => []
                                     | _ => [(k, to_json x)]
                                     end) ps = ps
            /\ existsb (fun '(_, x) => has_bigint x) ps = false) as [-> ->];
      [|split; reflexivity].
    induction IH as [|[k x] ps Hx _ IHps]; simpl in *; [split; reflexivity|].
    apply andb_prop in Hj as [Hjx Hjps].
    destruct (Hx Hjx) as [Hx1 Hx2]. destruct (IHps Hjps) as [-> ->].
    rewrite Hx2. split; [|reflexivity].
    destruct x; try discriminate; simpl in *; rewrite ?Hx1; reflexivity.
Qed.

Lemma is_json_obj_set (props : list (string * JsVal)) (k : string) (v : JsVal) :
  is_json (JObj props) = true -> is_json v = true ->
  is_json (JObj (obj_set props k v)) = true.
Proof.
  simpl. intros Hps Hv. induction props as [|[k' v'] props IH]; simpl in *.
  - rewrite Hv. reflexivity.
  - apply andb_prop in Hps as [Hv' Hps].
    destruct (String.eqb k' k); simpl.
    + rewrite Hv, Hps. reflexivity.
    + rewrite Hv', (IH Hps). reflexivity.
Qed.

Lemma obj_get_obj_set_eq (props : list (string * JsVal)) (k : string) (v : JsVal) :
  obj_get (obj_set props k v) k = v.
Proof.
  induction props as [|[k' v'] props IH]; simpl.
  - rewrite String.eqb_refl. reflexivity.
  - destruct (String.eqb k' k) eqn:Hk; simpl; rewrite Hk; [reflexivity|exact IH].
Qed.

Lemma obj_get_obj_set_ne (props : list (string * JsVal)) (k k0 : string) (v : JsVal) :
  k0 <> k -> obj_get (obj_set props k v) k0 = obj_get props k0.
Proof.
  intros Hne.
  assert (Hk0 : String.eqb k k0 = false) by (apply String.eqb_neq; congruence).
  induction props as [|[k' v'] props IH]; simpl.
  - rewrite Hk0. reflexivity.
  - destruct (String.eqb k' k) eqn:Hk; simpl.
    + apply String.eqb_eq in Hk. subst k'. rewrite Hk0. reflexivity.
    + rewrite IH. reflexivity.
Qed.

Lemma campaign_prefix_ne_active (id : string) :
  CAMPAIGN_PREFIX +:+ id <> ACTIVE_CAMPAIGN_KEY.
Proof. discriminate. Qed.

Lemma campaign_prefix_prefix (id : string) :
  String.prefix CAMPAIGN_PREFIX (CAMPAIGN_PREFIX +:+ id) = true.
Proof. destruct id; reflexivity. Qed.

Lemma setActiveCampaign_run (props : list (string * JsVal)) (w : World) :
  let stamped :=
    JObj (obj_set props "lastUpdated" (JStr (toISOString (clock w (ticks w))))) in
  is_json (JObj props) = true ->
  exists w1,
    setActiveCampaign (JObj props) w = (Normal tt, w1) /\
    localStorage w1 =
      (if quota_ok (<[ACTIVE_CAMPAIGN_KEY := JsonText stamped]> (localStorage w))
       then <[ACTIVE_CAMPAIGN_KEY := JsonText stamped]> (localStorage w)
       else localStorage w) /\
    clock w1 = clock w /\
    ticks w1 = S (ticks w).
Proof.
  intros stamped Hjson.
  assert (Hs : is_json stamped = true) by (apply is_json_obj_set; [exact Hjson|reflexivity]).
  destruct (to_json_id stamped Hs) as [Hj Hb].
  unfold setActiveCampaign, new_Date_toISOString, Date_now, console_log. run_monad.
  rewrite setItem_run. fold stamped.
  assert (Ht : text_of stamped = JsonText stamped).
  { unfold text_of. rewrite Hj. reflexivity. }
  simpl localStorage. rewrite Hb, Ht. simpl negb. simpl andb.
  destruct (quota_ok _);
    eexists; (split; [reflexivity|]); repeat split; reflexivity.
Qed.

(** C9 (amended).  For a campaign record (an object of JSON data),
    [setActiveCampaign] completes.  When the browser accepts the write, the
    active-campaign key afterwards holds the record with [lastUpdated] set
    to the ISO text of the current clock reading, every other property as it
    was; when the browser refuses the write, the key holds what it held.
    Either way every other storage key keeps its content, and so does every
    key that starts with the campaign prefix: the per-id record is not
    stamped. *)
Theorem C9_setActiveCampaign_touches_only_the_pointer
    (props : list (string * JsVal)) (w : World) :
  let lastUpdated := JStr (toISOString (clock w (ticks w))) in
  let stamped := JObj (obj_set props "lastUpdated" lastUpdated) in
  is_json (JObj props) = true ->
  exists w1,
    setActiveCampaign (JObj props) w = (Normal tt, w1) /\
    localStorage w1 !! ACTIVE_CAMPAIGN_KEY =
      (if quota_ok (<[ACTIVE_CAMPAIGN_KEY := JsonText stamped]> (localStorage w))
       then Some (JsonText stamped)
       else localStorage w !! ACTIVE_CAMPAIGN_KEY) /\
    obj_get (obj_set props "lastUpdated" lastUpdated) "lastUpdated" = lastUpdated /\
    (forall k, k <> "lastUpdated" ->
               obj_get (obj_set props "lastUpdated" lastUpdated) k = obj_get props k) /\
    (forall key, key <> ACTIVE_CAMPAIGN_KEY ->
                 localStorage w1 !! key = localStorage w !! key) /\
    (forall id, localStorage w1 !! (CAMPAIGN_PREFIX +:+ id)
                = localStorage w !! (CAMPAIGN_PREFIX +:+ id)).
Proof.
  intros lastUpdated stamped Hjson.
  destruct (setActiveCampaign_run props w Hjson) as (w1 & Hrun & Hst & _).
  fold lastUpdated stamped in Hst.
  exists w1. split; [exact Hrun|]. rewrite Hst.
  split; [destruct (quota_ok _); [apply lookup_insert_eq|reflexivity]|].
  split; [apply obj_get_obj_set_eq|].
  split; [intros k Hk; apply obj_get_obj_set_ne, Hk|].
  split.
  - intros key Hkey. destruct (quota_ok _); [|reflexivity].
    apply lookup_insert_ne. congruence.
  - intros id. destruct (quota_ok _); [|reflexivity].
    apply lookup_insert_ne. apply not_eq_sym, campaign_prefix_ne_active.
Qed.

End Campaigns.


Section Campaign_creation.
Context {browser : Platform} {document : Page}.

Lemma new_campaign_text (campaignName : string) (t_id t_created : Z) :
  text_of (new_campaign campaignName t_id t_created)
  = JsonText (new_campaign campaignName t_id t_created)
  /\ has_bigint (new_campaign campaignName t_id t_created) = false
  /\ is_json (new_campaign campaignName t_id t_created) = true.
Proof. repeat split; reflexivity. Qed.

Lemma createCampaign_run (campaignName : string) (w : World) :
  let record :=
    new_campaign campaignName (clock w (ticks w)) (clock w (S (ticks w))) in
  let key := campaign_key (clock w (ticks w)) in
  exists w1,
    createCampaign campaignName w = (Normal record, w1) /\
    localStorage w1 =
      (if quota_ok (<[key := JsonText record]> (localStorage w))
       then <[key := JsonText record]> (localStorage w)
       else localStorage w) /\
    clock w1 = clock w /\
    ticks w1 = S (S (ticks w)).
Proof.
  intros record key.
  unfold createCampaign, _generateCampaignId, new_Date_toISOString, Date_now,
         saveCampaign, console_log.
  run_monad. rewrite setItem_run.
  fold (new_campaign campaignName (clock w (ticks w)) (clock w (S (ticks w)))).
  fold record. fold (campaign_key (clock w (ticks w))). fold key.
  destruct (new_campaign_text campaignName (clock w (ticks w)) (clock w (S (ticks w))))
    as (Ht & Hb & _).
  fold record in Ht, Hb. rewrite Ht, Hb. simpl localStorage. simpl negb. simpl andb.
  destruct (quota_ok _);
    eexists; (split; [reflexivity|]); repeat split; reflexivity.
Qed.

(** C10 (amended).  [createCampaign name] returns the record with the id
    "campaign_" followed by the current time, the name, status "Draft", the
    three asset slots null, and [createdAt]; the record has no [lastUpdated].
    When the browser accepts the write, storage afterwards is storage before
    with that record under "campaign_" followed by the id; when it refuses
    the write, storage is as before and the record is returned all the same.
    The call takes two clock readings.  A second call that reads the same
    time for its id builds a record with the same id, and its write, when
    accepted, replaces the first record. *)
Theorem C10_createCampaign_builds_and_persists_the_record
    (campaignName : string) (w : World) :
  let t_id := clock w (ticks w) in
  let t_created := clock w (S (ticks w)) in
  let id := "campaign_" +:+ Number_toString t_id in
  let record :=
    JObj [("id", JStr id);
          ("name", JStr campaignName);
          ("status", JStr "Draft");
          ("assets", JObj [("banner", JNull);
                           ("marketingPage", JNull);
                           ("landingPage", JNull)]);
          ("createdAt", JStr (toISOString t_created))] in
  let key := "campaign_" +:+ id in
  exists w1,
    createCampaign campaignName w = (Normal record, w1) /\
    has_key (spread record) "lastUpdated" = false /\
    localStorage w1 =
      (if quota_ok (<[key := JsonText record]> (localStorage w))
       then <[key := JsonText record]> (localStorage w)
       else localStorage w) /\
    clock w1 = clock w /\
    ticks w1 = S (S (ticks w)) /\
    (forall (campaignName2 : string),
        let t_created2 := clock w1 (S (ticks w1)) in
        let record2 :=
          JObj [("id", JStr id);
                ("name", JStr campaignName2);
                ("status", JStr "Draft");
                ("assets", JObj [("banner", JNull);
                                 ("marketingPage", JNull);
                                 ("landingPage", JNull)]);
                ("createdAt", JStr (toISOString t_created2))] in
        clock w1 (ticks w1) = t_id ->
        exists w2,
          createCampaign campaignName2 w1 = (Normal record2, w2) /\
          localStorage w2 =
            (if quota_ok (<[key := JsonText record2]> (localStorage w1))
             then <[key := JsonText record2]> (localStorage w)
             else localStorage w1)).
Proof.
  intros t_id t_created id record key.
  destruct (createCampaign_run campaignName w) as (w1 & Hrun & Hst & Hclock & Hticks).
  change (new_campaign campaignName (clock w (ticks w)) (clock w (S (ticks w))))
    with record in Hrun, Hst.
  change (campaign_key (clock w (ticks w))) with key in Hst.
  exists w1. split; [exact Hrun|]. split; [reflexivity|]. split; [exact Hst|].
  split; [exact Hclock|]. split; [exact Hticks|].
  intros campaignName2 t_created2 record2 Hsame.
  destruct (createCampaign_run campaignName2 w1) as (w2 & Hrun2 & Hst2 & _).
  rewrite Hsame in Hrun2, Hst2.
  change (new_campaign campaignName2 t_id (clock w1 (S (ticks w1))))
    with record2 in Hrun2, Hst2.
  change (campaign_key t_id) with key in Hst2.
  exists w2. split; [exact Hrun2|].
  rewrite Hst2. destruct (quota_ok (<[key := JsonText record2]> (localStorage w1)));
    [|reflexivity].
  rewrite Hst. destruct (quota_ok _); [apply insert_insert_eq|reflexivity].
Qed.

End Campaign_creation.


Section Listing.
Context {browser : Platform} {document : Page}.

Lemma by_lastUpdated_desc_datable (a b : JsVal) :
  datable a = true -> datable b = true ->
  by_lastUpdated_desc a b =
  Normal match stamp b, stamp a with
         | Some tb, Some ta => Some (tb - ta)
         | _, _ => None
         end.
Proof.
  unfold datable, by_lastUpdated_desc, stamp, field. intros Ha Hb.
  destruct (date_value_plain _ Ha) as [ta ->].
  destruct (date_value_plain _ Hb) as [tb ->].
  destruct tb, ta; reflexivity.
Qed.

Lemma not_older_trans (a b c : JsVal) :
  not_older a b -> not_older b c -> not_older a c.
Proof.
  intros (ta & tb & Ha & Hb & Hab) (tb' & tc & Hb' & Hc & Hbc).
  exists ta, tc. repeat split; try assumption.
  rewrite Hb in Hb'. injection Hb' as <-. lia.
Qed.

Lemma filter_perm (f : JsVal -> bool) (l l' : list JsVal) :
  l ≡ₚ l' -> List.filter f l ≡ₚ List.filter f l'.
Proof.
  induction 1 as [|x l l' _ IH|x y l|l l' l'' _ IH1 _ IH2]; simpl.
  - reflexivity.
  - destruct (f x); [constructor|]; exact IH.
  - destruct (f x), (f y); try reflexivity. apply Permutation_swap.
  - etransitivity; eassumption.
Qed.

Lemma filter_head (f : JsVal -> bool) (x : JsVal) (l : list JsVal) :
  f x = true -> List.filter f (option_list (Some x) ++ l) = x :: List.filter f l.
Proof. intros Hx. simpl. rewrite Hx. reflexivity. Qed.

Lemma filter_none (f : JsVal -> bool) (l : list JsVal) :
  (forall v, v ∈ l -> f v = false) -> List.filter f l = [].
Proof.
  induction l as [|x l IH]; simpl; intros Hf; [reflexivity|].
  rewrite (Hf x) by left. apply IH. intros v Hv. apply Hf. right. exact Hv.
Qed.

Lemma omap_cons {A B} (f : A -> option B) (x : A) (l : list A) :
  omap f (x :: l) = option_list (f x) ++ omap f l.
Proof. simpl. destruct (f x); reflexivity. Qed.

Lemma stored_campaigns_entries (m : gmap string Item) :
  stored_campaigns m = omap campaign_of_entry (map_to_list m).
Proof.
  unfold stored_campaigns.
  generalize (fun k i => proj1 (elem_of_map_to_list m k i)).
  generalize (map_to_list m) as l.
  induction l as [|[k i] l IH]; intros Hl; [reflexivity|].
  rewrite fmap_cons, !omap_cons.
  assert (Hk : campaign_at m k = campaign_of_entry (k, i)).
  { unfold campaign_at, campaign_of_entry, read. simpl.
    rewrite (Hl k i) by left. destruct i; reflexivity. }
  simpl fst. rewrite Hk, IH; [reflexivity|].
  intros k' i' Hin. apply Hl. right. exact Hin.
Qed.

Lemma stored_campaigns_insert (m : gmap string Item) (key : string) (i : Item) :
  stored_campaigns (<[key := i]> m)
  ≡ₚ option_list (campaign_of_entry (key, i)) ++ stored_campaigns (delete key m).
Proof.
  rewrite !stored_campaigns_entries.
  rewrite <- (insert_delete_eq m key i).
  rewrite map_to_list_insert by apply lookup_delete_eq.
  rewrite omap_cons. reflexivity.
Qed.

Lemma stored_campaigns_elem (m : gmap string Item) (v : JsVal) :
  v ∈ stored_campaigns m ->
  exists key, m !! key = Some (JsonText v) /\
              String.prefix CAMPAIGN_PREFIX key = true.
Proof.
  rewrite stored_campaigns_entries. intros Hin.
  apply list_elem_of_omap in Hin as ([k i] & Hin & Hv).
  apply elem_of_map_to_list in Hin.
  unfold campaign_of_entry in Hv. simpl in Hv.
  destruct (String.prefix CAMPAIGN_PREFIX k) eqn:Hp; [|discriminate].
  destruct i as [x|]; [|discriminate].
  destruct (truthy x); [|discriminate]. injection Hv as ->.
  exists k. split; assumption.
Qed.

Lemma collect_campaigns_run (keys : list string) (campaigns : list JsVal) (w : World) :
  exists w',
    collect_campaigns keys campaigns w
    = (Normal (campaigns ++ omap (campaign_at (localStorage w)) keys), w') /\
    localStorage w' = localStorage w.
Proof.
  revert campaigns w. induction keys as [|key keys IH]; intros campaigns w.
  - exists w. simpl. rewrite app_nil_r. split; reflexivity.
  - rewrite omap_cons. simpl collect_campaigns. unfold campaign_at at 1.
    destruct (String.prefix CAMPAIGN_PREFIX key).
    + run_monad.
      destruct (getItem_frame key w) as (w0 & -> & Hst & _).
      destruct (truthy (read (localStorage w) key)).
      * destruct (IH (campaigns ++ [read (localStorage w) key]) w0) as (w' & -> & Hst').
        exists w'. rewrite Hst, <- app_assoc. split; [reflexivity|congruence].
      * destruct (IH campaigns w0) as (w' & -> & Hst').
        exists w'. rewrite Hst. split; [reflexivity|congruence].
    + simpl. apply IH.
Qed.

Lemma StronglySorted_among {A} (R R' : A -> A -> Prop) (l : list A) :
  (forall x y, x ∈ l -> y ∈ l -> R x y -> R' x y) ->
  StronglySorted R l -> StronglySorted R' l.
Proof.
  intros Himpl Hsorted. induction Hsorted as [|x l _ IH Hx]; constructor.
  - apply IH. intros y z Hy Hz. apply Himpl; right; assumption.
  - rewrite Forall_forall in *. intros y Hy.
    apply Himpl; [left|right; exact Hy|apply Hx, Hy].
Qed.

(** A check of the stored campaigns that evaluates. *)
Lemma campaigns_plain_by_entries (m : gmap string Item) :
  forallb (fun entry : string * Item =>
             match entry.2 with
             | JsonText v => negb (String.prefix CAMPAIGN_PREFIX entry.1) || plain v
             | RawText _ => true
             end) (map_to_list m) = true ->
  campaigns_plain m.
Proof.
  intros Hcheck key v Hkey Hprefix. rewrite forallb_forall in Hcheck.
  specialize (Hcheck (key, JsonText v)). simpl in Hcheck. rewrite Hprefix in Hcheck.
  apply Hcheck, list_elem_of_In, elem_of_map_to_list, Hkey.
Qed.

Lemma collected_campaigns (m : gmap string Item) :
  omap (campaign_at m) (key_order m) ≡ₚ stored_campaigns m.
Proof. unfold stored_campaigns. rewrite key_order_perm. reflexivity. Qed.

Lemma campaigns_plain_datable (m : gmap string Item) :
  campaigns_plain m -> campaigns_datable m.
Proof. intros Hplain key v Hkey Hprefix. apply plain_field, (Hplain key v Hkey Hprefix). Qed.

Lemma stored_campaigns_datable (m : gmap string Item) (v : JsVal) :
  campaigns_datable m -> v ∈ stored_campaigns m -> datable v = true.
Proof.
  intros Hm Hv. apply stored_campaigns_elem in Hv as (key & Hkey & Hprefix).
  exact (Hm key v Hkey Hprefix).
Qed.

(** Whatever its outcome, [getAllCampaigns] changes nothing but the
    console. *)
Lemma only_logs_collect_campaigns (keys : list string) (campaigns : list JsVal) :
  only_logs (collect_campaigns keys campaigns).
Proof.
  revert campaigns. induction keys as [|key keys IH]; intros campaigns; simpl.
  - apply only_logs_ret.
  - destruct (String.prefix CAMPAIGN_PREFIX key); [|apply IH].
    apply only_logs_bind; [apply only_logs_getItem|].
    intros campaign. destruct (truthy campaign); apply IH.
Qed.

Lemma only_logs_getAllCampaigns : only_logs getAllCampaigns.
Proof.
  unfold getAllCampaigns, localStorage_keys.
  apply only_logs_bind; [intros w; exists []; symmetry; apply logged_nil|].
  intros keys. apply only_logs_bind; [apply only_logs_collect_campaigns|].
  intros campaigns. apply only_logs_complete.
Qed.

(** The stored campaigns being datable, [getAllCampaigns] completes with a
    rearrangement of them, which is in descending order of [lastUpdated]
    when every one of them has a valid [lastUpdated]. *)
Lemma getAllCampaigns_run (w : World) :
  campaigns_datable (localStorage w) ->
  exists l w',
    getAllCampaigns w = (Normal l, w') /\
    localStorage w' = localStorage w /\
    l ≡ₚ stored_campaigns (localStorage w) /\
    (Forall (fun v => is_Some (stamp v)) l -> StronglySorted not_older l).
Proof.
  intros Hdatable.
  unfold getAllCampaigns, localStorage_keys. run_monad.
  destruct (collect_campaigns_run (key_order (localStorage w)) [] w)
    as (w' & -> & Hst).
  simpl app.
  set (campaigns := omap (campaign_at (localStorage w)) (key_order (localStorage w))).
  assert (Hperm : campaigns ≡ₚ stored_campaigns (localStorage w))
    by apply collected_campaigns.
  assert (Hall : forall v, v ∈ campaigns -> datable v = true).
  { intros v Hv. rewrite Hperm in Hv. eapply stored_campaigns_datable; eassumption. }
  destruct (Array_sort_perm by_lastUpdated_desc campaigns) as (l & Hsort & Hl).
  { intros x y Hx Hy. rewrite by_lastUpdated_desc_datable by auto.
    eexists. reflexivity. }
  exists l, w'. rewrite Hsort. split; [reflexivity|]. split; [exact Hst|].
  split; [rewrite Hl; exact Hperm|].
  intros Hstamps.
  assert (Hvalid : forall v, v ∈ campaigns -> is_Some (stamp v)).
  { intros v Hv. rewrite <- Hl in Hv. rewrite Forall_forall in Hstamps. auto. }
  pose (weight := fun v : JsVal => - default 0 (stamp v)).
  pose proof (Array_sort_sorted by_lastUpdated_desc weight campaigns l) as Hsorted.
  eapply StronglySorted_among; [|apply Hsorted; [|exact Hsort]].
  - intros x y Hx Hy Hxy. rewrite Forall_forall in Hstamps.
    destruct (Hstamps x Hx) as [tx Htx]. destruct (Hstamps y Hy) as [ty Hty].
    exists tx, ty. unfold weight in Hxy. rewrite Htx, Hty in Hxy. simpl in Hxy.
    repeat split; try assumption. lia.
  - intros x y Hx Hy. rewrite by_lastUpdated_desc_datable by auto.
    destruct (Hvalid x Hx) as [tx Htx]. destruct (Hvalid y Hy) as [ty Hty].
    unfold weight. rewrite Htx, Hty. simpl. do 2 f_equal. lia.
Qed.

End Listing.


Section Claims_listing.
Context {browser : Platform} {document : Page}.

Lemma others_lack_the_name (campaignName : string) (m m' : gmap string Item)
    (key : string) (v : JsVal) :
  (forall k x, k <> key -> m !! k = Some (JsonText x) ->
               String.prefix CAMPAIGN_PREFIX k = true ->
               has_name campaignName x = false) ->
  (forall k i, m' !! k = Some i -> k <> key /\ m !! k = Some i) ->
  v ∈ stored_campaigns m' ->
  has_name campaignName v = false.
Proof.
  intros Hother Hsub Hin.
  apply stored_campaigns_elem in Hin as (k & Hk & Hp).
  destruct (Hsub k _ Hk) as [Hne Hm]. eapply Hother; eassumption.
Qed.

(** C1, as amended.  Let every campaign record in storage have a
    [lastUpdated] that is plain data.  When the browser accepts the write of
    the new record and no campaign stored under another key has the name,
    creating a campaign, activating it and listing all campaigns yields a
    list in which exactly one record has that name: the created record,
    which is what the per-id key holds and which carries no [lastUpdated]
    (only the copy under the active-campaign key is stamped).  The list of
    [getAllCampaigns] is a rearrangement of the stored campaign records, and
    when every listed record has a valid [lastUpdated] the list is in
    descending order of it. *)
Theorem C1_create_activate_list_holds_the_created_record
    (campaignName : string) (w : World) :
  let t_id := clock w (ticks w) in
  let record := new_campaign campaignName t_id (clock w (S (ticks w))) in
  quota_ok (<[campaign_key t_id := JsonText record]> (localStorage w)) = true ->
  (forall key v,
      key <> campaign_key t_id ->
      localStorage w !! key = Some (JsonText v) ->
      String.prefix CAMPAIGN_PREFIX key = true ->
      has_name campaignName v = false) ->
  campaigns_datable (localStorage w) ->
  (exists l w',
      create_activate_list campaignName w = (Normal l, w') /\
      List.filter (has_name campaignName) l = [record] /\
      localStorage w' !! campaign_key t_id = Some (JsonText record) /\
      stamp record = None)
  /\ (forall w2,
        campaigns_datable (localStorage w2) ->
        exists l2 w2',
          getAllCampaigns w2 = (Normal l2, w2') /\
          l2 ≡ₚ stored_campaigns (localStorage w2) /\
          (Forall (fun v => is_Some (stamp v)) l2 -> StronglySorted not_older l2)).
Proof.
  intros t_id record Hquota Hother Hdatable.
  split.
  2:{ intros w2 Hd2. destruct (getAllCampaigns_run w2 Hd2) as (l2 & w2' & ? & _ & ? & ?).
      exists l2, w2'. repeat split; assumption. }
  set (key := campaign_key t_id) in *.
  set (m1 := <[key := JsonText record]> (localStorage w)).
  destruct (createCampaign_run campaignName w) as (w1 & Hrun1 & Hst1 & Hclock1 & Hticks1).
  fold t_id record key in Hrun1, Hst1. rewrite Hquota in Hst1. fold m1 in Hst1.
  destruct (new_campaign_text campaignName t_id (clock w (S (ticks w)))) as (_ & _ & Hjson).
  fold record in Hjson.
  destruct (setActiveCampaign_run (spread record) w1 Hjson)
    as (w2 & Hrun2 & Hst2 & _).
  set (active := JsonText (JObj (obj_set (spread record) "lastUpdated"
                                   (JStr (toISOString (clock w1 (ticks w1))))))) in *.
  rewrite Hst1 in Hst2.
  assert (Hkey : key ≠ ACTIVE_CAMPAIGN_KEY) by apply campaign_prefix_ne_active.
  assert (Hd2 : campaigns_datable (localStorage w2)).
  { intros k v Hk Hprefix. rewrite Hst2 in Hk.
    assert (Hk1 : m1 !! k = Some (JsonText v)).
    { destruct (quota_ok (<[ACTIVE_CAMPAIGN_KEY:=active]> m1)); [|exact Hk].
      rewrite lookup_insert_ne in Hk; [exact Hk|].
      intros <-. discriminate. }
    unfold m1 in Hk1. destruct (decide (key = k)) as [<-|Hne].
    - rewrite lookup_insert_eq in Hk1. injection Hk1 as <-. reflexivity.
    - rewrite lookup_insert_ne in Hk1 by exact Hne. exact (Hdatable k v Hk1 Hprefix). }
  destruct (getAllCampaigns_run w2 Hd2) as (l & w3 & Hrun3 & Hst3 & Hperm & _).
  assert (Hentry : campaign_of_entry (key, JsonText record) = Some record).
  { unfold campaign_of_entry, key, campaign_key. simpl fst.
    rewrite campaign_prefix_prefix. reflexivity. }
  assert (Hname : has_name campaignName record = true).
  { unfold has_name, record, new_campaign. simpl. apply String.eqb_refl. }
  assert (Hrest : forall m',
             (forall k i, m' !! k = Some i -> localStorage w !! k = Some i) ->
             List.filter (has_name campaignName)
               (stored_campaigns (<[key := JsonText record]> m')) ≡ₚ [record]).
  { intros m' Hsub.
    etransitivity; [apply filter_perm, stored_campaigns_insert|].
    rewrite Hentry, (filter_head _ _ _ Hname).
    rewrite filter_none; [reflexivity|].
    intros v Hv. eapply others_lack_the_name; [exact Hother| |exact Hv].
    intros k i Hk. apply lookup_delete_Some in Hk as [Hne Hk].
    split; [congruence|apply Hsub, Hk]. }
  assert (Hfilter : List.filter (has_name campaignName)
                      (stored_campaigns (localStorage w2)) ≡ₚ [record]).
  { rewrite Hst2. destruct (quota_ok (<[ACTIVE_CAMPAIGN_KEY:=active]> m1)).
    - etransitivity; [apply filter_perm, stored_campaigns_insert|].
      change (campaign_of_entry (ACTIVE_CAMPAIGN_KEY, active)) with (@None JsVal).
      cbn [option_list app]. unfold m1.
      rewrite delete_insert_ne by (apply not_eq_sym, Hkey).
      apply Hrest. intros k i Hk. apply lookup_delete_Some in Hk as [_ Hk].
      exact Hk.
    - apply Hrest. intros k i Hk. exact Hk. }
  exists l, w3. split; [|split; [|split]].
  - unfold create_activate_list. run_monad. rewrite Hrun1.
    change record with (JObj (spread record)) at 1. rewrite Hrun2. exact Hrun3.
  - apply Permutation_singleton_r. rewrite <- Hfilter.
    apply filter_perm, Hperm.
  - rewrite Hst3, Hst2.
    destruct (quota_ok (<[ACTIVE_CAMPAIGN_KEY:=active]> m1)).
    + rewrite lookup_insert_ne by congruence. apply lookup_insert_eq.
    + apply lookup_insert_eq.
  - reflexivity.
Qed.

End Claims_listing.

Section Claims_templates.

Lemma restore_kept_or_filled (before : option string) (preset : string) :
  kept_or_filled before
    (restore_value (set_value before preset) (value_or before "")) preset.
Proof.
  unfold kept_or_filled, restore_value, value_or, set_value.
  destruct before as [v|]; simpl.
  - destruct (String.eqb v "") eqn:Hv; simpl.
    + apply String.eqb_eq in Hv. subst v. split; [|split].
      * intros v [= <-] Hne. contradiction.
      * reflexivity.
      * discriminate.
    + rewrite Hv. apply String.eqb_neq in Hv. split; [|split].
      * intros v0 [= <-] _. reflexivity.
      * intros [= ->]. contradiction.
      * discriminate.
  - split; [|split]; [discriminate|discriminate|reflexivity].
Qed.

Lemma set_value_overwritten (before : option string) (preset : string) :
  overwritten before (set_value before preset) preset.
Proof.
  unfold overwritten, set_value. destruct before; split.
  - reflexivity.
  - discriminate.
  - discriminate.
  - reflexivity.
Qed.

(** C3, as amended.  Applying a template of the catalog in the landing
    page editor or the marketing page editor keeps the title, the paragraph
    and the image URL where they hold text and fills them with the preset
    where they are empty; the other controls (call-to-action text and link,
    background and text colour) take the preset whatever they held.  A
    control the page lacks stays absent; the lead-form checkbox is not
    touched. *)
Theorem C3_applyTemplate_keeps_typed_text_and_resets_the_rest
    (templateId : string)
    (landing : LandingPageEditor.t) (presets : LandingPageEditor.Defaults)
    (marketing : MarketingPageEditor.t) (presets' : MarketingPageEditor.Defaults) :
  LandingPageEditor.templatesDefaults templateId = Some presets ->
  MarketingPageEditor.templatesDefaults templateId = Some presets' ->
  let landing' := LandingPageEditor._applyTemplate templateId landing in
  let marketing' := MarketingPageEditor._applyTemplate templateId marketing in
  (kept_or_filled (LandingPageEditor.titleInput landing)
                  (LandingPageEditor.titleInput landing')
                  (LandingPageEditor.title presets) /\
   kept_or_filled (LandingPageEditor.paragraphInput landing)
                  (LandingPageEditor.paragraphInput landing')
                  (LandingPageEditor.paragraph presets) /\
   kept_or_filled (LandingPageEditor.imageUrlInput landing)
                  (LandingPageEditor.imageUrlInput landing')
                  (LandingPageEditor.imageUrl presets) /\
   overwritten (LandingPageEditor.ctaTextInput landing)
               (LandingPageEditor.ctaTextInput landing')
               (LandingPageEditor.ctaText presets) /\
   overwritten (LandingPageEditor.ctaLinkInput landing)
               (LandingPageEditor.ctaLinkInput landing')
               (LandingPageEditor.ctaLink presets) /\
   overwritten (LandingPageEditor.bgColorInput landing)
               (LandingPageEditor.bgColorInput landing')
               (LandingPageEditor.bgColor presets) /\
   overwritten (LandingPageEditor.textColorInput landing)
               (LandingPageEditor.textColorInput landing')
               (LandingPageEditor.textColor presets) /\
   LandingPageEditor.collectLeadsCheckbox landing'
   = LandingPageEditor.collectLeadsCheckbox landing)
  /\
  (kept_or_filled (MarketingPageEditor.titleInput marketing)
                  (MarketingPageEditor.titleInput marketing')
                  (MarketingPageEditor.title presets') /\
   kept_or_filled (MarketingPageEditor.paragraph1Input marketing)
                  (MarketingPageEditor.paragraph1Input marketing')
                  (MarketingPageEditor.paragraph1 presets') /\
   kept_or_filled (MarketingPageEditor.imageUrlInput marketing)
                  (MarketingPageEditor.imageUrlInput marketing')
                  (MarketingPageEditor.imageUrl presets') /\
   overwritten (MarketingPageEditor.bgColorInput marketing)
               (MarketingPageEditor.bgColorInput marketing')
               (MarketingPageEditor.bgColor presets') /\
   overwritten (MarketingPageEditor.textColorInput marketing)
               (MarketingPageEditor.textColorInput marketing')
               (MarketingPageEditor.textColor presets')).
Proof.
  intros Hl Hm landing' marketing'.
  unfold landing', marketing',
         LandingPageEditor._applyTemplate, MarketingPageEditor._applyTemplate.
  rewrite Hl, Hm. simpl.
  repeat match goal with
         | |- _ /\ _ => split
         end;
    first [ apply restore_kept_or_filled
          | apply set_value_overwritten
          | reflexivity ].
Qed.

End Claims_templates.

(** * Further properties of the services *)

Section More_gateway.
Context {browser : Platform} {document : Page}.

(** X1.  What [setItem] stores, [getItem] returns: for a value
    that JSON.stringify prints (no BigInt in it, not [undefined]) and a write
    the browser accepts, [setItem] returns [true] and a following [getItem]
    of the key returns the value as JSON reads it back, logging nothing and
    writing nothing.  A value that is JSON data comes back unchanged. *)
Theorem setItem_then_getItem_returns_the_value
    (key : string) (value : JsVal) (w : World) :
  has_bigint value = false ->
  value <> JUndefined ->
  quota_ok (<[key := JsonText (to_json value)]> (localStorage w)) = true ->
  exists w1,
    setItem key value w = (Normal true, w1) /\
    getItem key w1 = (Normal (to_json value), w1) /\
    console w1 = console w /\
    (is_json value = true -> to_json value = value).
Proof.
  intros Hbig Hdef Hquota.
  assert (Htext : text_of value = JsonText (to_json value))
    by (destruct value; try reflexivity; contradiction).
  exists (with_localStorage
            (fun _ => <[key := JsonText (to_json value)]> (localStorage w)) w).
  split; [|split; [|split]].
  - rewrite setItem_run, Hbig, Htext, Hquota. reflexivity.
  - rewrite getItem_run. unfold read, unparseable. simpl.
    rewrite lookup_insert_eq. reflexivity.
  - reflexivity.
  - intros Hjson. apply to_json_id, Hjson.
Qed.

(** X2.  Storing [undefined] succeeds and leaves a text that
    cannot be read back: JSON.stringify gives [undefined], the browser stores
    the string "undefined", [setItem] returns [true], and a following
    [getItem] of the key logs an error and returns [null]. *)
Theorem setItem_undefined_then_getItem_logs_an_error (key : string) (w : World) :
  quota_ok (<[key := RawText "undefined"]> (localStorage w)) = true ->
  exists w1 w2,
    setItem key JUndefined w = (Normal true, w1) /\
    localStorage w1 !! key = Some (RawText "undefined") /\
    getItem key w1 = (Normal JNull, w2) /\
    console w2 = console w ++ [getItem_error] /\
    localStorage w2 = localStorage w1.
Proof.
  intros Hquota.
  eexists _, _. split; [|split; [|split; [|split]]].
  - rewrite setItem_run. simpl. rewrite Hquota. reflexivity.
  - simpl. apply lookup_insert_eq.
  - rewrite getItem_run. unfold read, unparseable. simpl.
    rewrite lookup_insert_eq. reflexivity.
  - reflexivity.
  - reflexivity.
Qed.

(** X3.  The gateway touches the key it is given and no other:
    whatever [setItem] and [removeItem] do, with or without success, every
    other key keeps its content; and after [removeItem] a [getItem] of the
    key returns [null] without logging. *)
Theorem storage_gateway_touches_only_its_key
    (key other : string) (value : JsVal) (w : World) :
  other <> key ->
  localStorage (setItem key value w).2 !! other = localStorage w !! other /\
  localStorage (removeItem key w).2 !! other = localStorage w !! other /\
  getItem key (removeItem key w).2 = (Normal JNull, (removeItem key w).2).
Proof.
  intros Hne. split; [|split].
  - rewrite setItem_run.
    destruct (negb (has_bigint value) && quota_ok _); simpl; [|reflexivity].
    apply lookup_insert_ne. congruence.
  - rewrite removeItem_run. simpl. apply lookup_delete_ne. congruence.
  - rewrite removeItem_run, getItem_run. unfold read, unparseable. simpl.
    rewrite lookup_delete_eq. reflexivity.
Qed.

End More_gateway.

Section More_directory.
Context {browser : Platform} {document : Page}.

Lemma getUsers_run (w : World) :
  exists w0,
    _getUsers w = (Normal (directory w), w0) /\
    localStorage w0 = localStorage w /\
    screens w0 = screens w /\
    classHidden w0 = classHidden w /\
    rendered w0 = rendered w /\
    authChangeListeners w0 = authChangeListeners w /\
    (truthy (read (localStorage w) USERS_KEY) = true -> w0 = w).
Proof.
  unfold _getUsers, directory. run_monad. rewrite getItem_run.
  unfold unparseable, read.
  destruct (localStorage w !! USERS_KEY) as [[v|s]|]; simpl;
    try (eexists; split; [reflexivity|]; repeat split; reflexivity).
  destruct (String.eqb s ""); simpl;
    eexists; (split; [reflexivity|]); repeat split; try reflexivity; discriminate.
Qed.

(** X4.  [createInitialUser] seeds an empty directory and only an
    empty one.  When the directory reads as empty and the browser accepts the
    write, the directory afterwards holds the one record of "testuser", whom
    [getUser] then finds, and a second call writes nothing.  When the
    directory holds at least one entry, the call writes nothing. *)
Theorem createInitialUser_seeds_an_empty_directory_only (w : World) :
  directory w = JArr [] ->
  quota_ok (<[USERS_KEY := JsonText (JArr [initialUser])]> (localStorage w)) = true ->
  (exists w1,
      createInitialUser w = (Normal tt, w1) /\
      localStorage w1 = <[USERS_KEY := JsonText (JArr [initialUser])]> (localStorage w) /\
      getUser "testuser" w1 = (Normal initialUser, w1) /\
      createInitialUser w1 = (Normal tt, w1))
  /\ (forall w' u us,
        directory w' = JArr (u :: us) ->
        exists w'', createInitialUser w' = (Normal tt, w'') /\
                    localStorage w'' = localStorage w').
Proof.
  intros Hempty Hquota. split.
  - destruct (getUsers_run w) as (w0 & Hget & Hst & _).
    set (m1 := <[USERS_KEY := JsonText (JArr [initialUser])]> (localStorage w)) in *.
    set (w1 := with_console
                 (fun c => c ++ [mkLog LLog ("Initial user " +:+ dquote +:+ "testuser"
                                             +:+ dquote +:+ " created.")])
                 (with_localStorage (fun _ => m1) w0)).
    assert (Hread : read (localStorage w1) USERS_KEY = JArr [initialUser]).
    { unfold read. simpl. unfold m1. rewrite lookup_insert_eq. reflexivity. }
    assert (Hget1 : _getUsers w1 = (Normal (JArr [initialUser]), w1)).
    { unfold _getUsers. run_monad.
      rewrite getItem_state_found by (rewrite Hread; reflexivity).
      rewrite Hread. reflexivity. }
    exists w1. split; [|split; [|split]].
    + unfold createInitialUser. run_monad. rewrite Hget, Hempty.
      unfold _saveUsers. run_monad. rewrite setItem_run. simpl has_bigint.
      change (text_of (JArr [JObj [("username", JStr "testuser");
                                   ("password", JStr "password123")]]))
        with (JsonText (JArr [initialUser])).
      rewrite Hst. fold m1. rewrite Hquota. reflexivity.
    + reflexivity.
    + unfold getUser. run_monad. rewrite Hget1. reflexivity.
    + unfold createInitialUser. run_monad. rewrite Hget1. reflexivity.
  - intros w' u us Hdir.
    destruct (getUsers_run w') as (w0 & Hget & Hst & _).
    exists w0. split; [|exact Hst].
    unfold createInitialUser. run_monad. rewrite Hget, Hdir. reflexivity.
Qed.

Lemma NoDup_usernames_snoc (users : list (string * string)) (username password : string) :
  NoDup users.*1 -> username ∉ users.*1 ->
  NoDup (users ++ [(username, password)]).*1.
Proof.
  intros Hnd Hnot. rewrite fmap_app. apply NoDup_app. split; [exact Hnd|].
  split; [|apply NoDup_singleton].
  intros x Hx Hx'. apply list_elem_of_singleton in Hx'. simpl in Hx'. subst x.
  contradiction.
Qed.

(** X5.  [saveUser] keeps the usernames of the directory
    distinct and never changes a stored user.  On a directory of user
    records with distinct usernames it returns [true] exactly when the
    username is not taken; the directory afterwards is the directory before,
    or the directory before with the new record at its end, and its
    usernames are distinct again.  When it returns [false] storage is
    unchanged.  It returns [true] also when the browser refuses the write:
    then the new user is not stored. *)
Theorem saveUser_keeps_usernames_distinct
    (username password : string) (users : list (string * string)) (w : World) :
  directory w = JArr (user_record <$> users) ->
  NoDup users.*1 ->
  exists b w' users',
    saveUser (user_record (username, password)) w = (Normal b, w') /\
    (b = true <-> username ∉ users.*1) /\
    directory w' = JArr (user_record <$> users') /\
    NoDup users'.*1 /\
    (users' = users \/
     (b = true /\ users' = users ++ [(username, password)])) /\
    (b = false -> localStorage w' = localStorage w) /\
    (b = true ->
     quota_ok (<[USERS_KEY :=
                   JsonText (JArr (user_record <$> (users ++ [(username, password)])))]>
                 (localStorage w)) = false ->
     localStorage w' = localStorage w).
Proof.
  intros Hdir Hnd.
  destruct (getUsers_run w) as (w0 & Hget & Hst & _).
  assert (Hdir0 : directory w0 = directory w) by (unfold directory; rewrite Hst; reflexivity).
  destruct (decide (username ∈ users.*1)) as [Hin|Hnot].
  - exists false, w0, users. split; [|split; [|split; [|split; [|split; [|split]]]]].
    + unfold saveUser. run_monad. rewrite Hget, Hdir. simpl.
      rewrite (array_some_users _ username) by (intros; reflexivity).
      assert (existsb (fun u => String.eqb u.1 username) users = true) as ->.
      { apply existsb_exists. apply list_elem_of_fmap in Hin as (u & -> & Hu).
        exists u. split; [apply list_elem_of_In, Hu|apply String.eqb_refl]. }
      reflexivity.
    + split; [discriminate|contradiction].
    + rewrite Hdir0. exact Hdir.
    + exact Hnd.
    + left. reflexivity.
    + intros _. exact Hst.
    + discriminate.
  - set (users' := users ++ [(username, password)]).
    set (m1 := <[USERS_KEY := JsonText (JArr (user_record <$> users'))]> (localStorage w)).
    assert (Hrun : saveUser (user_record (username, password)) w =
                   (Normal true,
                    if quota_ok m1 then with_localStorage (fun _ => m1) w0
                    else with_console (fun c => c ++ [setItem_error]) w0)).
    { unfold saveUser, _saveUsers. run_monad. rewrite Hget, Hdir. simpl.
      rewrite (array_some_users _ username) by (intros; reflexivity).
      rewrite (existsb_username_absent _ _ Hnot).
      rewrite setItem_run.
      replace ((user_record <$> users) ++
                 [JObj [("username", JStr username); ("password", JStr password)]])
        with (user_record <$> users')
        by (unfold users'; rewrite fmap_app; reflexivity).
      destruct (to_json_users users') as [Hj Hb].
      rewrite Hb. unfold text_of. rewrite Hj, Hst. fold m1.
      destruct (quota_ok m1); reflexivity. }
    destruct (quota_ok m1) eqn:Hq.
    + exists true, (with_localStorage (fun _ => m1) w0), users'.
      split; [exact Hrun|]. split; [split; [intros _; exact Hnot|reflexivity]|].
      split; [|split; [|split; [|split]]].
      * unfold directory, read. simpl. unfold m1. rewrite lookup_insert_eq.
        destruct users'; reflexivity.
      * apply NoDup_usernames_snoc; assumption.
      * right. split; reflexivity.
      * discriminate.
      * intros _ Hq'. unfold m1, users' in Hq. congruence.
    + exists true, (with_console (fun c => c ++ [setItem_error]) w0), users.
      split; [exact Hrun|]. split; [split; [intros _; exact Hnot|reflexivity]|].
      split; [|split; [|split; [|split]]].
      * unfold directory. simpl. fold (directory w0). rewrite Hdir0. exact Hdir.
      * exact Hnd.
      * left. reflexivity.
      * discriminate.
      * intros _ _. exact Hst.
Qed.

End More_directory.

Section More_session.
Context {browser : Platform} {document : Page}.

(** X6.  A directory that is not an array is not absorbed: when
    the text under the users key parses to a truthy value other than an
    array, [getUser], [login] and [signup] throw a TypeError and change
    nothing; and so does a lookup that meets a [null] entry of the array. *)
Theorem corrupted_directory_makes_login_throw
    (username password : string) (v : JsVal) (w : World) :
  localStorage w !! USERS_KEY = Some (JsonText v) ->
  truthy v = true ->
  (forall l, v <> JArr l) ->
  getUser username w = (Throw TypeError, w) /\
  login username password w = (Throw TypeError, w) /\
  signup username password w = (Throw TypeError, w) /\
  (forall w' rest,
      localStorage w' !! USERS_KEY = Some (JsonText (JArr (JNull :: rest))) ->
      login username password w' = (Throw TypeError, w')).
Proof.
  intros Hstored Htruthy Hnot.
  assert (Hread : read (localStorage w) USERS_KEY = v)
    by (unfold read; rewrite Hstored; reflexivity).
  assert (Hget : _getUsers w = (Normal v, w)).
  { unfold _getUsers. run_monad.
    rewrite getItem_state_found by (rewrite Hread; exact Htruthy).
    rewrite Hread. unfold js_or. rewrite Htruthy. reflexivity. }
  assert (Harr : forall w0, array_of v w0 = (Throw TypeError, w0)).
  { intros w0. destruct v; try reflexivity. exfalso. eapply Hnot. reflexivity. }
  assert (HgetUser : getUser username w = (Throw TypeError, w)).
  { unfold getUser. run_monad. rewrite Hget, Harr. reflexivity. }
  split; [exact HgetUser|]. split; [|split].
  - unfold login. run_monad. rewrite HgetUser. reflexivity.
  - unfold signup, saveUser. run_monad. rewrite Hget, Harr. reflexivity.
  - intros w' rest Hstored'.
    assert (Hread' : read (localStorage w') USERS_KEY = JArr (JNull :: rest))
      by (unfold read; rewrite Hstored'; reflexivity).
    unfold login, getUser, _getUsers. run_monad.
    rewrite getItem_state_found by (rewrite Hread'; reflexivity).
    rewrite Hread'. reflexivity.
Qed.

Lemma find_username_absent (username : string) (users : list (string * string)) :
  username ∉ users.*1 ->
  find (fun u => String.eqb u.1 username) users = None.
Proof.
  induction users as [|u users IH]; simpl; intros Hnot; [reflexivity|].
  apply not_elem_of_cons in Hnot as [Hne Hnot].
  assert (String.eqb u.1 username = false) as -> by (apply String.eqb_neq; congruence).
  apply IH, Hnot.
Qed.

Lemma login_unknown_run
    (username password : string) (users : list (string * string)) (w : World) :
  directory w = JArr (user_record <$> users) ->
  username ∉ users.*1 ->
  exists w',
    login username password w = (Normal false, w') /\
    localStorage w' = localStorage w /\
    classHidden w' = classHidden w /\
    rendered w' = rendered w.
Proof.
  intros Hdir Hnot.
  destruct (getUsers_run w) as (w0 & Hget & Hst & _ & Hcl & Hre & _).
  exists w0. split; [|repeat split; assumption].
  unfold login, getUser. run_monad. rewrite Hget, Hdir. simpl.
  rewrite (array_find_users _ username) by (intros; reflexivity).
  rewrite (find_username_absent _ _ Hnot). reflexivity.
Qed.

(** X7.  [login] with a username the directory does not hold
    returns [false]; it writes nothing, notifies no listener and changes no
    screen. *)
Theorem login_unknown_username_changes_nothing
    (username password : string) (users : list (string * string)) (w : World) :
  directory w = JArr (user_record <$> users) ->
  username ∉ users.*1 ->
  exists w',
    login username password w = (Normal false, w') /\
    localStorage w' = localStorage w /\
    classHidden w' = classHidden w /\
    rendered w' = rendered w.
Proof. apply login_unknown_run. Qed.

(** X13.  [logout] ends the session and returns to the login
    screen.  On a page on which the router listens to the session and every
    registered screen has its element, [logout] removes the session marker
    and nothing else from storage, so that no session exists afterwards, and
    the login screen is the only registered screen left visible. *)
Theorem logout_ends_the_session_and_shows_login
    (w : World) (loginScreen shell : Elem) :
  NavigationListener ∈ authChangeListeners w ->
  all_elements (screens w) = true ->
  screens_get (screens w) "login-screen" = Some loginScreen ->
  screens_get (screens w) "main-app-content" = Some shell ->
  shell <> loginScreen ->
  exists w',
    logout w = (Normal tt, w') /\
    localStorage w' = delete CURRENT_USER_KEY (localStorage w) /\
    logged_in w' = false /\
    login_only loginScreen w'.
Proof.
  intros Hwired Hall Hlogin Hshell Hne.
  unfold logout, _notifyAuthChange. run_monad.
  destruct (notify_session_loss (authChangeListeners w)
              (with_localStorage (delete CURRENT_USER_KEY) w) loginScreen shell)
    as (w' & Hrun & Hst & Honly); try assumption.
  { left. exact Hwired. }
  exists w'. split; [exact Hrun|]. split; [exact Hst|]. split; [|exact Honly].
  unfold logged_in, read. rewrite Hst. simpl. rewrite lookup_delete_eq. reflexivity.
Qed.

End More_session.

Section More_router.
Context {browser : Platform} {document : Page}.

Lemma for_each_hide_frame (l : list (string * option Elem)) (w : World) :
  let w' := (for_each (fun '(_, screen) => classList_add_hidden screen) l w).2 in
  localStorage w' = localStorage w /\
  screens w' = screens w /\
  rendered w' = rendered w /\
  console w' = console w /\
  authChangeListeners w' = authChangeListeners w /\
  classHidden w ⊆ classHidden w'.
Proof.
  revert w. induction l as [|[k [e|]] l IH]; intros w; simpl.
  - repeat split; reflexivity.
  - run_monad.
    specialize (IH (with_classHidden (fun h => h ∪ {[e]}) w)). simpl in IH.
    destruct (for_each _ l _) as [[[]|err] w1]; simpl in *;
      destruct IH as (? & ? & ? & ? & ? & ?); repeat split; try assumption; set_solver.
  - repeat split; reflexivity.
Qed.

Lemma for_each_hide_throws (l : list (string * option Elem)) (w : World) :
  all_elements l = false ->
  (for_each (fun '(_, screen) => classList_add_hidden screen) l w).1 = Throw TypeError.
Proof.
  revert w. unfold all_elements.
  induction l as [|[k [e|]] l IH]; intros w Hall; simpl in *.
  - discriminate.
  - run_monad. specialize (IH (with_classHidden (fun h => h ∪ {[e]}) w) Hall).
    destruct (for_each _ l _) as [[[]|err] w1]; simpl in *; [discriminate|exact IH].
  - reflexivity.
Qed.

Lemma showScreen_frame (screenId : string) (w : World) :
  let w' := (_showScreen screenId w).2 in
  localStorage w' = localStorage w /\
  screens w' = screens w /\
  authChangeListeners w' = authChangeListeners w.
Proof.
  unfold _showScreen, _hideAllScreens. run_monad.
  pose proof (for_each_hide_frame (screens w) w) as Hframe. simpl in Hframe.
  destruct (for_each _ (screens w) w) as [[[]|err] w1]; simpl in *;
    destruct Hframe as (Hst & Hsc & _ & _ & Hls & _); [|repeat split; assumption].
  destruct (screens_get (screens w1) screenId) as [screen|]; simpl.
  - unfold classList_remove_hidden, classList_add_hidden. run_monad.
    destruct (negb (String.eqb screenId "login-screen"));
      destruct (screens_get (screens w1) "main-app-content"); simpl;
      try (repeat split; assumption);
      destruct (uiController w1); simpl;
      repeat match goal with
             | |- context [if String.eqb screenId ?s then _ else _] =>
                 destruct (String.eqb screenId s); simpl
             end;
      try match goal with
          | |- context [run_hook ?h ?w0] =>
              destruct (run_hook_run h w0) as (r & lines & -> & _); simpl
          end;
      repeat split; assumption.
  - destruct (negb (is_registered (screens w1) screenId)
              && bool_decide (screenId ∈ inherited_names)); simpl;
      [|unfold console_error; run_monad]; repeat split; assumption.
Qed.

(** X8.  A page that lacks the element of one registered screen
    cannot navigate at all: [_showScreen] throws a TypeError for every screen
    id while it hides the screens, before it looks the id up.  Screens hidden
    before stay hidden, none is shown, and storage is not written. *)
Theorem missing_screen_element_blocks_navigation (screenId : string) (w : World) :
  all_elements (screens w) = false ->
  exists w',
    _showScreen screenId w = (Throw TypeError, w') /\
    localStorage w' = localStorage w /\
    classHidden w ⊆ classHidden w' /\
    rendered w' = rendered w /\
    console w' = console w.
Proof.
  intros Hall. unfold _showScreen, _hideAllScreens. run_monad.
  pose proof (for_each_hide_throws (screens w) w Hall) as Hthrow.
  pose proof (for_each_hide_frame (screens w) w) as Hframe. simpl in Hframe.
  destruct (for_each _ (screens w) w) as [[[]|err] w1]; simpl in *; [discriminate|].
  injection Hthrow as ->.
  destruct Hframe as (Hst & _ & Hre & Hco & _ & Hcl).
  exists w1. repeat split; assumption.
Qed.

End More_router.

Section More_navigation.
Context {browser : Platform} {document : Page}.

Lemma getItem_world_frame key w :
  let w' := (getItem key w).2 in
  localStorage w' = localStorage w /\
  screens w' = screens w /\
  classHidden w' = classHidden w /\
  rendered w' = rendered w /\
  authChangeListeners w' = authChangeListeners w /\
  dashboardScreen w' = dashboardScreen w /\
  uiController w' = uiController w.
Proof.
  rewrite getItem_run. simpl.
  destruct (unparseable (localStorage w) key); repeat split; reflexivity.
Qed.

Lemma navigation_screens (nav : M unit) (w : World) :
  nav ∈ [goToLogin; goToDashboard; goToBannerEditor;
         goToMarketingPageEditor; goToLandingPageEditor] ->
  localStorage (nav w).2 = localStorage w /\
  screens (nav w).2 = screens w.
Proof.
  intros Hnav.
  assert (Hguard : forall screenId,
             let w' := ((user ← getLoggedInUser;
                         if truthy user then _showScreen screenId else goToLogin) w).2 in
             localStorage w' = localStorage w /\ screens w' = screens w).
  { intros screenId. unfold getLoggedInUser, goToLogin. run_monad.
    pose proof (getItem_world_frame CURRENT_USER_KEY w) as Hget. simpl in Hget.
    destruct (getItem CURRENT_USER_KEY w) as [[user|err] w0]; simpl in *;
      destruct Hget as (Hst & Hsc & _); [|split; assumption].
    destruct (truthy user).
    - destruct (showScreen_frame screenId w0) as (? & ? & _). split; congruence.
    - destruct (showScreen_frame "login-screen" w0) as (? & ? & _). split; congruence. }
  repeat (apply elem_of_cons in Hnav as [->|Hnav]);
    [ destruct (showScreen_frame "login-screen" w) as (? & ? & _); split; assumption
    | apply (Hguard "dashboard-screen")
    | apply (Hguard "banner-editor-screen")
    | apply (Hguard "marketing-editor-screen")
    | apply (Hguard "landing-editor-screen")
    | inversion Hnav ].
Qed.

(** X9.  Navigation reads storage and never writes it: whatever
    the state of the page, and whether the call completes or throws,
    localStorage after [goToLogin], [goToDashboard], [goToBannerEditor],
    [goToMarketingPageEditor] or [goToLandingPageEditor] is localStorage
    before, and so is the screen registry. *)
Theorem navigation_never_writes_storage (nav : M unit) (w : World) :
  nav ∈ [goToLogin; goToDashboard; goToBannerEditor;
         goToMarketingPageEditor; goToLandingPageEditor] ->
  localStorage (nav w).2 = localStorage w /\
  screens (nav w).2 = screens w.
Proof. apply navigation_screens. Qed.

Lemma showScreen_shows_only (screenId : string) (w : World) (target shell : Elem) :
  screenId <> "login-screen" ->
  all_elements (screens w) = true ->
  screens_get (screens w) screenId = Some target ->
  screens_get (screens w) "main-app-content" = Some shell ->
  exists r w',
    _showScreen screenId w = (r, w') /\
    localStorage w' = localStorage w /\
    screens w' = screens w /\
    authChangeListeners w' = authChangeListeners w /\
    dashboardScreen w' = dashboardScreen w /\
    shows_only target shell w' /\
    (screenId ∉ inherited_names ->
     plain (read (localStorage w) ACTIVE_CAMPAIGN_KEY) = true -> r = Normal tt).
Proof.
  intros Hid Hall Htarget Hshell.
  destruct (showScreen_run screenId w)
    as (r & w' & Hshow & Hst & Hsc & Hls & Hd & Hcl & _ & Hr).
  { unfold router_ready. rewrite Hall, Hshell. reflexivity. }
  exists r, w'. repeat (split; [assumption|]). split; [|exact Hr].
  unfold shows_only. rewrite Hcl, Hsc. unfold shown. rewrite Htarget, Hshell.
  apply String.eqb_neq in Hid. rewrite Hid.
  split; [set_solver|]. split; [set_solver|].
  intros k e Hin He1 He2. pose proof (registered_in_elements _ _ _ Hin). set_solver.
Qed.

(** X10.  With a session, each guarded navigation shows the screen
    it is named after: on a page whose registered screens all have their
    elements, the element of the requested screen and the shell end up
    visible and the element of every other registered screen ends up hidden,
    whether the render callback of the screen completes or throws.  Storage
    is not written.  The navigation completes when the active campaign, if
    there is one, holds plain data. *)
Theorem guarded_navigation_shows_the_screen
    (nav : M unit) (screenId : string) (w : World) (target shell : Elem) :
  (nav, screenId) ∈ [(goToDashboard, "dashboard-screen");
                     (goToBannerEditor, "banner-editor-screen");
                     (goToMarketingPageEditor, "marketing-editor-screen");
                     (goToLandingPageEditor, "landing-editor-screen")] ->
  logged_in w = true ->
  all_elements (screens w) = true ->
  screens_get (screens w) screenId = Some target ->
  screens_get (screens w) "main-app-content" = Some shell ->
  exists r w',
    nav w = (r, w') /\
    localStorage w' = localStorage w /\
    shows_only target shell w' /\
    (plain (read (localStorage w) ACTIVE_CAMPAIGN_KEY) = true -> r = Normal tt).
Proof.
  intros Hnav Hin Hall Htarget Hshell.
  assert (Hget : getLoggedInUser w = (Normal (read (localStorage w) CURRENT_USER_KEY), w))
    by (apply getItem_state_found, Hin).
  assert (Hgo : forall id, id <> "login-screen" ->
                  bool_decide (id ∉ inherited_names) = true ->
                  screens_get (screens w) id = Some target ->
                  exists r w',
                    (user ← getLoggedInUser;
                     if truthy user then _showScreen id else goToLogin) w = (r, w') /\
                    localStorage w' = localStorage w /\ shows_only target shell w' /\
                    (plain (read (localStorage w) ACTIVE_CAMPAIGN_KEY) = true ->
                     r = Normal tt)).
  { intros id Hid Hout Hgetid. run_monad. rewrite Hget.
    unfold logged_in in Hin. rewrite Hin.
    apply bool_decide_eq_true in Hout.
    destruct (showScreen_shows_only id w target shell Hid Hall Hgetid Hshell)
      as (r & w' & Hshow & Hst & _ & _ & _ & Honly & Hr).
    exists r, w'. split; [exact Hshow|]. split; [exact Hst|].
    split; [exact Honly|exact (Hr Hout)]. }
  repeat (apply elem_of_cons in Hnav as [[= -> ->]|Hnav]);
    [apply Hgo; [discriminate|reflexivity|assumption]..|inversion Hnav].
Qed.

End More_navigation.

Section Session_gain.
Context {browser : Platform} {document : Page}.

Lemma notify_session_gain (ls : list Listener) (user : JsVal) (w : World)
    (dashboard shell : Elem) :
  truthy user = true ->
  logged_in w = true ->
  plain (read (localStorage w) ACTIVE_CAMPAIGN_KEY) = true ->
  all_elements (screens w) = true ->
  screens_get (screens w) "dashboard-screen" = Some dashboard ->
  screens_get (screens w) "main-app-content" = Some shell ->
  NavigationListener ∈ ls \/ shows_only dashboard shell w ->
  exists w',
    for_each (fun listener => run_listener listener user) ls w = (Normal tt, w') /\
    localStorage w' = localStorage w /\
    screens w' = screens w /\
    shows_only dashboard shell w'.
Proof.
  intros Huser. revert w.
  induction ls as [|listener ls IH]; intros w Hin Hplain Hall Hdash Hshell Hcase.
  - destruct Hcase as [Hl|Honly]; [inversion Hl|].
    exists w. split; [reflexivity|]. split; [reflexivity|]. split; [reflexivity|exact Honly].
  - simpl. run_monad. destruct listener.
    + assert (Hrefresh : exists w1,
                 run_listener DashboardRefreshListener user w = (Normal tt, w1) /\
                 localStorage w1 = localStorage w /\ screens w1 = screens w /\
                 classHidden w1 = classHidden w).
      { unfold run_listener. run_monad.
        destruct (dashboardScreen w) as [e|];
          [destruct (truthy user && negb (bool_decide (e ∈ classHidden w)))|];
          try (eexists; (split; [reflexivity|]); repeat split; reflexivity).
        destruct (run_hook_run DisplayActiveCampaign w) as (r & lines & -> & Hr).
        rewrite (Hr Hplain). eexists. split; [reflexivity|]. repeat split; reflexivity. }
      destruct Hrefresh as (w1 & Hrun & Hst1 & Hsc1 & Hcl1). rewrite Hrun.
      destruct (IH w1) as (w' & Hrest & Hst' & Hsc' & Honly').
      * unfold logged_in. rewrite Hst1. exact Hin.
      * rewrite Hst1. exact Hplain.
      * rewrite Hsc1. exact Hall.
      * rewrite Hsc1. exact Hdash.
      * rewrite Hsc1. exact Hshell.
      * destruct Hcase as [Hl|Honly].
        -- apply elem_of_cons in Hl as [Hl|Hl]; [discriminate|left; exact Hl].
        -- right. unfold shows_only. rewrite Hcl1, Hsc1. exact Honly.
      * exists w'. split; [exact Hrest|]. split; [congruence|]. split; [congruence|exact Honly'].
    + assert (Hnav : run_listener NavigationListener user w = _showScreen "dashboard-screen" w).
      { unfold run_listener. rewrite Huser. unfold goToDashboard, getLoggedInUser. run_monad.
        rewrite (getItem_state_found _ _ Hin).
        unfold logged_in in Hin. rewrite Hin. reflexivity. }
      rewrite Hnav.
      destruct (showScreen_shows_only "dashboard-screen" w dashboard shell)
        as (r & w1 & Hshow & Hst1 & Hsc1 & _ & _ & Honly1 & Hr);
        try assumption; [discriminate|].
      rewrite Hshow, Hr;
        [|apply (bool_decide_unpack ("dashboard-screen" ∉ inherited_names));
          vm_compute; exact I|exact Hplain].
      destruct (IH w1) as (w' & Hrest & Hst' & Hsc' & Honly').
      * unfold logged_in. rewrite Hst1. exact Hin.
      * rewrite Hst1. exact Hplain.
      * rewrite Hsc1. exact Hall.
      * rewrite Hsc1. exact Hdash.
      * rewrite Hsc1. exact Hshell.
      * right. exact Honly1.
      * exists w'. split; [exact Hrest|]. split; [congruence|]. split; [congruence|exact Honly'].
Qed.

Lemma goToDashboard_with_session (w : World) (dashboard shell : Elem) :
  logged_in w = true ->
  plain (read (localStorage w) ACTIVE_CAMPAIGN_KEY) = true ->
  all_elements (screens w) = true ->
  screens_get (screens w) "dashboard-screen" = Some dashboard ->
  screens_get (screens w) "main-app-content" = Some shell ->
  exists w',
    goToDashboard w = (Normal tt, w') /\
    localStorage w' = localStorage w /\
    shows_only dashboard shell w'.
Proof.
  intros Hin Hplain Hall Hdash Hshell.
  unfold goToDashboard, getLoggedInUser. run_monad.
  rewrite (getItem_state_found _ _ Hin). unfold logged_in in Hin. rewrite Hin.
  destruct (showScreen_shows_only "dashboard-screen" w dashboard shell)
    as (r & w' & Hshow & Hst & _ & _ & _ & Honly & Hr); try assumption; [discriminate|].
  rewrite Hr in Hshow;
    [|apply (bool_decide_unpack ("dashboard-screen" ∉ inherited_names));
      vm_compute; exact I|exact Hplain].
  exists w'. split; [exact Hshow|]. split; [exact Hst|exact Honly].
Qed.

Lemma login_run (username password : string) (users : list (string * string))
    (w : World) (dashboard shell : Elem) :
  read (localStorage w) USERS_KEY = JArr (user_record <$> users) ->
  find (fun u => String.eqb u.1 username) users = Some (username, password) ->
  quota_ok (<[CURRENT_USER_KEY := JsonText (session_marker username)]> (localStorage w)) = true ->
  plain (read (localStorage w) ACTIVE_CAMPAIGN_KEY) = true ->
  NavigationListener ∈ authChangeListeners w ->
  all_elements (screens w) = true ->
  screens_get (screens w) "dashboard-screen" = Some dashboard ->
  screens_get (screens w) "main-app-content" = Some shell ->
  exists w',
    login username password w = (Normal true, w') /\
    localStorage w' = <[CURRENT_USER_KEY := JsonText (session_marker username)]> (localStorage w) /\
    screens w' = screens w /\
    shows_only dashboard shell w'.
Proof.
  intros Hdir Hfind Hquota Hplain Hwired Hall Hdash Hshell.
  unfold login. run_monad. rewrite (getUser_run _ _ _ Hdir), Hfind. simpl.
  rewrite String.eqb_refl. simpl.
  rewrite setItem_run. simpl. fold (session_marker username). rewrite Hquota.
  unfold _notifyAuthChange. run_monad.
  set (w1 := with_localStorage
               (fun _ => <[CURRENT_USER_KEY := JsonText (session_marker username)]>
                           (localStorage w)) w).
  assert (Hin1 : logged_in w1 = true).
  { unfold logged_in, read. simpl. rewrite lookup_insert_eq. reflexivity. }
  assert (Hplain1 : plain (read (localStorage w1) ACTIVE_CAMPAIGN_KEY) = true).
  { simpl. rewrite read_insert_ne by discriminate. exact Hplain. }
  destruct (notify_session_gain (authChangeListeners w) (session_marker username)
              w1 dashboard shell)
    as (w' & Hrun & Hst & Hsc & Honly); try assumption; try reflexivity.
  { left. exact Hwired. }
  rewrite Hrun. exists w'. split; [reflexivity|]. split; [exact Hst|].
  split; [exact Hsc|exact Honly].
Qed.

(** X11.  A successful login opens the dashboard.  For a user
    of the directory with the stored password, a write the browser accepts,
    an active campaign that holds plain data if there is one, and a page on
    which the router listens to the session and every registered screen has
    its element, [login] returns [true], storage gains the session marker of
    that user and nothing else, and the dashboard and the shell are the only
    registered screens left visible. *)
Theorem login_opens_the_dashboard
    (username password : string) (users : list (string * string)) (w : World)
    (dashboard shell : Elem) :
  read (localStorage w) USERS_KEY = JArr (user_record <$> users) ->
  find (fun u => String.eqb u.1 username) users = Some (username, password) ->
  quota_ok (<[CURRENT_USER_KEY := JsonText (session_marker username)]> (localStorage w)) = true ->
  plain (read (localStorage w) ACTIVE_CAMPAIGN_KEY) = true ->
  NavigationListener ∈ authChangeListeners w ->
  all_elements (screens w) = true ->
  screens_get (screens w) "dashboard-screen" = Some dashboard ->
  screens_get (screens w) "main-app-content" = Some shell ->
  exists w',
    login username password w = (Normal true, w') /\
    localStorage w' = <[CURRENT_USER_KEY := JsonText (session_marker username)]> (localStorage w) /\
    logged_in w' = true /\
    shows_only dashboard shell w'.
Proof.
  intros Hdir Hfind Hquota Hplain Hwired Hall Hdash Hshell.
  destruct (login_run username password users w dashboard shell)
    as (w' & Hlogin & Hst & _ & Honly); try assumption.
  exists w'. split; [exact Hlogin|]. split; [exact Hst|]. split; [|exact Honly].
  unfold logged_in, read. rewrite Hst, lookup_insert_eq. reflexivity.
Qed.

Lemma checkLoginStatus_run
    (w : World) (loginScreen dashboard shell : Elem) :
  NavigationListener ∈ authChangeListeners w ->
  all_elements (screens w) = true ->
  screens_get (screens w) "login-screen" = Some loginScreen ->
  screens_get (screens w) "dashboard-screen" = Some dashboard ->
  screens_get (screens w) "main-app-content" = Some shell ->
  shell <> loginScreen ->
  (logged_in w = true -> plain (read (localStorage w) ACTIVE_CAMPAIGN_KEY) = true) ->
  exists w',
    checkLoginStatus w = (Normal tt, w') /\
    localStorage w' = localStorage w /\
    if logged_in w then shows_only dashboard shell w'
    else login_only loginScreen w'.
Proof.
  intros Hwired Hall Hlogin Hdash Hshell Hne Hplain.
  unfold checkLoginStatus, getLoggedInUser, _notifyAuthChange. run_monad.
  destruct (logged_in w) eqn:Hin.
  - rewrite (getItem_state_found _ _ Hin).
    destruct (notify_session_gain (authChangeListeners w)
                (read (localStorage w) CURRENT_USER_KEY) w dashboard shell)
      as (w' & Hrun & Hst & _ & Honly); try assumption;
      try (apply Hplain; reflexivity).
    { left. exact Hwired. }
    exists w'. split; [exact Hrun|]. split; [exact Hst|exact Honly].
  - pose proof (getItem_world_frame CURRENT_USER_KEY w) as Hframe.
    rewrite getItem_run in *. simpl in Hframe.
    set (w0 := if unparseable (localStorage w) CURRENT_USER_KEY
               then with_console (fun c => c ++ [getItem_error]) w else w) in *.
    destruct Hframe as (Hst0 & Hsc0 & _ & _ & Hls0 & _).
    assert (Hnull : forall l w1,
               for_each (fun listener =>
                           run_listener listener (read (localStorage w) CURRENT_USER_KEY)) l w1
               = for_each (fun listener => run_listener listener JNull) l w1).
    { unfold logged_in in Hin.
      induction l as [|listener l IHl]; intros w1; simpl; [reflexivity|].
      run_monad.
      assert (Hsame : run_listener listener (read (localStorage w) CURRENT_USER_KEY) w1
                      = run_listener listener JNull w1).
      { destruct listener; unfold run_listener; rewrite Hin; reflexivity. }
      rewrite Hsame.
      destruct (run_listener listener JNull w1) as [[[]|err] w2]; [apply IHl|reflexivity]. }
    simpl. rewrite Hnull, Hls0.
    destruct (notify_session_loss (authChangeListeners w) w0 loginScreen shell)
      as (w' & Hrun & Hst & Honly); try (rewrite Hsc0; assumption); try assumption.
    { left. exact Hwired. }
    exists w'. split; [exact Hrun|]. split; [congruence|exact Honly].
Qed.

(** X12.  [checkLoginStatus] shows the screen that fits the
    stored session and writes nothing.  On a page on which the router
    listens to the session and every registered screen has its element: with
    a session marker in storage, and the active campaign holding plain data
    if there is one, the dashboard and the shell are the only registered
    screens left visible; without a session marker the login screen is. *)
Theorem checkLoginStatus_shows_the_screen_of_the_session
    (w : World) (loginScreen dashboard shell : Elem) :
  NavigationListener ∈ authChangeListeners w ->
  all_elements (screens w) = true ->
  screens_get (screens w) "login-screen" = Some loginScreen ->
  screens_get (screens w) "dashboard-screen" = Some dashboard ->
  screens_get (screens w) "main-app-content" = Some shell ->
  shell <> loginScreen ->
  (logged_in w = true -> plain (read (localStorage w) ACTIVE_CAMPAIGN_KEY) = true) ->
  exists w',
    checkLoginStatus w = (Normal tt, w') /\
    localStorage w' = localStorage w /\
    if logged_in w then shows_only dashboard shell w'
    else login_only loginScreen w'.
Proof. apply checkLoginStatus_run. Qed.

End Session_gain.

Section More_editors.
Context {browser : Platform} {document : Page}.

Lemma getActiveCampaign_found (v : JsVal) (w : World) :
  localStorage w !! ACTIVE_CAMPAIGN_KEY = Some (JsonText v) ->
  truthy v = true ->
  getActiveCampaign w = (Normal v, w).
Proof.
  intros Hstored Htruthy. unfold getActiveCampaign.
  assert (Hread : read (localStorage w) ACTIVE_CAMPAIGN_KEY = v)
    by (unfold read; rewrite Hstored; reflexivity).
  rewrite getItem_state_found by (rewrite Hread; exact Htruthy).
  rewrite Hread. reflexivity.
Qed.

(** The three saves are [store_asset] once an active campaign is found. *)
Lemma saves_store_the_asset (v : JsVal) (w : World)
    (banner : BannerEditor.t) (marketing : MarketingPageEditor.t)
    (landing : LandingPageEditor.t) :
  localStorage w !! ACTIVE_CAMPAIGN_KEY = Some (JsonText v) ->
  truthy v = true ->
  BannerEditor.saveBanner banner w
  = store_asset "banner" (bannerData banner) "Banner saved and campaign updated." v w /\
  MarketingPageEditor.savePage marketing w
  = store_asset "marketingPage" (marketingPageData marketing)
      "Marketing page saved and campaign updated." v w /\
  LandingPageEditor.savePage landing w
  = store_asset "landingPage" (landingPageData landing)
      "Landing page saved and campaign updated." v w.
Proof.
  intros Hstored Htruthy.
  pose proof (getActiveCampaign_found v w Hstored Htruthy) as Hget.
  unfold BannerEditor.saveBanner, MarketingPageEditor.savePage,
         LandingPageEditor.savePage.
  run_monad. rewrite Hget, Htruthy. simpl. repeat split; reflexivity.
Qed.

Lemma is_json_with_asset (props aprops : list (string * JsVal)) (slot : string)
    (data : JsVal) :
  is_json (JObj props) = true ->
  obj_get props "assets" = JObj aprops ->
  is_json data = true ->
  is_json (JObj (with_asset props aprops slot data)) = true.
Proof.
  intros Hprops Hassets Hdata. unfold with_asset.
  apply is_json_obj_set; [exact Hprops|].
  apply is_json_obj_set; [|exact Hdata].
  clear Hdata. simpl in Hprops.
  induction props as [|[k x] props IH]; simpl in *; [discriminate|].
  apply andb_prop in Hprops as [Hx Hprops].
  destruct (String.eqb k "assets"); [subst x; exact Hx|apply IH; assumption].
Qed.

Lemma saveCampaign_run (props : list (string * JsVal)) (idText nameText : string)
    (w : World) :
  let key := CAMPAIGN_PREFIX +:+ idText in
  is_json (JObj props) = true ->
  to_string (obj_get props "id") = Normal idText ->
  to_string (obj_get props "name") = Normal nameText ->
  saveCampaign (JObj props) w =
  (Normal tt,
   with_console (fun c => c ++ [campaign_saved_log nameText key])
     (if quota_ok (<[key := JsonText (JObj props)]> (localStorage w))
      then with_localStorage
             (fun _ => <[key := JsonText (JObj props)]> (localStorage w)) w
      else with_console (fun c => c ++ [setItem_error]) w)).
Proof.
  intros key Hjson Hid Hname. destruct (to_json_id _ Hjson) as [Hj Hb].
  unfold saveCampaign, console_log. run_monad. rewrite Hid. fold key.
  rewrite setItem_run, Hb.
  assert (Ht : text_of (JObj props) = JsonText (JObj props))
    by (unfold text_of; rewrite Hj; reflexivity).
  rewrite Ht. simpl.
  destruct (quota_ok _); simpl; rewrite Hname; reflexivity.
Qed.

Lemma setActiveCampaign_log (props : list (string * JsVal)) (w : World) :
  let record := JObj (stamped props (clock w (ticks w))) in
  is_json (JObj props) = true ->
  setActiveCampaign (JObj props) w =
  (Normal tt,
   with_console (fun c => c ++ [active_campaign_updated_log])
     (if quota_ok (<[ACTIVE_CAMPAIGN_KEY := JsonText record]> (localStorage w))
      then with_localStorage
             (fun _ => <[ACTIVE_CAMPAIGN_KEY := JsonText record]> (localStorage w))
             (with_ticks S w)
      else with_console (fun c => c ++ [setItem_error]) (with_ticks S w))).
Proof.
  intros record Hjson.
  assert (Hs : is_json record = true) by (apply is_json_obj_set; [exact Hjson|reflexivity]).
  destruct (to_json_id record Hs) as [Hj Hb].
  unfold setActiveCampaign, new_Date_toISOString, Date_now, console_log. run_monad.
  rewrite setItem_run.
  change (JObj (obj_set props "lastUpdated" (JStr (toISOString (clock w (ticks w))))))
    with record.
  assert (Ht : text_of record = JsonText record)
    by (unfold text_of; rewrite Hj; reflexivity).
  rewrite Hb, Ht. simpl.
  destruct (quota_ok _); reflexivity.
Qed.

Lemma store_asset_run (slot : string) (data : JsVal) (message : string)
    (props aprops : list (string * JsVal)) (idText nameText : string) (w : World) :
  let t := clock w (ticks w) in
  let key := CAMPAIGN_PREFIX +:+ idText in
  let saved := JObj (with_asset props aprops slot data) in
  let m1 := <[key := JsonText saved]> (localStorage w) in
  is_json (JObj props) = true ->
  to_string (obj_get props "id") = Normal idText ->
  to_string (obj_get props "name") = Normal nameText ->
  obj_get props "assets" = JObj aprops ->
  is_json data = true ->
  quota_ok m1 = true ->
  quota_ok (saved_storage key props aprops slot data t (localStorage w)) = true ->
  exists w',
    store_asset slot data message (JObj props) w = (Normal tt, w') /\
    localStorage w' = saved_storage key props aprops slot data t (localStorage w) /\
    screens w' = screens w /\
    classHidden w' = classHidden w /\
    clock w' = clock w /\
    ticks w' = S (ticks w).
Proof.
  intros t key saved m1 Hprops Hid Hname Hassets Hdata Hq1 Hq2.
  assert (Hsaved : is_json saved = true) by (apply is_json_with_asset; assumption).
  unfold store_asset. run_monad. rewrite Hassets. simpl.
  fold (with_asset props aprops slot data).
  rewrite (saveCampaign_run _ idText nameText _ Hsaved)
    by (unfold with_asset; rewrite obj_get_obj_set_ne by discriminate; assumption).
  fold key saved m1. rewrite Hq1.
  rewrite (setActiveCampaign_log _ _ Hsaved). simpl localStorage. simpl clock.
  simpl ticks. fold t. unfold saved_storage in Hq2. fold saved m1 in Hq2. rewrite Hq2.
  unfold console_log. run_monad.
  eexists. split; [reflexivity|]. simpl. repeat split; reflexivity.
Qed.

(** X14.  An editor's save, [saveBanner] or either [savePage],
    writes the asset into its slot of the active campaign and stores the
    campaign twice: under the key made of the campaign prefix and the string
    of its id, and stamped with the current time under the active-campaign
    key.  Every other key keeps its content, the other asset slots keep
    theirs, and so do the campaign's other properties.  The active campaign
    is an object of JSON data whose [assets] is an object and whose id and
    name have a string, and the browser accepts both writes. *)
Theorem save_stores_the_asset_and_keeps_the_others
    (banner : BannerEditor.t) (marketing : MarketingPageEditor.t)
    (landing : LandingPageEditor.t)
    (save : M unit) (slot : string) (data : JsVal)
    (props aprops : list (string * JsVal)) (idText nameText : string) (w : World) :
  let key := CAMPAIGN_PREFIX +:+ idText in
  (save, slot, data) ∈
    [(BannerEditor.saveBanner banner, "banner", bannerData banner);
     (MarketingPageEditor.savePage marketing, "marketingPage", marketingPageData marketing);
     (LandingPageEditor.savePage landing, "landingPage", landingPageData landing)] ->
  localStorage w !! ACTIVE_CAMPAIGN_KEY = Some (JsonText (JObj props)) ->
  is_json (JObj props) = true ->
  to_string (obj_get props "id") = Normal idText ->
  to_string (obj_get props "name") = Normal nameText ->
  obj_get props "assets" = JObj aprops ->
  is_json data = true ->
  quota_ok (<[key := JsonText (JObj (with_asset props aprops slot data))]>
              (localStorage w)) = true ->
  quota_ok (saved_storage key props aprops slot data (clock w (ticks w))
              (localStorage w)) = true ->
  exists w',
    save w = (Normal tt, w') /\
    localStorage w' =
      saved_storage key props aprops slot data (clock w (ticks w)) (localStorage w) /\
    (forall key', key' <> ACTIVE_CAMPAIGN_KEY -> key' <> key ->
                  localStorage w' !! key' = localStorage w !! key') /\
    asset_of (JObj (with_asset props aprops slot data)) slot = data /\
    (forall other, other <> slot ->
        asset_of (JObj (with_asset props aprops slot data)) other
        = asset_of (JObj props) other) /\
    (forall k, k <> "assets" ->
        obj_get (with_asset props aprops slot data) k = obj_get props k).
Proof.
  intros key Hsave Hstored Hprops Hid Hname Hassets Hdata Hq1 Hq2.
  destruct (saves_store_the_asset (JObj props) w banner marketing landing Hstored eq_refl)
    as (Hb & Hm & Hl).
  destruct (store_asset_run slot data
              (if String.eqb slot "banner" then "Banner saved and campaign updated."
               else if String.eqb slot "marketingPage"
                    then "Marketing page saved and campaign updated."
                    else "Landing page saved and campaign updated.")
              props aprops idText nameText w Hprops Hid Hname Hassets Hdata Hq1 Hq2)
    as (w' & Hrun & Hst & _).
  exists w'. split; [|split; [exact Hst|split; [|split; [|split]]]].
  - repeat (apply elem_of_cons in Hsave as [[= -> -> ->]|Hsave]);
      [rewrite Hb; exact Hrun|rewrite Hm; exact Hrun|rewrite Hl; exact Hrun
      |inversion Hsave].
  - intros key' Hk1 Hk2. unfold key in *. rewrite Hst. unfold saved_storage.
    rewrite lookup_insert_ne by congruence. apply lookup_insert_ne. congruence.
  - unfold asset_of, with_asset. simpl truthy. cbv iota.
    rewrite obj_get_obj_set_eq. simpl truthy. cbv iota.
    apply obj_get_obj_set_eq.
  - intros other Hother. unfold asset_of, with_asset. simpl truthy. cbv iota.
    rewrite obj_get_obj_set_eq, Hassets. simpl truthy. cbv iota.
    apply obj_get_obj_set_ne, Hother.
  - intros k Hk. apply obj_get_obj_set_ne, Hk.
Qed.

Lemma saved_asset_run (v : JsVal) (slot : string) (w : World) :
  saved_asset v slot w = (Normal (asset_of v slot), w).
Proof.
  unfold saved_asset, asset_of.
  destruct v as [| |b|n|n|s|l|props]; try reflexivity;
    try (destruct (truthy _); reflexivity).
  simpl truthy. cbv iota. run_monad.
  destruct (obj_get props "assets"); try reflexivity;
    destruct (truthy _); reflexivity.
Qed.

Lemma asset_of_stamped (props aprops : list (string * JsVal)) (slot : string)
    (data : JsVal) (t : Z) :
  asset_of (JObj (stamped (with_asset props aprops slot data) t)) slot = data.
Proof.
  unfold asset_of, stamped, with_asset. simpl truthy. cbv iota.
  rewrite obj_get_obj_set_ne by discriminate.
  rewrite obj_get_obj_set_eq. simpl truthy. cbv iota.
  apply obj_get_obj_set_eq.
Qed.

Lemma load_reads_the_saved_asset (props aprops : list (string * JsVal))
    (slot : string) (data : JsVal) (t : Z) (w1 : World) :
  localStorage w1 !! ACTIVE_CAMPAIGN_KEY
  = Some (JsonText (JObj (stamped (with_asset props aprops slot data) t))) ->
  (activeCampaign ← getActiveCampaign; saved_asset activeCampaign slot) w1
  = (Normal data, w1).
Proof.
  intros Hst. run_monad.
  rewrite (getActiveCampaign_found
             (JObj (stamped (with_asset props aprops slot data) t)) w1 Hst eq_refl).
  rewrite saved_asset_run, asset_of_stamped. reflexivity.
Qed.

Lemma value_or_populated (input : option string) (fallback : string) :
  populated input -> Some (value_or input fallback) = input.
Proof.
  intros (v & -> & Hv). simpl. apply String.eqb_neq in Hv. rewrite Hv. reflexivity.
Qed.

Lemma assign_saved_text (input saved : option string) (fallback : string)
    (w : World) :
  is_Some input -> populated saved ->
  assign_value input (JStr (value_or saved fallback)) w = (Normal saved, w).
Proof.
  intros [x ->] Hsaved. unfold assign_value, set_value, dom_string. run_monad.
  rewrite (value_or_populated _ _ Hsaved). reflexivity.
Qed.

(** Runs the assignments of a load from a saved form. *)
Ltac assign_saved :=
  repeat (rewrite assign_saved_text by assumption; simpl).

Lemma assign_saved_size (input saved : option string) (w : World) :
  is_Some input -> populated saved ->
  assign_value input
    match saved with
    | Some v => if String.eqb v "" then JNum 16 else JStr v
    | None => JNum 16
    end w = (Normal saved, w).
Proof.
  intros [x ->] (size & -> & Hsize). apply String.eqb_neq in Hsize. rewrite Hsize.
  reflexivity.
Qed.

Lemma loadBanner_restores (props aprops : list (string * JsVal)) (t : Z)
    (saved shown : BannerEditor.t) (w1 : World) :
  localStorage w1 !! ACTIVE_CAMPAIGN_KEY
  = Some (JsonText (JObj (stamped (with_asset props aprops "banner" (bannerData saved)) t))) ->
  banner_filled saved ->
  banner_present shown ->
  exists w2,
    BannerEditor.loadBanner shown w1 = (Normal saved, w2) /\
    localStorage w2 = localStorage w1.
Proof.
  intros Hst Hfilled Hpresent.
  pose proof (load_reads_the_saved_asset _ _ _ _ _ _ Hst) as Hread.
  unfold BannerEditor.loadBanner.
  revert Hread. run_monad. intros Hread.
  destruct (getActiveCampaign w1) as [[active|e] w0]; [|discriminate].
  rewrite Hread. clear Hread.
  destruct saved as [s1 s2 s3 s4 s5 s6].
  destruct Hfilled as (H1 & H2 & H3 & H4 & H5 & H6). simpl in *.
  destruct Hpresent as (P1 & P2 & P3 & P4 & P5 & P6).
  unfold bannerData. simpl. assign_saved.
  rewrite assign_saved_size by assumption. simpl. assign_saved.
  unfold console_log. run_monad.
  eexists. split; reflexivity.
Qed.

(** X15.  What an editor saves, its load puts back into the
    form.  After [saveBanner] or [savePage] of a form whose controls all hold
    text, into an active campaign that is an object of JSON data with an
    [assets] object and with an id and a name that have a string, and with
    both writes accepted, [loadBanner] or [loadPage] on the same page
    returns exactly the saved form, whatever the controls held in between,
    and writes nothing. *)
Theorem save_then_load_restores_the_form
    (props aprops : list (string * JsVal)) (idText nameText : string) (w : World) :
  let key := CAMPAIGN_PREFIX +:+ idText in
  localStorage w !! ACTIVE_CAMPAIGN_KEY = Some (JsonText (JObj props)) ->
  is_json (JObj props) = true ->
  to_string (obj_get props "id") = Normal idText ->
  to_string (obj_get props "name") = Normal nameText ->
  obj_get props "assets" = JObj aprops ->
  (forall (saved shown : BannerEditor.t),
      banner_filled saved -> banner_present shown ->
      quota_ok (<[key :=
                    JsonText (JObj (with_asset props aprops "banner" (bannerData saved)))]>
                  (localStorage w)) = true ->
      quota_ok (saved_storage key props aprops "banner" (bannerData saved)
                  (clock w (ticks w)) (localStorage w)) = true ->
      exists w1 w2,
        BannerEditor.saveBanner saved w = (Normal tt, w1) /\
        BannerEditor.loadBanner shown w1 = (Normal saved, w2) /\
        localStorage w2 = localStorage w1)
  /\ (forall (saved shown : MarketingPageEditor.t),
        marketing_filled saved -> marketing_present shown ->
        quota_ok (<[key :=
                      JsonText (JObj (with_asset props aprops "marketingPage"
                                        (marketingPageData saved)))]>
                    (localStorage w)) = true ->
        quota_ok (saved_storage key props aprops "marketingPage" (marketingPageData saved)
                    (clock w (ticks w)) (localStorage w)) = true ->
        exists w1 w2,
          MarketingPageEditor.savePage saved w = (Normal tt, w1) /\
          MarketingPageEditor.loadPage shown w1 = (Normal saved, w2) /\
          localStorage w2 = localStorage w1)
  /\ (forall (saved shown : LandingPageEditor.t),
        landing_filled saved -> landing_present shown ->
        quota_ok (<[key :=
                      JsonText (JObj (with_asset props aprops "landingPage"
                                        (landingPageData saved)))]>
                    (localStorage w)) = true ->
        quota_ok (saved_storage key props aprops "landingPage" (landingPageData saved)
                    (clock w (ticks w)) (localStorage w)) = true ->
        exists w1 w2,
          LandingPageEditor.savePage saved w = (Normal tt, w1) /\
          LandingPageEditor.loadPage shown w1 = (Normal saved, w2) /\
          localStorage w2 = localStorage w1).
Proof.
  intros key Hstored Hprops Hid Hname Hassets. split; [|split].
  - intros saved shown Hfilled Hpresent Hq1 Hq2.
    destruct (saves_store_the_asset (JObj props) w saved
                (MarketingPageEditor.mk JNull None None None None None)
                (LandingPageEditor.mk JNull None None None None None None None None)
                Hstored eq_refl) as (Hsave & _ & _).
    assert (Hdata : is_json (bannerData saved) = true).
    { unfold bannerData. simpl.
      destruct (BannerEditor.bannerFontSizeInput saved) as [v|]; [|reflexivity].
      destruct (String.eqb v ""); reflexivity. }
    destruct (store_asset_run "banner" (bannerData saved)
                "Banner saved and campaign updated." props aprops idText nameText w
                Hprops Hid Hname Hassets Hdata Hq1 Hq2) as (w1 & Hrun & Hst & _).
    destruct (loadBanner_restores props aprops (clock w (ticks w)) saved shown w1)
      as (w2 & Hload & Hst2); try assumption.
    { rewrite Hst. apply lookup_insert_eq. }
    exists w1, w2. split; [rewrite Hsave; exact Hrun|]. split; assumption.
  - intros saved shown Hfilled Hpresent Hq1 Hq2.
    destruct (saves_store_the_asset (JObj props) w
                (BannerEditor.mk None None None None None None) saved
                (LandingPageEditor.mk JNull None None None None None None None None)
                Hstored eq_refl) as (_ & Hsave & _).
    destruct saved as [tid s1 s2 s3 s4 s5].
    destruct Hfilled as (Htid & H1 & H2 & H3 & H4 & H5). simpl in *.
    destruct Hpresent as (P1 & P2 & P3 & P4 & P5).
    assert (Hdata : is_json (marketingPageData
                               (MarketingPageEditor.mk tid s1 s2 s3 s4 s5)) = true).
    { unfold marketingPageData. simpl. rewrite Htid. reflexivity. }
    destruct (store_asset_run "marketingPage" _
                "Marketing page saved and campaign updated." props aprops
                idText nameText w
                Hprops Hid Hname Hassets Hdata Hq1 Hq2) as (w1 & Hrun & Hst & _).
    pose proof (load_reads_the_saved_asset _ _ _ _ _ w1
                  (eq_trans (f_equal (lookup ACTIVE_CAMPAIGN_KEY) Hst)
                            (lookup_insert_eq _ _ _))) as Hread.
    exists w1. eexists. split; [rewrite Hsave; exact Hrun|].
    unfold MarketingPageEditor.loadPage.
    revert Hread. run_monad. intros Hread.
    destruct (getActiveCampaign w1) as [[active|e] w0]; [|discriminate].
    rewrite Hread. clear Hread.
    unfold marketingPageData. simpl. assign_saved.
    unfold console_log. run_monad.
    split; reflexivity.
  - intros saved shown Hfilled Hpresent Hq1 Hq2.
    destruct (saves_store_the_asset (JObj props) w
                (BannerEditor.mk None None None None None None)
                (MarketingPageEditor.mk JNull None None None None None) saved
                Hstored eq_refl) as (_ & _ & Hsave).
    destruct saved as [tid s1 s2 s3 s4 s5 s6 s7 cb].
    destruct Hfilled as (Htid & H1 & H2 & H3 & H4 & H5 & H6 & H7 & [b Hb]).
    simpl in *. subst cb.
    destruct Hpresent as (P1 & P2 & P3 & P4 & P5 & P6 & P7 & [b0 Hb0]).
    assert (Hdata : is_json (landingPageData
                               (LandingPageEditor.mk tid s1 s2 s3 s4 s5 s6 s7 (Some b)))
                    = true).
    { unfold landingPageData. simpl. rewrite Htid. reflexivity. }
    destruct (store_asset_run "landingPage" _
                "Landing page saved and campaign updated." props aprops
                idText nameText w
                Hprops Hid Hname Hassets Hdata Hq1 Hq2) as (w1 & Hrun & Hst & _).
    pose proof (load_reads_the_saved_asset _ _ _ _ _ w1
                  (eq_trans (f_equal (lookup ACTIVE_CAMPAIGN_KEY) Hst)
                            (lookup_insert_eq _ _ _))) as Hread.
    exists w1. eexists. split; [rewrite Hsave; exact Hrun|].
    unfold LandingPageEditor.loadPage.
    revert Hread. run_monad. intros Hread.
    destruct (getActiveCampaign w1) as [[active|e] w0]; [|discriminate].
    rewrite Hread. clear Hread.
    unfold landingPageData. simpl. assign_saved.
    unfold console_log. run_monad.
    rewrite Hb0. simpl.
    split; reflexivity.
Qed.

Lemma load_reads_the_asset (slot : string) (w : World) :
  exists w0,
    (activeCampaign ← getActiveCampaign; saved_asset activeCampaign slot) w
    = (Normal (asset_of (read (localStorage w) ACTIVE_CAMPAIGN_KEY) slot), w0) /\
    localStorage w0 = localStorage w.
Proof.
  unfold getActiveCampaign. run_monad.
  destruct (getItem_frame ACTIVE_CAMPAIGN_KEY w) as (w0 & -> & Hst & _).
  exists w0. rewrite saved_asset_run. split; [reflexivity|exact Hst].
Qed.

(** X16.  Loading a campaign that has no asset of the editor's
    kind (no active campaign, no [assets], or an empty slot) starts from
    template 1 and writes nothing.  The landing page and marketing page
    editors keep the title, paragraph and image text the form holds at that
    moment, filling only the empty ones with the presets, and take the
    preset colours and call-to-action; the template is "template1" and the
    lead form is unchecked.  The banner editor replaces its text by "Your Ad
    Text Here", takes the colours and font of template 1 and leaves the
    banner type as it is. *)
Theorem load_without_a_saved_asset_starts_from_template1 (w : World) :
  (forall ed : LandingPageEditor.t,
      truthy (asset_of (read (localStorage w) ACTIVE_CAMPAIGN_KEY) "landingPage") = false ->
      exists ed' w' presets,
        LandingPageEditor.loadPage ed w = (Normal ed', w') /\
        localStorage w' = localStorage w /\
        LandingPageEditor.templatesDefaults "template1" = Some presets /\
        LandingPageEditor.currentTemplateId ed' = JStr "template1" /\
        kept_or_filled (LandingPageEditor.titleInput ed)
                       (LandingPageEditor.titleInput ed')
                       (LandingPageEditor.title presets) /\
        kept_or_filled (LandingPageEditor.paragraphInput ed)
                       (LandingPageEditor.paragraphInput ed')
                       (LandingPageEditor.paragraph presets) /\
        kept_or_filled (LandingPageEditor.imageUrlInput ed)
                       (LandingPageEditor.imageUrlInput ed')
                       (LandingPageEditor.imageUrl presets) /\
        overwritten (LandingPageEditor.ctaTextInput ed)
                    (LandingPageEditor.ctaTextInput ed')
                    (LandingPageEditor.ctaText presets) /\
        overwritten (LandingPageEditor.ctaLinkInput ed)
                    (LandingPageEditor.ctaLinkInput ed')
                    (LandingPageEditor.ctaLink presets) /\
        overwritten (LandingPageEditor.bgColorInput ed)
                    (LandingPageEditor.bgColorInput ed')
                    (LandingPageEditor.bgColor presets) /\
        overwritten (LandingPageEditor.textColorInput ed)
                    (LandingPageEditor.textColorInput ed')
                    (LandingPageEditor.textColor presets) /\
        LandingPageEditor.collectLeadsCheckbox ed'
        = set_value (LandingPageEditor.collectLeadsCheckbox ed) false)
  /\ (forall ed : MarketingPageEditor.t,
        truthy (asset_of (read (localStorage w) ACTIVE_CAMPAIGN_KEY) "marketingPage") = false ->
        exists ed' w' presets,
          MarketingPageEditor.loadPage ed w = (Normal ed', w') /\
          localStorage w' = localStorage w /\
          MarketingPageEditor.templatesDefaults "template1" = Some presets /\
          MarketingPageEditor.currentTemplateId ed' = JStr "template1" /\
          kept_or_filled (MarketingPageEditor.titleInput ed)
                         (MarketingPageEditor.titleInput ed')
                         (MarketingPageEditor.title presets) /\
          kept_or_filled (MarketingPageEditor.paragraph1Input ed)
                         (MarketingPageEditor.paragraph1Input ed')
                         (MarketingPageEditor.paragraph1 presets) /\
          kept_or_filled (MarketingPageEditor.imageUrlInput ed)
                         (MarketingPageEditor.imageUrlInput ed')
                         (MarketingPageEditor.imageUrl presets) /\
          overwritten (MarketingPageEditor.bgColorInput ed)
                      (MarketingPageEditor.bgColorInput ed')
                      (MarketingPageEditor.bgColor presets) /\
          overwritten (MarketingPageEditor.textColorInput ed)
                      (MarketingPageEditor.textColorInput ed')
                      (MarketingPageEditor.textColor presets))
  /\ (forall ed : BannerEditor.t,
        truthy (asset_of (read (localStorage w) ACTIVE_CAMPAIGN_KEY) "banner") = false ->
        exists ed' w' preset,
          BannerEditor.loadBanner ed w = (Normal ed', w') /\
          localStorage w' = localStorage w /\
          BannerEditor.templates "template1" = Some preset /\
          BannerEditor.bannerTypeSelect ed' = BannerEditor.bannerTypeSelect ed /\
          overwritten (BannerEditor.bannerTextInput ed)
                      (BannerEditor.bannerTextInput ed') "Your Ad Text Here" /\
          overwritten (BannerEditor.bannerBgColorInput ed)
                      (BannerEditor.bannerBgColorInput ed')
                      (BannerEditor.bgColor preset) /\
          overwritten (BannerEditor.bannerTextColorInput ed)
                      (BannerEditor.bannerTextColorInput ed')
                      (BannerEditor.textColor preset) /\
          overwritten (BannerEditor.bannerFontSizeInput ed)
                      (BannerEditor.bannerFontSizeInput ed')
                      (pretty (BannerEditor.fontSize preset)) /\
          overwritten (BannerEditor.bannerFontFamilySelect ed)
                      (BannerEditor.bannerFontFamilySelect ed')
                      (BannerEditor.fontFamily preset)).
Proof.
  split; [|split].
  - intros ed Hnone.
    destruct (load_reads_the_asset "landingPage" w) as (w0 & Hread & Hst).
    unfold LandingPageEditor.loadPage. revert Hread. run_monad. intros Hread.
    destruct (getActiveCampaign w) as [[active|e] w1]; [|discriminate].
    rewrite Hread, Hnone. unfold console_log. run_monad.
    eexists _, _, _. split; [reflexivity|]. split; [exact Hst|].
    split; [reflexivity|]. simpl.
    repeat match goal with
           | |- _ /\ _ => split
           end;
      first [ apply restore_kept_or_filled
            | apply set_value_overwritten
            | reflexivity ].
  - intros ed Hnone.
    destruct (load_reads_the_asset "marketingPage" w) as (w0 & Hread & Hst).
    unfold MarketingPageEditor.loadPage. revert Hread. run_monad. intros Hread.
    destruct (getActiveCampaign w) as [[active|e] w1]; [|discriminate].
    rewrite Hread, Hnone. unfold console_log. run_monad.
    eexists _, _, _. split; [reflexivity|]. split; [exact Hst|].
    split; [reflexivity|]. simpl.
    repeat match goal with
           | |- _ /\ _ => split
           end;
      first [ apply restore_kept_or_filled
            | apply set_value_overwritten
            | reflexivity ].
  - intros ed Hnone.
    destruct (load_reads_the_asset "banner" w) as (w0 & Hread & Hst).
    unfold BannerEditor.loadBanner. revert Hread. run_monad. intros Hread.
    destruct (getActiveCampaign w) as [[active|e] w1]; [|discriminate].
    rewrite Hread, Hnone. unfold console_log. run_monad.
    eexists _, _, _. split; [reflexivity|]. split; [exact Hst|].
    split; [reflexivity|]. simpl.
    repeat match goal with
           | |- _ /\ _ => split
           end;
      first [ apply set_value_overwritten
            | reflexivity ].
Qed.

Lemma store_asset_throws (slot : string) (data : JsVal) (message : string)
    (v : JsVal) (w : World) :
  truthy v = true ->
  has_assets_object v = false ->
  store_asset slot data message v w = (Throw TypeError, w).
Proof.
  intros Htruthy Hno. unfold store_asset. run_monad.
  destruct v as [| |b|n|n|s|l|props]; try discriminate; try reflexivity.
  simpl in Hno. simpl.
  destruct (obj_get props "assets"); try discriminate; reflexivity.
Qed.

(** X17.  Saving into an active campaign that has no [assets]
    object is not absorbed: when the value under the active-campaign key is
    truthy but is not an object whose [assets] is an object or an array, each
    editor's save throws a TypeError at the assignment of the asset, and
    nothing is written or logged. *)
Theorem save_throws_when_the_active_campaign_has_no_assets
    (v : JsVal) (w : World)
    (banner : BannerEditor.t) (marketing : MarketingPageEditor.t)
    (landing : LandingPageEditor.t) :
  localStorage w !! ACTIVE_CAMPAIGN_KEY = Some (JsonText v) ->
  truthy v = true ->
  has_assets_object v = false ->
  BannerEditor.saveBanner banner w = (Throw TypeError, w) /\
  MarketingPageEditor.savePage marketing w = (Throw TypeError, w) /\
  LandingPageEditor.savePage landing w = (Throw TypeError, w).
Proof.
  intros Hstored Htruthy Hno.
  destruct (saves_store_the_asset v w banner marketing landing Hstored Htruthy)
    as (-> & -> & ->).
  repeat split; apply store_asset_throws; assumption.
Qed.

End More_editors.

Section More_templates.

Ltac by_cases_on_emptiness :=
  repeat (simpl in *; try reflexivity; try congruence;
          match goal with
          | |- context [String.eqb ?a ""] =>
              is_var a; destruct (String.eqb a "") eqn:?
          end).

(** What [_applyTemplate] leaves in a control that keeps typed text. *)
Lemma restore_twice (input : option string) (preset : string) :
  let once := restore_value (set_value input preset) (value_or input "") in
  restore_value (set_value once preset) (value_or once "") = once.
Proof.
  unfold restore_value, set_value, value_or.
  destruct input as [v|]; by_cases_on_emptiness.
Qed.

Lemma restore_sticks (input : option string) (preset preset' : string) :
  preset <> "" ->
  let once := restore_value (set_value input preset) (value_or input "") in
  restore_value (set_value once preset') (value_or once "") = once.
Proof.
  intros Hp. apply String.eqb_neq in Hp.
  unfold restore_value, set_value, value_or.
  destruct input as [v|]; by_cases_on_emptiness.
Qed.

Lemma restore_same (input : option string) :
  restore_value input (value_or input "") = input.
Proof.
  unfold restore_value, set_value, value_or.
  destruct input as [v|]; by_cases_on_emptiness.
Qed.

Lemma set_value_twice {A} (input : option A) (v v' : A) :
  set_value (set_value input v) v' = set_value input v'.
Proof. destruct input; reflexivity. Qed.

Lemma landing_presets_hold_text (templateId : string) (presets : LandingPageEditor.Defaults) :
  LandingPageEditor.templatesDefaults templateId = Some presets ->
  LandingPageEditor.title presets <> "" /\
  LandingPageEditor.paragraph presets <> "" /\
  LandingPageEditor.imageUrl presets <> "".
Proof.
  unfold LandingPageEditor.templatesDefaults.
  repeat match goal with
         | |- context [if String.eqb templateId ?s then _ else _] =>
             destruct (String.eqb templateId s)
         end;
    intros [= <-]; repeat split; discriminate.
Qed.

Lemma marketing_presets_hold_text (templateId : string)
    (presets : MarketingPageEditor.Defaults) :
  MarketingPageEditor.templatesDefaults templateId = Some presets ->
  MarketingPageEditor.title presets <> "" /\
  MarketingPageEditor.paragraph1 presets <> "" /\
  MarketingPageEditor.imageUrl presets <> "".
Proof.
  unfold MarketingPageEditor.templatesDefaults.
  repeat match goal with
         | |- context [if String.eqb templateId ?s then _ else _] =>
             destruct (String.eqb templateId s)
         end;
    intros [= <-]; repeat split; discriminate.
Qed.

(** X18.  How templates compose in the three editors, for
    template ids that are not member names of [Object.prototype].  Applying
    a template twice is applying it once.  A template id outside the catalog
    changes nothing.  And in the landing page and marketing page editors the
    title, paragraph and image are settled by the first template applied:
    once a template of the catalog has been applied, applying any other
    template leaves those three controls as they are, so that switching
    templates on an untouched form changes colours and call-to-action only. *)
Theorem applyTemplate_composes :
  (forall templateId ed,
      templateId ∉ inherited_names ->
      LandingPageEditor._applyTemplate templateId
        (LandingPageEditor._applyTemplate templateId ed)
      = LandingPageEditor._applyTemplate templateId ed)
  /\ (forall templateId ed,
        templateId ∉ inherited_names ->
        MarketingPageEditor._applyTemplate templateId
          (MarketingPageEditor._applyTemplate templateId ed)
        = MarketingPageEditor._applyTemplate templateId ed)
  /\ (forall templateName ed,
        templateName ∉ inherited_names ->
        BannerEditor._applyTemplate templateName
          (BannerEditor._applyTemplate templateName ed)
        = BannerEditor._applyTemplate templateName ed)
  /\ (forall templateId ed,
        templateId ∉ inherited_names ->
        LandingPageEditor.templatesDefaults templateId = None ->
        LandingPageEditor._applyTemplate templateId ed = ed)
  /\ (forall templateId ed,
        templateId ∉ inherited_names ->
        MarketingPageEditor.templatesDefaults templateId = None ->
        MarketingPageEditor._applyTemplate templateId ed = ed)
  /\ (forall templateName ed,
        templateName ∉ inherited_names ->
        BannerEditor.templates templateName = None ->
        BannerEditor._applyTemplate templateName ed = ed)
  /\ (forall first second ed,
        is_Some (LandingPageEditor.templatesDefaults first) ->
        second ∉ inherited_names ->
        let ed1 := LandingPageEditor._applyTemplate first ed in
        let ed2 := LandingPageEditor._applyTemplate second ed1 in
        LandingPageEditor.titleInput ed2 = LandingPageEditor.titleInput ed1 /\
        LandingPageEditor.paragraphInput ed2 = LandingPageEditor.paragraphInput ed1 /\
        LandingPageEditor.imageUrlInput ed2 = LandingPageEditor.imageUrlInput ed1)
  /\ (forall first second ed,
        is_Some (MarketingPageEditor.templatesDefaults first) ->
        second ∉ inherited_names ->
        let ed1 := MarketingPageEditor._applyTemplate first ed in
        let ed2 := MarketingPageEditor._applyTemplate second ed1 in
        MarketingPageEditor.titleInput ed2 = MarketingPageEditor.titleInput ed1 /\
        MarketingPageEditor.paragraph1Input ed2 = MarketingPageEditor.paragraph1Input ed1 /\
        MarketingPageEditor.imageUrlInput ed2 = MarketingPageEditor.imageUrlInput ed1).
Proof.
  repeat match goal with
         | |- _ /\ _ => split
         end.
  - intros templateId ed _. unfold LandingPageEditor._applyTemplate.
    destruct (LandingPageEditor.templatesDefaults templateId) as [d|]; simpl.
    + rewrite !restore_twice, !set_value_twice. reflexivity.
    + repeat rewrite restore_same. reflexivity.
  - intros templateId ed _. unfold MarketingPageEditor._applyTemplate.
    destruct (MarketingPageEditor.templatesDefaults templateId) as [d|]; simpl.
    + rewrite !restore_twice, !set_value_twice. reflexivity.
    + repeat rewrite restore_same. reflexivity.
  - intros templateName ed _. unfold BannerEditor._applyTemplate.
    destruct (BannerEditor.templates templateName) as [d|] eqn:Hd; simpl.
    + rewrite !set_value_twice. reflexivity.
    + reflexivity.
  - intros templateId ed _ Hnone. unfold LandingPageEditor._applyTemplate.
    rewrite Hnone. simpl. rewrite !restore_same. destruct ed; reflexivity.
  - intros templateId ed _ Hnone. unfold MarketingPageEditor._applyTemplate.
    rewrite Hnone. simpl. rewrite !restore_same. destruct ed; reflexivity.
  - intros templateName ed _ Hnone. unfold BannerEditor._applyTemplate.
    rewrite Hnone. reflexivity.
  - intros first second ed [d Hd] _ ed1 ed2.
    destruct (landing_presets_hold_text first d Hd) as (H1 & H2 & H3).
    unfold ed2, ed1, LandingPageEditor._applyTemplate. rewrite Hd. simpl.
    destruct (LandingPageEditor.templatesDefaults second) as [d'|]; simpl.
    + rewrite !restore_sticks by assumption. repeat split; reflexivity.
    + rewrite !restore_same. repeat split; reflexivity.
  - intros first second ed [d Hd] _ ed1 ed2.
    destruct (marketing_presets_hold_text first d Hd) as (H1 & H2 & H3).
    unfold ed2, ed1, MarketingPageEditor._applyTemplate. rewrite Hd. simpl.
    destruct (MarketingPageEditor.templatesDefaults second) as [d'|]; simpl.
    + rewrite !restore_sticks by assumption. repeat split; reflexivity.
    + rewrite !restore_same. repeat split; reflexivity.
Qed.

End More_templates.

Section More_campaigns.
Context {browser : Platform} {document : Page}.


(** X20.  An editor's save reports success although nothing
    was stored.  When the browser refuses both writes (its quota), [saveBanner]
    and either [savePage] complete normally and leave storage as it was, and
    the console ends with the error of the first write, "Campaign ... saved
    with key: ...", the error of the second write, "Active campaign updated:"
    and the editor's own line that the asset was saved.  The active campaign
    is an object of JSON data whose [assets] is an object and whose id and
    name have a string. *)
Theorem save_reports_success_when_the_browser_refuses_the_writes
    (banner : BannerEditor.t) (marketing : MarketingPageEditor.t)
    (landing : LandingPageEditor.t)
    (save : M unit) (slot : string) (data : JsVal) (saved_line : string)
    (props aprops : list (string * JsVal)) (idText nameText : string) (w : World) :
  let key := CAMPAIGN_PREFIX +:+ idText in
  (save, slot, data, saved_line) ∈
    [(BannerEditor.saveBanner banner, "banner", bannerData banner,
      "Banner saved and campaign updated.");
     (MarketingPageEditor.savePage marketing, "marketingPage", marketingPageData marketing,
      "Marketing page saved and campaign updated.");
     (LandingPageEditor.savePage landing, "landingPage", landingPageData landing,
      "Landing page saved and campaign updated.")] ->
  localStorage w !! ACTIVE_CAMPAIGN_KEY = Some (JsonText (JObj props)) ->
  is_json (JObj props) = true ->
  to_string (obj_get props "id") = Normal idText ->
  to_string (obj_get props "name") = Normal nameText ->
  obj_get props "assets" = JObj aprops ->
  is_json data = true ->
  quota_ok (<[key := JsonText (JObj (with_asset props aprops slot data))]>
              (localStorage w)) = false ->
  quota_ok (<[ACTIVE_CAMPAIGN_KEY :=
                JsonText (JObj (stamped (with_asset props aprops slot data)
                                  (clock w (ticks w))))]>
              (localStorage w)) = false ->
  exists w',
    save w = (Normal tt, w') /\
    localStorage w' = localStorage w /\
    console w' =
      console w ++ [setItem_error;
                    campaign_saved_log nameText key;
                    setItem_error;
                    active_campaign_updated_log;
                    mkLog LLog saved_line].
Proof.
  intros key Hsave Hstored Hprops Hid Hname Hassets Hdata Hq1 Hq2.
  destruct (saves_store_the_asset (JObj props) w banner marketing landing Hstored eq_refl)
    as (Hb & Hm & Hl).
  assert (Hsaved : is_json (JObj (with_asset props aprops slot data)) = true)
    by (apply is_json_with_asset; assumption).
  assert (Hrun : forall message,
             store_asset slot data message (JObj props) w =
             (Normal tt,
              with_console (fun c => c ++ [mkLog LLog message])
                (with_console (fun c => c ++ [active_campaign_updated_log])
                   (with_console (fun c => c ++ [setItem_error])
                      (with_ticks S
                         (with_console (fun c => c ++ [campaign_saved_log nameText key])
                            (with_console (fun c => c ++ [setItem_error]) w))))))).
  { intros message. unfold store_asset. run_monad. rewrite Hassets. simpl.
    fold (with_asset props aprops slot data).
    rewrite (saveCampaign_run _ idText nameText _ Hsaved)
      by (unfold with_asset; rewrite obj_get_obj_set_ne by discriminate; assumption).
    fold key. rewrite Hq1.
    rewrite (setActiveCampaign_log _ _ Hsaved). simpl localStorage. simpl clock.
    simpl ticks. rewrite Hq2. reflexivity. }
  eexists. split.
  - repeat (apply elem_of_cons in Hsave as [[= -> -> -> ->]|Hsave]);
      [rewrite Hb; apply Hrun|rewrite Hm; apply Hrun|rewrite Hl; apply Hrun
      |inversion Hsave].
  - simpl. split; [reflexivity|]. rewrite <- !app_assoc. reflexivity.
Qed.

Lemma is_json_placeholder (t : Z) : is_json (placeholder_assets t) = true.
Proof. reflexivity. Qed.

(** X21.  [handleSaveCampaign] discards the assets of the
    active campaign.  For an active campaign of JSON data whose id and name
    have a string, and two accepted writes, the record stored under the key
    made of the campaign prefix and the string of the id, and the stamped
    copy under the active-campaign key, both end with [assets] replaced by a
    placeholder banner (its version the current time) and [null] for the
    marketing page and the landing page, whatever the editors had saved;
    the campaign's other properties are kept. *)
Theorem handleSaveCampaign_discards_the_saved_assets
    (props : list (string * JsVal)) (idText nameText : string) (w : World) :
  let t := clock w (ticks w) in
  let updated := obj_set props "assets" (placeholder_assets t) in
  let m1 := <[CAMPAIGN_PREFIX +:+ idText := JsonText (JObj updated)]> (localStorage w) in
  let m2 := <[ACTIVE_CAMPAIGN_KEY :=
                JsonText (JObj (stamped updated (clock w (S (ticks w)))))]> m1 in
  localStorage w !! ACTIVE_CAMPAIGN_KEY = Some (JsonText (JObj props)) ->
  is_json (JObj props) = true ->
  to_string (obj_get props "id") = Normal idText ->
  to_string (obj_get props "name") = Normal nameText ->
  quota_ok m1 = true ->
  quota_ok m2 = true ->
  exists w',
    UIController.handleSaveCampaign w = (Normal tt, w') /\
    localStorage w' = m2 /\
    asset_of (JObj updated) "banner"
    = JObj [("content", JStr "Saved banner content"); ("version", JNum t)] /\
    asset_of (JObj updated) "marketingPage" = JNull /\
    asset_of (JObj updated) "landingPage" = JNull /\
    (forall k, k <> "assets" -> obj_get updated k = obj_get props k).
Proof.
  intros t updated m1 m2 Hstored Hprops Hid Hname Hq1 Hq2.
  assert (Hupdated : is_json (JObj updated) = true)
    by (apply is_json_obj_set; [exact Hprops|reflexivity]).
  unfold UIController.handleSaveCampaign. run_monad.
  rewrite (getActiveCampaign_found (JObj props) w Hstored eq_refl). simpl.
  fold t. fold (placeholder_assets t). fold updated.
  rewrite (saveCampaign_run _ idText nameText _ Hupdated)
    by (unfold updated; rewrite obj_get_obj_set_ne by discriminate; assumption).
  simpl localStorage. fold m1.
  rewrite Hq1.
  rewrite (setActiveCampaign_log _ _ Hupdated). simpl localStorage. simpl clock.
  simpl ticks. fold m2. rewrite Hq2.
  unfold console_log. run_monad.
  eexists. split; [reflexivity|]. simpl. split; [reflexivity|].
  unfold asset_of, updated. simpl truthy. cbv iota.
  rewrite obj_get_obj_set_eq. simpl.
  repeat split. intros k Hk. apply obj_get_obj_set_ne, Hk.
Qed.

Lemma stored_campaigns_truthy (m : gmap string Item) (v : JsVal) :
  v ∈ stored_campaigns m -> truthy v = true.
Proof.
  rewrite stored_campaigns_entries. intros Hin.
  apply list_elem_of_omap in Hin as ([k i] & _ & Hv).
  unfold campaign_of_entry in Hv. simpl in Hv.
  destruct (String.prefix CAMPAIGN_PREFIX k); [|discriminate].
  destruct i as [x|]; [|discriminate].
  destruct (truthy x) eqn:Hx; [|discriminate]. injection Hv as <-. exact Hx.
Qed.

Lemma stored_campaigns_holds (m : gmap string Item) (key : string) (v : JsVal) :
  m !! key = Some (JsonText v) ->
  String.prefix CAMPAIGN_PREFIX key = true ->
  truthy v = true ->
  v ∈ stored_campaigns m.
Proof.
  intros Hstored Hprefix Htruthy. rewrite stored_campaigns_entries.
  apply list_elem_of_omap. exists (key, JsonText v).
  split; [apply elem_of_map_to_list, Hstored|].
  unfold campaign_of_entry. simpl. rewrite Hprefix, Htruthy. reflexivity.
Qed.

Lemma array_find_id (p : JsVal -> M bool) (campaignId : string)
    (l : list JsVal) (w : World) :
  (forall c w0, truthy c = true -> p c w0 = (Normal (has_id campaignId c), w0)) ->
  Forall (fun c => truthy c = true) l ->
  array_find p l w
  = (Normal (default JUndefined (find (has_id campaignId) l)), w).
Proof.
  intros Hp. induction 1 as [|c l Hc _ IH]; simpl; [reflexivity|].
  run_monad. rewrite (Hp c w Hc).
  destruct (has_id campaignId c); [reflexivity|exact IH].
Qed.

Lemma id_test_run (campaignId : string) (c : JsVal) (w : World) :
  truthy c = true ->
  (id ← get_member c "id"; mret (strict_eq id (JStr campaignId))) w
  = (Normal (has_id campaignId c), w).
Proof. intros Hc. destruct c; try reflexivity; discriminate. Qed.

Lemma find_the_only_one (p : JsVal -> bool) (l : list JsVal) (r : JsVal) :
  r ∈ l -> p r = true -> (forall x, x ∈ l -> p x = true -> x = r) ->
  find p l = Some r.
Proof.
  induction l as [|x l IH]; intros Hin Hr Honly; [inversion Hin|].
  simpl. destruct (p x) eqn:Hx.
  - f_equal. apply Honly; [left|exact Hx].
  - apply elem_of_cons in Hin as [->|Hin]; [congruence|].
    apply IH; [exact Hin|exact Hr|].
    intros y Hy. apply Honly. right. exact Hy.
Qed.

Lemma find_none_of_them (p : JsVal -> bool) (l : list JsVal) :
  (forall x, x ∈ l -> p x = false) -> find p l = None.
Proof.
  induction l as [|x l IH]; intros Hnone; [reflexivity|].
  simpl. rewrite (Hnone x) by left. apply IH. intros y Hy. apply Hnone. right. exact Hy.
Qed.

Lemma getAllCampaigns_clock (w : World) :
  clock (getAllCampaigns w).2 = clock w /\
  ticks (getAllCampaigns w).2 = ticks w.
Proof.
  destruct (only_logs_getAllCampaigns w) as [lines ->]. split; reflexivity.
Qed.

Lemma plain_stamped (props : list (string * JsVal)) (t : Z) :
  plain (JObj props) = true -> plain (JObj (stamped props t)) = true.
Proof. intros Hplain. apply plain_obj_set; [discriminate|exact Hplain|reflexivity]. Qed.

Lemma handleLoadCampaign_found (campaignId key : string)
    (props : list (string * JsVal)) (w : World) :
  let active := JsonText (JObj (stamped props (clock w (ticks w)))) in
  localStorage w !! key = Some (JsonText (JObj props)) ->
  String.prefix CAMPAIGN_PREFIX key = true ->
  obj_get props "id" = JStr campaignId ->
  is_json (JObj props) = true ->
  plain (JObj props) = true ->
  campaigns_datable (localStorage w) ->
  (forall key' v,
      localStorage w !! key' = Some (JsonText v) ->
      String.prefix CAMPAIGN_PREFIX key' = true ->
      has_id campaignId v = true -> v = JObj props) ->
  quota_ok (<[ACTIVE_CAMPAIGN_KEY := active]> (localStorage w)) = true ->
  exists w',
    UIController.handleLoadCampaign campaignId w = (Normal tt, w') /\
    localStorage w' = <[ACTIVE_CAMPAIGN_KEY := active]> (localStorage w) /\
    clock w' = clock w /\
    ticks w' = S (ticks w).
Proof.
  intros active Hstored Hprefix Hid Hprops Hplain Hdatable Honly Hquota.
  destruct (getAllCampaigns_run w Hdatable) as (l & w0 & Hall & Hst0 & Hperm & _).
  assert (Htruthy : Forall (fun c => truthy c = true) l).
  { rewrite Hperm. apply Forall_forall. intros v Hv.
    eapply stored_campaigns_truthy, Hv. }
  assert (Hclock : clock w0 = clock w /\ ticks w0 = ticks w).
  { pose proof (getAllCampaigns_clock w) as Hc. rewrite Hall in Hc. exact Hc. }
  destruct Hclock as [Hclock Hticks].
  assert (Hfind : find (has_id campaignId) l = Some (JObj props)).
  { apply find_the_only_one.
    - rewrite Hperm. eapply stored_campaigns_holds; [exact Hstored|exact Hprefix|reflexivity].
    - unfold has_id. rewrite Hid. simpl. apply String.eqb_refl.
    - intros x Hx Hpx. rewrite Hperm in Hx.
      apply stored_campaigns_elem in Hx as (k & Hk & Hp).
      eapply Honly; eassumption. }
  destruct (to_string_plain (obj_get props "name") (plain_obj_get _ _ Hplain))
    as [nameText Hname].
  unfold UIController.handleLoadCampaign. run_monad. rewrite Hall.
  rewrite (array_find_id _ campaignId _ _ (id_test_run campaignId) Htruthy), Hfind. simpl.
  rewrite (setActiveCampaign_log _ _ Hprops). rewrite Hclock, Hticks, Hst0.
  fold active. rewrite Hquota, Hname.
  unfold console_log. run_monad.
  match goal with
  | |- context [run_hook ?h ?w1] =>
      destruct (run_hook_run h w1) as (r & lines & -> & Hr)
  end.
  rewrite Hr.
  2:{ simpl. unfold read. rewrite lookup_insert_eq. apply plain_stamped, Hplain. }
  eexists. split; [reflexivity|]. simpl. split; [reflexivity|]. split; [exact Hclock|].
  rewrite Hticks. reflexivity.
Qed.

(** X22.  [handleLoadCampaign] makes the stored record of
    that id the active campaign.  Let every stored campaign have a
    [lastUpdated] that is plain data.  When a campaign of plain JSON data
    is stored under a campaign key with this id, no stored campaign with
    the id differs from it, and the browser accepts the write, the
    active-campaign key afterwards holds that record stamped with the
    current time; every other key, the record's own included, keeps its
    content.  When no stored campaign has the id, an error is logged and
    storage is unchanged. *)
Theorem handleLoadCampaign_activates_the_stored_record
    (campaignId : string) (w : World) :
  campaigns_datable (localStorage w) ->
  (forall key props,
      let active := JsonText (JObj (stamped props (clock w (ticks w)))) in
      localStorage w !! key = Some (JsonText (JObj props)) ->
      String.prefix CAMPAIGN_PREFIX key = true ->
      obj_get props "id" = JStr campaignId ->
      is_json (JObj props) = true ->
      plain (JObj props) = true ->
      (forall key' v,
          localStorage w !! key' = Some (JsonText v) ->
          String.prefix CAMPAIGN_PREFIX key' = true ->
          has_id campaignId v = true -> v = JObj props) ->
      quota_ok (<[ACTIVE_CAMPAIGN_KEY := active]> (localStorage w)) = true ->
      exists w',
        UIController.handleLoadCampaign campaignId w = (Normal tt, w') /\
        localStorage w' = <[ACTIVE_CAMPAIGN_KEY := active]> (localStorage w) /\
        localStorage w' !! key = Some (JsonText (JObj props)))
  /\ ((forall key v,
         localStorage w !! key = Some (JsonText v) ->
         String.prefix CAMPAIGN_PREFIX key = true ->
         has_id campaignId v = false) ->
      exists w',
        UIController.handleLoadCampaign campaignId w = (Normal tt, w') /\
        localStorage w' = localStorage w /\
        last (console w') = Some (campaign_not_found_error campaignId)).
Proof.
  intros Hdatable. split.
  - intros key props active Hstored Hprefix Hid Hprops Hplain Honly Hquota.
    destruct (handleLoadCampaign_found campaignId key props w)
      as (w' & Hrun & Hst & _); try assumption.
    exists w'. split; [exact Hrun|]. split; [exact Hst|].
    rewrite Hst, lookup_insert_ne; [exact Hstored|].
    intros <-. discriminate.
  - intros Hnone.
    destruct (getAllCampaigns_run w Hdatable) as (l & w0 & Hall & Hst0 & Hperm & _).
    assert (Htruthy : Forall (fun c => truthy c = true) l).
    { rewrite Hperm. apply Forall_forall. intros v Hv.
      eapply stored_campaigns_truthy, Hv. }
    assert (Hfind : find (has_id campaignId) l = None).
    { apply find_none_of_them. intros x Hx. rewrite Hperm in Hx.
      apply stored_campaigns_elem in Hx as (k & Hk & Hp).
      eapply Hnone; eassumption. }
    unfold UIController.handleLoadCampaign. run_monad. rewrite Hall.
    rewrite (array_find_id _ campaignId _ _ (id_test_run campaignId) Htruthy), Hfind. simpl.
    unfold console_error. run_monad.
    eexists. split; [reflexivity|]. simpl. split; [exact Hst0|apply last_snoc].
Qed.

Lemma plain_bannerData (ed : BannerEditor.t) : plain (bannerData ed) = true.
Proof.
  unfold bannerData. simpl.
  destruct (BannerEditor.bannerFontSizeInput ed) as [v|]; [|reflexivity].
  destruct (String.eqb v ""); reflexivity.
Qed.

Lemma plain_with_asset (props aprops : list (string * JsVal)) (slot : string)
    (data : JsVal) :
  slot <> "toString" ->
  plain (JObj props) = true ->
  obj_get props "assets" = JObj aprops ->
  plain data = true ->
  plain (JObj (with_asset props aprops slot data)) = true.
Proof.
  intros Hslot Hprops Hassets Hdata. unfold with_asset.
  apply plain_obj_set; [discriminate|exact Hprops|].
  apply plain_obj_set; [exact Hslot| |exact Hdata].
  rewrite <- Hassets. apply plain_obj_get, Hprops.
Qed.

(** X23.  A saved banner survives a switch to another campaign and
    back.  Let campaign A be active and campaign B be stored beside it, both
    of plain JSON data, with ids that no other stored campaign carries, let
    every stored campaign have a [lastUpdated] that is plain data, and let
    the browser accept the four writes.  After [saveBanner] of a filled form,
    [handleLoadCampaign] of B and then [handleLoadCampaign] of A, the active
    campaign is A stamped with the time of the last call, and [loadBanner]
    puts exactly the saved form back, whatever the controls held in
    between. *)
Theorem saved_banner_survives_switching_campaigns
    (idA idB keyB : string) (propsA apropsA propsB : list (string * JsVal))
    (saved shown : BannerEditor.t) (w : World) :
  let t := clock w (ticks w) in
  let t1 := clock w (S (ticks w)) in
  let t2 := clock w (S (S (ticks w))) in
  let keyA := CAMPAIGN_PREFIX +:+ idA in
  let recordA := with_asset propsA apropsA "banner" (bannerData saved) in
  let m1 := saved_storage keyA propsA apropsA "banner" (bannerData saved) t
              (localStorage w) in
  let m2 := <[ACTIVE_CAMPAIGN_KEY := JsonText (JObj (stamped propsB t1))]> m1 in
  let m3 := <[ACTIVE_CAMPAIGN_KEY := JsonText (JObj (stamped recordA t2))]> m2 in
  localStorage w !! ACTIVE_CAMPAIGN_KEY = Some (JsonText (JObj propsA)) ->
  is_json (JObj propsA) = true ->
  plain (JObj propsA) = true ->
  obj_get propsA "assets" = JObj apropsA ->
  obj_get propsA "id" = JStr idA ->
  localStorage w !! keyB = Some (JsonText (JObj propsB)) ->
  String.prefix CAMPAIGN_PREFIX keyB = true ->
  is_json (JObj propsB) = true ->
  plain (JObj propsB) = true ->
  obj_get propsB "id" = JStr idB ->
  idB <> idA ->
  keyB <> keyA ->
  campaigns_datable (localStorage w) ->
  (forall key v,
      localStorage w !! key = Some (JsonText v) ->
      String.prefix CAMPAIGN_PREFIX key = true ->
      (key <> keyA -> has_id idA v = false) /\
      (key <> keyB -> has_id idB v = false)) ->
  banner_filled saved ->
  banner_present shown ->
  quota_ok (<[keyA := JsonText (JObj recordA)]> (localStorage w)) = true ->
  quota_ok m1 = true ->
  quota_ok m2 = true ->
  quota_ok m3 = true ->
  exists w1 w2 w3 w4,
    BannerEditor.saveBanner saved w = (Normal tt, w1) /\
    UIController.handleLoadCampaign idB w1 = (Normal tt, w2) /\
    read (localStorage w2) ACTIVE_CAMPAIGN_KEY = JObj (stamped propsB t1) /\
    UIController.handleLoadCampaign idA w2 = (Normal tt, w3) /\
    read (localStorage w3) ACTIVE_CAMPAIGN_KEY = JObj (stamped recordA t2) /\
    BannerEditor.loadBanner shown w3 = (Normal saved, w4).
Proof.
  intros t t1 t2 keyA recordA m1 m2 m3 HactiveA HjsonA HplainA HassetsA HidA
         HstoredB HprefixB HjsonB HplainB HidB Hids Hkeys Hdatable Hunique
         Hfilled Hpresent Hq0 Hq1 Hq2 Hq3.
  assert (HprefixA : String.prefix CAMPAIGN_PREFIX keyA = true)
    by apply campaign_prefix_prefix.
  assert (Hdata : is_json (bannerData saved) = true).
  { unfold bannerData. simpl.
    destruct (BannerEditor.bannerFontSizeInput saved) as [v|]; [|reflexivity].
    destruct (String.eqb v ""); reflexivity. }
  assert (HjsonA1 : is_json (JObj recordA) = true)
    by (apply is_json_with_asset; assumption).
  assert (HplainA1 : plain (JObj recordA) = true).
  { apply plain_with_asset; try assumption; [discriminate|apply plain_bannerData]. }
  assert (HidA1 : obj_get recordA "id" = JStr idA).
  { unfold recordA, with_asset. rewrite obj_get_obj_set_ne by discriminate. exact HidA. }
  assert (Hnot_active : forall key, String.prefix CAMPAIGN_PREFIX key = true ->
                                    key <> ACTIVE_CAMPAIGN_KEY).
  { intros key Hp ->. discriminate. }
  assert (Hlookup1 : forall key, key <> ACTIVE_CAMPAIGN_KEY ->
             m1 !! key = if decide (key = keyA)
                         then Some (JsonText (JObj recordA))
                         else localStorage w !! key).
  { intros key Hkey. unfold m1, saved_storage.
    rewrite lookup_insert_ne by congruence.
    destruct (decide (key = keyA)) as [->|Hne].
    - apply lookup_insert_eq.
    - apply lookup_insert_ne. congruence. }
  assert (Hdatable1 : campaigns_datable m1).
  { intros key v Hkey Hp. rewrite Hlookup1 in Hkey by (apply Hnot_active, Hp).
    destruct (decide (key = keyA)) as [->|Hne].
    - injection Hkey as <-. unfold datable. apply plain_field, HplainA1.
    - exact (Hdatable key v Hkey Hp). }
  assert (Hdatable2 : campaigns_datable m2).
  { intros key v Hkey Hp. unfold m2 in Hkey.
    rewrite lookup_insert_ne in Hkey by (apply not_eq_sym, Hnot_active, Hp).
    exact (Hdatable1 key v Hkey Hp). }
  destruct (to_string_plain (obj_get propsA "name") (plain_obj_get _ _ HplainA))
    as [nameText Hname].
  (* saveBanner *)
  destruct (saves_store_the_asset (JObj propsA) w saved
              (MarketingPageEditor.mk JNull None None None None None)
              (LandingPageEditor.mk JNull None None None None None None None None)
              HactiveA eq_refl) as (Hsave & _ & _).
  destruct (store_asset_run "banner" (bannerData saved)
              "Banner saved and campaign updated." propsA apropsA idA nameText w
              HjsonA (f_equal to_string HidA) Hname HassetsA Hdata Hq0 Hq1)
    as (w1 & Hrun1 & Hst1 & _ & _ & Hclock1 & Hticks1).
  fold t keyA m1 in Hst1.
  (* handleLoadCampaign of B *)
  destruct (handleLoadCampaign_found idB keyB propsB w1)
    as (w2 & Hrun2 & Hst2 & Hclock2 & Hticks2); try assumption.
  { rewrite Hst1, Hlookup1 by (apply Hnot_active, HprefixB).
    rewrite decide_False by exact Hkeys. exact HstoredB. }
  { rewrite Hst1. exact Hdatable1. }
  { intros key v Hkey Hp Hv. rewrite Hst1, Hlookup1 in Hkey by (apply Hnot_active, Hp).
    destruct (decide (key = keyA)) as [->|Hne].
    - injection Hkey as <-. unfold has_id in Hv. rewrite HidA1 in Hv. simpl in Hv.
      apply String.eqb_eq in Hv. congruence.
    - destruct (decide (key = keyB)) as [->|HneB]; [congruence|].
      destruct (Hunique key v Hkey Hp) as [_ HB]. rewrite (HB HneB) in Hv. discriminate. }
  { rewrite Hclock1, Hticks1, Hst1. exact Hq2. }
  rewrite Hclock1, Hticks1, Hst1 in Hst2. fold t1 m2 in Hst2.
  (* handleLoadCampaign of A *)
  destruct (handleLoadCampaign_found idA keyA recordA w2)
    as (w3 & Hrun3 & Hst3 & _ & _); try assumption.
  { rewrite Hst2. unfold m2. rewrite lookup_insert_ne by (apply not_eq_sym, Hnot_active, HprefixA).
    rewrite Hlookup1 by (apply Hnot_active, HprefixA).
    rewrite decide_True by reflexivity. reflexivity. }
  { rewrite Hst2. exact Hdatable2. }
  { intros key v Hkey Hp Hv. rewrite Hst2 in Hkey. unfold m2 in Hkey.
    rewrite lookup_insert_ne in Hkey by (apply not_eq_sym, Hnot_active, Hp).
    rewrite Hlookup1 in Hkey by (apply Hnot_active, Hp).
    destruct (decide (key = keyA)) as [->|Hne]; [congruence|].
    destruct (Hunique key v Hkey Hp) as [HA _]. rewrite (HA Hne) in Hv. discriminate. }
  { rewrite Hclock2, Hticks2, Hclock1, Hticks1, Hst2. exact Hq3. }
  rewrite Hclock2, Hticks2, Hclock1, Hticks1, Hst2 in Hst3. fold t2 m3 in Hst3.
  (* loadBanner *)
  destruct (loadBanner_restores propsA apropsA t2 saved shown w3)
    as (w4 & Hrun4 & _); try assumption.
  { rewrite Hst3. apply lookup_insert_eq. }
  exists w1, w2, w3, w4.
  split; [rewrite Hsave; exact Hrun1|]. split; [exact Hrun2|].
  split; [unfold read; rewrite Hst2; unfold m2; rewrite lookup_insert_eq; reflexivity|].
  split; [exact Hrun3|].
  split; [unfold read; rewrite Hst3; unfold m3; rewrite lookup_insert_eq; reflexivity|].
  exact Hrun4.
Qed.

End More_campaigns.

Section More_controller.
Context {browser : Platform} {document : Page}.
Import UIController.

Lemma login_form_requires_both_fields (ui : UIController.t) (w : World) :
  value_or (usernameInput ui) "" = "" \/ value_or (passwordInput ui) "" = "" ->
  handleLogin (ui, w)
  = (Normal tt,
     (with_login_error ("Please enter both username and password.", false) ui, w)) /\
  handleSignup (ui, w)
  = (Normal tt,
     (with_login_error ("Please enter both username and password for signup.", false) ui,
      w)).
Proof.
  intros Hempty.
  assert (Htest : String.eqb (value_or (usernameInput ui) "") ""
                  || String.eqb (value_or (passwordInput ui) "") "" = true).
  { destruct Hempty as [-> | ->]; [reflexivity|apply orb_true_r]. }
  unfold handleLogin, handleSignup. run_ui. rewrite Htest. split; reflexivity.
Qed.

(** X24.  What the login form does.  When the username or
    the password is missing or empty, [handleLogin] and [handleSignup] show
    their message in the error line and do nothing else: the world is as
    before.  With both fields filled in: for a user of the directory and the
    stored password, on a page where the router listens to the session,
    every registered screen has its element, the browser accepts the write
    and the active campaign, if there is one, holds plain data,
    [handleLogin] stores the session marker, leaves the dashboard and
    the shell as the only visible registered screens, empties both inputs
    and hides the error line; for a username that the directory does not
    hold, or holds with another password, it shows "Invalid username or
    password.", keeps the inputs and leaves the world as before. *)
Theorem handleLogin_opens_the_dashboard_or_shows_the_error
    (users : list (string * string)) (ui : UIController.t) (w : World) :
  read (localStorage w) USERS_KEY = JArr (user_record <$> users) ->
  (value_or (usernameInput ui) "" = "" \/ value_or (passwordInput ui) "" = "" ->
   handleLogin (ui, w)
   = (Normal tt,
      (with_login_error ("Please enter both username and password.", false) ui, w)) /\
   handleSignup (ui, w)
   = (Normal tt,
      (with_login_error ("Please enter both username and password for signup.", false) ui,
       w)))
  /\ (forall username password dashboard shell,
        usernameInput ui = Some username ->
        passwordInput ui = Some password ->
        username <> "" ->
        password <> "" ->
        find (fun u => String.eqb u.1 username) users = Some (username, password) ->
        quota_ok (<[CURRENT_USER_KEY := JsonText (session_marker username)]>
                    (localStorage w)) = true ->
        plain (read (localStorage w) ACTIVE_CAMPAIGN_KEY) = true ->
        NavigationListener ∈ authChangeListeners w ->
        all_elements (screens w) = true ->
        screens_get (screens w) "dashboard-screen" = Some dashboard ->
        screens_get (screens w) "main-app-content" = Some shell ->
        exists ui' w',
          handleLogin (ui, w) = (Normal tt, (ui', w')) /\
          localStorage w'
          = <[CURRENT_USER_KEY := JsonText (session_marker username)]> (localStorage w) /\
          shows_only dashboard shell w' /\
          usernameInput ui' = Some "" /\
          passwordInput ui' = Some "" /\
          loginErrorDisplay ui' = set_value (loginErrorDisplay ui) ("", true))
  /\ (forall username password,
        usernameInput ui = Some username ->
        passwordInput ui = Some password ->
        username <> "" ->
        password <> "" ->
        (forall stored,
            find (fun u => String.eqb u.1 username) users = Some (username, stored) ->
            stored <> password) ->
        handleLogin (ui, w)
        = (Normal tt, (with_login_error ("Invalid username or password.", false) ui, w))).
Proof.
  intros Hdir.
  assert (Hfilled : forall username password,
             usernameInput ui = Some username ->
             passwordInput ui = Some password ->
             username <> "" ->
             password <> "" ->
             String.eqb (value_or (usernameInput ui) "") ""
             || String.eqb (value_or (passwordInput ui) "") "" = false /\
             value_or (usernameInput ui) "" = username /\
             value_or (passwordInput ui) "" = password).
  { intros username password Hu Hp Hune Hpne. rewrite Hu, Hp. simpl.
    apply String.eqb_neq in Hune, Hpne. rewrite Hune, Hpne. simpl.
    rewrite Hune, Hpne. repeat split; reflexivity. }
  split; [apply login_form_requires_both_fields|]. split.
  - intros username password dashboard shell Hu Hp Hune Hpne
           Hfind Hquota Hplain Hwired Hall Hdash Hshell.
    destruct (Hfilled username password Hu Hp Hune Hpne) as (Htest & Hvu & Hvp).
    destruct (login_run username password users w dashboard shell)
      as (w1 & Hlogin & Hst1 & Hsc1 & _); try assumption.
    destruct (goToDashboard_with_session
                (with_console (fun c => c ++ [mkLog LLog "Login successful!"]) w1)
                dashboard shell)
      as (w2 & Hgo & Hst2 & Honly).
    { unfold logged_in, read. simpl. rewrite Hst1, lookup_insert_eq. reflexivity. }
    { simpl. rewrite Hst1, read_insert_ne by discriminate. exact Hplain. }
    { simpl. rewrite Hsc1. exact Hall. }
    { simpl. rewrite Hsc1. exact Hdash. }
    { simpl. rewrite Hsc1. exact Hshell. }
    unfold handleLogin. run_ui. rewrite Htest. cbv beta. cbn [fst snd].
    rewrite Hvu, Hvp, Hlogin. cbv beta iota. cbn [fst snd].
    unfold console_log. run_monad. rewrite Hgo.
    eexists _, _. split; [reflexivity|]. simpl.
    split; [rewrite Hst2; exact Hst1|]. split; [exact Honly|].
    rewrite Hu, Hp. repeat split; reflexivity.
  - intros username password Hu Hp Hune Hpne Hwrong.
    destruct (Hfilled username password Hu Hp Hune Hpne) as (Htest & Hvu & Hvp).
    assert (Hlogin : login username password w = (Normal false, w)).
    { unfold login. run_monad. rewrite (getUser_run _ _ _ Hdir).
      destruct (find (fun u => String.eqb u.1 username) users) as [[u stored]|] eqn:Hfind;
        simpl; [|reflexivity].
      assert (Hname : u = username).
      { apply find_some in Hfind as [_ Hname]. apply String.eqb_eq in Hname. exact Hname. }
      subst u.
      destruct (String.eqb stored password) eqn:Hpw; [|reflexivity].
      apply String.eqb_eq in Hpw. exfalso. exact (Hwrong stored eq_refl Hpw). }
    unfold handleLogin. run_ui. rewrite Htest. cbv beta. cbn [fst snd].
    rewrite Hvu, Hvp, Hlogin. reflexivity.
Qed.

(** X25.  A signup that the browser cannot store is reported
    as a taken username.  When the username is free but the browser refuses
    the write of the directory (its quota), [saveUser] still answers [true],
    the login that follows does not find the user, [signup] returns [false]
    with storage unchanged, and [handleSignup] shows "Username already
    exists. Please choose a different one." *)
Theorem signup_blames_the_username_when_the_browser_refuses_the_write
    (username password : string) (users : list (string * string))
    (ui : UIController.t) (w : World) :
  directory w = JArr (user_record <$> users) ->
  username ∉ users.*1 ->
  quota_ok (<[USERS_KEY :=
                JsonText (JArr (user_record <$> (users ++ [(username, password)])))]>
              (localStorage w)) = false ->
  usernameInput ui = Some username ->
  passwordInput ui = Some password ->
  username <> "" ->
  password <> "" ->
  exists w',
    signup username password w = (Normal false, w') /\
    localStorage w' = localStorage w /\
    handleSignup (ui, w)
    = (Normal tt,
       (with_login_error
          ("Username already exists. Please choose a different one.", false) ui, w')).
Proof.
  intros Hdir Hfree Hquota Hu Hp Hune Hpne.
  destruct (getUsers_run w) as (w0 & Hget & Hst & _).
  set (users' := users ++ [(username, password)]) in *.
  set (we := with_console (fun c => c ++ [setItem_error]) w0).
  assert (Hsave : saveUser (user_record (username, password)) w = (Normal true, we)).
  { unfold saveUser, _saveUsers. run_monad. rewrite Hget, Hdir. simpl.
    rewrite (array_some_users _ username) by (intros; reflexivity).
    rewrite (existsb_username_absent _ _ Hfree).
    rewrite setItem_run.
    replace ((user_record <$> users) ++
               [JObj [("username", JStr username); ("password", JStr password)]])
      with (user_record <$> users')
      by (unfold users'; rewrite fmap_app; reflexivity).
    destruct (to_json_users users') as [Hj Hb].
    rewrite Hb. unfold text_of. rewrite Hj, Hst, Hquota. reflexivity. }
  destruct (login_unknown_run username password users we) as (w' & Hlogin & Hst' & _).
  { unfold directory. simpl. fold (directory w0). unfold directory. rewrite Hst. exact Hdir. }
  { exact Hfree. }
  assert (Hsignup : signup username password w = (Normal false, w')).
  { unfold signup. run_monad.
    change (user_record (username, password))
      with (JObj [("username", JStr username); ("password", JStr password)]) in Hsave.
    rewrite Hsave. exact Hlogin. }
  exists w'. split; [exact Hsignup|]. split; [rewrite Hst'; exact Hst|].
  assert (Hvu : value_or (usernameInput ui) "" = username).
  { rewrite Hu. simpl. apply String.eqb_neq in Hune. rewrite Hune. reflexivity. }
  assert (Hvp : value_or (passwordInput ui) "" = password).
  { rewrite Hp. simpl. apply String.eqb_neq in Hpne. rewrite Hpne. reflexivity. }
  unfold handleSignup. open_ui. rewrite Hvu, Hvp.
  apply String.eqb_neq in Hune, Hpne. rewrite Hune, Hpne.
  cbv beta iota. cbn [orb fst snd]. rewrite Hsignup. reflexivity.
Qed.

(** X26.  [handleCreateCampaign] creates a campaign named
    after the input, "New Campaign" when the input is empty or missing, and
    makes it the active campaign.  With both writes accepted, storage gains
    the new record under its key and its stamped copy under the
    active-campaign key.  The input is emptied; the campaign list on the page
    is not rebuilt.  On a page without the input the campaign is created and
    activated all the same, and the handler then throws a TypeError. *)
Theorem handleCreateCampaign_creates_and_activates
    (ui : UIController.t) (w : World) :
  let campaignName := value_or (newCampaignNameInput ui) "New Campaign" in
  let record := new_campaign campaignName (clock w (ticks w)) (clock w (S (ticks w))) in
  let m1 := <[campaign_key (clock w (ticks w)) := JsonText record]> (localStorage w) in
  let m2 := <[ACTIVE_CAMPAIGN_KEY :=
                JsonText (JObj (stamped (spread record) (clock w (S (S (ticks w))))))]>
              m1 in
  quota_ok m1 = true ->
  quota_ok m2 = true ->
  exists ui' w',
    handleCreateCampaign (ui, w)
    = (match newCampaignNameInput ui with
       | Some _ => Normal tt
       | None => Throw TypeError
       end, (ui', w')) /\
    localStorage w' = m2 /\
    newCampaignNameInput ui' = set_value (newCampaignNameInput ui) "" /\
    campaignListContainer ui' = campaignListContainer ui.
Proof.
  intros campaignName record m1 m2 Hq1 Hq2.
  destruct (createCampaign_run campaignName w) as (w1 & Hcreate & Hst1 & Hclock1 & Hticks1).
  fold record in Hcreate, Hst1.
  change (campaign_key (clock w (ticks w))) with (campaign_key (clock w (ticks w))) in Hst1.
  fold m1 in Hst1. rewrite Hq1 in Hst1.
  destruct (new_campaign_text campaignName (clock w (ticks w)) (clock w (S (ticks w))))
    as (_ & _ & Hjson). fold record in Hjson.
  destruct (setActiveCampaign_run (spread record) w1 Hjson) as (w2 & Hactive & Hst2 & _).
  rewrite Hclock1, Hticks1, Hst1 in Hst2.
  change (JObj (obj_set (spread record) "lastUpdated"
                  (JStr (toISOString (clock w (S (S (ticks w))))))))
    with (JObj (stamped (spread record) (clock w (S (S (ticks w)))))) in Hst2.
  fold m2 in Hst2. rewrite Hq2 in Hst2.
  change (JObj (spread record)) with record in Hactive.
  unfold handleCreateCampaign. run_ui. fold campaignName.
  rewrite Hcreate. cbv beta iota. cbn [fst snd]. rewrite Hactive.
  cbv beta iota. cbn [fst snd].
  unfold console_log. run_monad.
  match goal with
  | |- context [run_hook ?h ?w0] =>
      destruct (run_hook_run h w0) as (r & lines & -> & Hr)
  end.
  rewrite Hr
    by (simpl; rewrite Hst2; unfold read, m2; rewrite lookup_insert_eq; reflexivity).
  destruct (newCampaignNameInput ui) as [name|] eqn:Hname;
    eexists _, _; (split; [reflexivity|]); simpl;
    (split; [exact Hst2|]); split; try reflexivity; exact Hname.
Qed.

Lemma list_item_run (campaign : JsVal) (w : World) :
  truthy campaign = true ->
  list_item campaign w = (item_of campaign, w).
Proof.
  intros Ht. unfold list_item, item_of. run_monad.
  rewrite (get_member_truthy _ _ _ Ht).
  destruct (to_string (js_or (field campaign "name") (JStr "Unnamed Campaign")));
    [|reflexivity].
  rewrite (get_member_truthy _ _ _ Ht).
  destruct (to_string (field campaign "id")); reflexivity.
Qed.

Lemma item_of_plain (campaign : JsVal) :
  plain campaign = true -> exists item, item_of campaign = Normal item.
Proof.
  intros Hplain. unfold item_of.
  destruct (to_string_plain (js_or (field campaign "name") (JStr "Unnamed Campaign")))
    as [nameText ->]; [apply plain_js_or; [apply plain_field, Hplain|reflexivity]|].
  destruct (to_string_plain (field campaign "id")) as [idText ->];
    [apply plain_field, Hplain|].
  eexists. reflexivity.
Qed.

Lemma items_of_plain (campaigns : list JsVal) :
  Forall (fun c => plain c = true) campaigns ->
  exists items, Forall2 (fun c item => item_of c = Normal item) campaigns items.
Proof.
  induction 1 as [|c campaigns Hc _ [items IH]].
  - exists []. constructor.
  - destruct (item_of_plain c Hc) as [item Hitem].
    exists (item :: items). constructor; assumption.
Qed.

Lemma append_items_run (campaigns : list JsVal) (ui : UIController.t) (w : World)
    (items added : list (string * string)) :
  Forall (fun c => truthy c = true) campaigns ->
  Forall2 (fun c item => item_of c = Normal item) campaigns added ->
  campaignListContainer ui = Some items ->
  exists ui',
    append_items campaigns (ui, w) = (Normal tt, (ui', w)) /\
    campaignListContainer ui' = Some (items ++ added) /\
    noCampaignsFoundMessage ui' = noCampaignsFoundMessage ui.
Proof.
  intros Hall Hadded. revert ui items Hall.
  induction Hadded as [|c item campaigns added Hitem _ IH]; intros ui items Hall Hitems.
  - exists ui. simpl. rewrite app_nil_r. repeat split; [exact Hitems].
  - apply Forall_cons in Hall as [Hc Hall].
    simpl append_items. run_ui. rewrite (list_item_run c w Hc), Hitem.
    cbv beta iota. cbn [fst snd].
    match goal with
    | |- context [append_items campaigns (?ui1, w)] =>
        destruct (IH ui1 (items ++ [item]) Hall) as (ui' & Hrun & Hlist & Hmsg)
    end.
    { simpl. rewrite Hitems. reflexivity. }
    exists ui'. split; [exact Hrun|]. split; [|exact Hmsg].
    rewrite Hlist, <- app_assoc. reflexivity.
Qed.

Lemma renderCampaignList_run (ui : UIController.t) (w : World)
    (previous : list (string * string)) :
  campaignListContainer ui = Some previous ->
  campaigns_plain (localStorage w) ->
  exists ui' w' campaigns items,
    renderCampaignList (ui, w) = (Normal tt, (ui', w')) /\
    getAllCampaigns w = (Normal campaigns, w') /\
    campaigns ≡ₚ stored_campaigns (localStorage w) /\
    (Forall (fun v => is_Some (stamp v)) campaigns ->
     StronglySorted not_older campaigns) /\
    Forall2 (fun c item => item_of c = Normal item) campaigns items /\
    campaignListContainer ui' = Some items /\
    noCampaignsFoundMessage ui'
    = set_value (noCampaignsFoundMessage ui)
        (negb (Nat.eqb (length (stored_campaigns (localStorage w))) 0)).
Proof.
  intros Hcontainer Hplain.
  destruct (getAllCampaigns_run w (campaigns_plain_datable _ Hplain))
    as (campaigns & w0 & Hall & Hst0 & Hperm & Hsorted).
  assert (Htruthy : Forall (fun c => truthy c = true) campaigns).
  { rewrite Hperm. apply Forall_forall. intros v Hv.
    eapply stored_campaigns_truthy, Hv. }
  destruct (items_of_plain campaigns) as [items Hitems].
  { rewrite Hperm. apply Forall_forall. intros v Hv.
    apply stored_campaigns_elem in Hv as (key & Hkey & Hprefix).
    exact (Hplain key v Hkey Hprefix). }
  unfold renderCampaignList. run_ui. rewrite Hall. cbv beta iota. cbn [fst snd].
  rewrite Hcontainer. cbv beta iota. cbn [fst snd].
  match goal with
  | |- context [append_items _ (?ui1, w0)] =>
      destruct (append_items_run _ ui1 w0 [] items Htruthy Hitems eq_refl)
        as (ui' & Hrun & Hlist & Hmsg)
  end.
  run_ui. rewrite Hrun.
  exists ui', w0, campaigns, items. split; [reflexivity|]. split; [reflexivity|].
  split; [exact Hperm|]. split; [exact Hsorted|]. split; [exact Hitems|].
  split; [exact Hlist|].
  rewrite Hmsg. simpl. rewrite (Permutation_length Hperm). reflexivity.
Qed.

(** X27.  [renderCampaignList] rebuilds the campaign list from
    storage.  On a page with the list element and with stored campaigns of
    plain data, the list afterwards holds one item per stored campaign, in
    the order of [getAllCampaigns] (descending [lastUpdated] when every
    campaign has a valid one), each with the string of the campaign's name
    ("Unnamed Campaign" for a falsy name) and the string of the id its Load
    button carries; whatever the list held before is gone; the message for
    an empty list is hidden exactly when there is a campaign; storage is not
    written.  On a page without the list element it cannot complete (it
    throws a TypeError once [getAllCampaigns] has completed), and neither
    can [init]. *)
Theorem renderCampaignList_shows_every_stored_campaign
    (ui : UIController.t) (w : World) :
  (forall previous,
      campaignListContainer ui = Some previous ->
      campaigns_plain (localStorage w) ->
      exists ui' w' campaigns items,
        renderCampaignList (ui, w) = (Normal tt, (ui', w')) /\
        localStorage w' = localStorage w /\
        getAllCampaigns w = (Normal campaigns, w') /\
        campaigns ≡ₚ stored_campaigns (localStorage w) /\
        (Forall (fun v => is_Some (stamp v)) campaigns ->
         StronglySorted not_older campaigns) /\
        Forall2 (fun c item => item_of c = Normal item) campaigns items /\
        campaignListContainer ui' = Some items /\
        noCampaignsFoundMessage ui'
        = set_value (noCampaignsFoundMessage ui)
            (negb (Nat.eqb (length (stored_campaigns (localStorage w))) 0)))
  /\ (campaignListContainer ui = None ->
      (exists e, (renderCampaignList (ui, w)).1 = Throw e) /\
      ((exists campaigns, (getAllCampaigns w).1 = Normal campaigns) ->
       (renderCampaignList (ui, w)).1 = Throw TypeError) /\
      (forall w0, (init (ui, w0)).1 <> Normal tt)).
Proof.
  split.
  - intros previous Hcontainer Hplain.
    destruct (renderCampaignList_run ui w previous Hcontainer Hplain)
      as (ui' & w' & campaigns & items & Hrun & Hall & Hperm & Hsorted & Hitems
          & Hlist & Hmsg).
    exists ui', w', campaigns, items. split; [exact Hrun|].
    split; [|repeat split; assumption].
    destruct (only_logs_getAllCampaigns w) as [lines Hlines].
    rewrite Hall in Hlines. simpl in Hlines. rewrite Hlines. reflexivity.
  - intros Hnone.
    assert (Hthrow : forall w0,
               (renderCampaignList (ui, w0)).1 =
               match (getAllCampaigns w0).1 with
               | Normal _ => Throw TypeError
               | Throw e => Throw e
               end).
    { intros w0. unfold renderCampaignList. run_ui.
      destruct (getAllCampaigns w0) as [[campaigns|e] w1]; cbv beta iota; cbn [fst snd];
        [|reflexivity].
      rewrite Hnone. reflexivity. }
    split; [|split].
    + rewrite Hthrow. destruct (getAllCampaigns w).1; eexists; reflexivity.
    + intros [campaigns Hall]. rewrite Hthrow, Hall. reflexivity.
    + intros w0. unfold init. run_ui.
      destruct (checkLoginStatus w0) as [[[]|e] w1]; cbv beta iota; cbn [fst snd];
        [|discriminate].
      rewrite Hthrow. destruct (getAllCampaigns w1).1; discriminate.
Qed.





End More_controller.

Section More_mail.
Context {mailer : SendMail.Mailer}.

Lemma picked_of_nothing (parsed : JsVal) (k : string) :
  parsed = JUndefined \/ parsed = JNull -> SendMail.picked parsed k = JUndefined.
Proof. intros [-> | ->]; reflexivity. Qed.

Lemma handler_run (event : SendMail.Event) (host : SendMail.Host) :
  SendMail.handler event host =
    if negb (strict_eq (SendMail.httpMethod event) (JStr "POST")) then
      (Normal (SendMail.mkResponse 405 "Method Not Allowed"), host)
    else
      match SendMail.body event with
      | RawText _ => (Throw SyntaxError, host)
      | JsonText parsed =>
          if strict_eq parsed JUndefined || strict_eq parsed JNull then
            (Throw TypeError, host)
          else if truthy (SendMail.picked parsed "recipient")
                  && truthy (SendMail.picked parsed "subject")
                  && truthy (SendMail.picked parsed "htmlContent") then
            if SendMail.sendMail_resolves SendMail.transportOptions
                 (SendMail.mail_of parsed) then
              (Normal (SendMail.mkResponse 200 "Email sent successfully!"),
               SendMail.mkHost
                 (SendMail.sent host ++ [(SendMail.transportOptions, SendMail.mail_of parsed)])
                 (SendMail.console host))
            else
              (Normal (SendMail.mkResponse 500 "Failed to send email."),
               SendMail.mkHost
                 (SendMail.sent host)
                 (SendMail.console host ++ [mkLog LError "Error sending email:"]))
          else
            (Normal (SendMail.mkResponse 400
                       "Missing required fields: recipient, subject, or htmlContent"),
             host)
      end.
Proof.
  unfold SendMail.handler.
  destruct (negb (strict_eq (SendMail.httpMethod event) (JStr "POST"))); [reflexivity|].
  destruct (SendMail.body event) as [parsed|text]; [|reflexivity].
  destruct parsed; try reflexivity;
    cbn [strict_eq orb];
    destruct (truthy (SendMail.picked _ "recipient")),
             (truthy (SendMail.picked _ "subject")),
             (truthy (SendMail.picked _ "htmlContent")); reflexivity.
Qed.

(** X29.  The mail function answers a request that is not a POST with
    405 without reading its body; it rejects a POST whose body is not JSON
    with a SyntaxError instead of answering; it answers 200 exactly when the
    body holds a truthy recipient, subject and htmlContent and nodemailer
    accepts the mail, and that is the only case in which a mail is sent: the
    one mail the body asks for, from the configured user; and it writes to
    the console only when nodemailer fails, which it answers with 500. *)
Theorem handler_mails_only_complete_requests
    (event : SendMail.Event) (host : SendMail.Host) :
  let result := SendMail.handler event host in
  (SendMail.httpMethod event <> JStr "POST" ->
   result = (Normal (SendMail.mkResponse 405 "Method Not Allowed"), host))
  /\ (forall text,
        SendMail.httpMethod event = JStr "POST" ->
        SendMail.body event = RawText text ->
        result = (Throw SyntaxError, host))
  /\ ((exists response,
          result.1 = Normal response /\ SendMail.statusCode response = 200)
      <-> exists parsed,
            SendMail.httpMethod event = JStr "POST" /\
            SendMail.body event = JsonText parsed /\
            SendMail.complete parsed /\
            SendMail.sendMail_resolves SendMail.transportOptions
              (SendMail.mail_of parsed) = true)
  /\ (SendMail.sent result.2 = SendMail.sent host
      \/ exists parsed,
           SendMail.body event = JsonText parsed /\
           result.1 = Normal (SendMail.mkResponse 200 "Email sent successfully!") /\
           SendMail.sent result.2
           = SendMail.sent host ++ [(SendMail.transportOptions, SendMail.mail_of parsed)] /\
           obj_get (spread (SendMail.mail_of parsed)) "from" = SendMail.EMAIL_USER /\
           obj_get (spread (SendMail.mail_of parsed)) "to" = SendMail.picked parsed "recipient")
  /\ (SendMail.console result.2 = SendMail.console host
      \/ result.1 = Normal (SendMail.mkResponse 500 "Failed to send email.") /\
         SendMail.sent result.2 = SendMail.sent host /\
         SendMail.console result.2
         = SendMail.console host ++ [mkLog LError "Error sending email:"]).
Proof.
  intros result. unfold result. rewrite handler_run.
  destruct (strict_eq (SendMail.httpMethod event) (JStr "POST")) eqn:Hmethod; simpl.
  2:{ assert (Hnot : SendMail.httpMethod event <> JStr "POST").
      { intros Heq. apply strict_eq_JStr in Heq. congruence. }
      split; [reflexivity|]. split; [intros text Hpost; contradiction|].
      split; [|split; left; reflexivity].
      split.
      - intros (response & [= <-] & Hcode). discriminate Hcode.
      - intros (parsed & Hpost & _). contradiction. }
  apply strict_eq_JStr in Hmethod.
  split; [intros Hnot; contradiction|].
  destruct (SendMail.body event) as [parsed|text] eqn:Hbody.
  2:{ split; [reflexivity|]. split; [|split; left; reflexivity].
      split.
      - intros (response & [=] & _).
      - intros (parsed & _ & [=] & _). }
  split; [intros text _ [=]|].
  destruct (strict_eq parsed JUndefined || strict_eq parsed JNull) eqn:Hnull.
  { assert (Hpicked : forall k, SendMail.picked parsed k = JUndefined).
    { intros k. apply picked_of_nothing.
      destruct parsed; simpl in Hnull; try discriminate; auto. }
    split; [|split; left; reflexivity].
    split.
    - intros (response & [=] & _).
    - intros (parsed' & _ & [= <-] & (Hr & _) & _).
      rewrite Hpicked in Hr. discriminate Hr. }
  destruct (truthy (SendMail.picked parsed "recipient")) eqn:Hr;
    destruct (truthy (SendMail.picked parsed "subject")) eqn:Hs;
    destruct (truthy (SendMail.picked parsed "htmlContent")) eqn:Hh;
    cbn [andb];
    try (split; [|split; left; reflexivity];
         split;
         [ intros (response & [= <-] & Hcode); discriminate Hcode
         | intros (parsed' & _ & [= <-] & (Hr' & Hs' & Hh') & _); congruence ]).
  destruct (SendMail.sendMail_resolves SendMail.transportOptions
              (SendMail.mail_of parsed)) eqn:Hsend.
  - split; [|split].
    + split.
      * intros _. exists parsed. repeat split; assumption.
      * intros _. eexists. split; reflexivity.
    + right. exists parsed. repeat split; reflexivity.
    + left. reflexivity.
  - split; [|split].
    + split.
      * intros (response & [= <-] & Hcode). discriminate Hcode.
      * intros (parsed' & _ & [= <-] & _ & Hsend'). congruence.
    + left. reflexivity.
    + right. repeat split; reflexivity.
Qed.

End More_mail.

(** ** The sample browser and the sample page *)

Section Sample_sort.
Import SampleBrowser.

Lemma sort_insert_perm cmp (x : JsVal) (l : list JsVal) :
  (forall y, y ∈ l -> exists d, cmp x y = Normal d) ->
  exists l', sort_insert cmp x l = Normal l' /\ l' ≡ₚ x :: l.
Proof.
  induction l as [|y l IH]; intros Hcmp; simpl.
  - eexists. split; reflexivity.
  - destruct (Hcmp y) as [d ->]; [left|].
    destruct (match d with Some n => 0 <? n | None => false end).
    + destruct IH as (l' & -> & Hl'); [intros z Hz; apply Hcmp; right; exact Hz|].
      eexists. split; [reflexivity|]. rewrite Hl'. apply Permutation_swap.
    + eexists. split; reflexivity.
Qed.

Lemma insertion_sort_perm cmp (l : list JsVal) :
  (forall x y, x ∈ l -> y ∈ l -> exists d, cmp x y = Normal d) ->
  exists l', insertion_sort cmp l = Normal l' /\ l' ≡ₚ l.
Proof.
  unfold insertion_sort. induction l as [|x l IH]; intros Hcmp; simpl.
  - eexists. split; reflexivity.
  - destruct IH as (l0 & -> & Hl0); [intros y z Hy Hz; apply Hcmp; right; assumption|].
    destruct (sort_insert_perm cmp x l0) as (l' & -> & Hl').
    { intros y Hy. rewrite Hl0 in Hy. apply Hcmp; [left|right; exact Hy]. }
    eexists. split; [reflexivity|]. rewrite Hl', Hl0. reflexivity.
Qed.

Lemma sort_insert_sorted cmp (weight : JsVal -> Z) (x : JsVal) (l l' : list JsVal) :
  (forall y, y ∈ l -> cmp x y = Normal (Some (weight x - weight y))) ->
  StronglySorted (fun a b => weight a <= weight b) l ->
  sort_insert cmp x l = Normal l' ->
  StronglySorted (fun a b => weight a <= weight b) l'.
Proof.
  revert l'. induction l as [|y l IH]; intros l' Hcmp Hsorted; simpl.
  - intros [= <-]. repeat constructor.
  - rewrite (Hcmp y) by left. apply StronglySorted_inv in Hsorted as [Hsorted Hy].
    destruct (0 <? weight x - weight y) eqn:Hafter.
    + destruct (sort_insert_perm cmp x l) as (l0 & Hrun & Hl0).
      { intros z Hz. eexists. apply Hcmp. right. exact Hz. }
      rewrite Hrun. intros [= <-]. apply Z.ltb_lt in Hafter.
      constructor.
      * apply IH; [intros z Hz; apply Hcmp; right; exact Hz|exact Hsorted|exact Hrun].
      * apply Forall_forall. intros z Hz. rewrite Hl0 in Hz.
        apply elem_of_cons in Hz as [->|Hz]; [lia|].
        rewrite Forall_forall in Hy. apply Hy, Hz.
    + intros [= <-]. apply Z.ltb_ge in Hafter.
      constructor; [constructor; assumption|].
      constructor; [lia|]. eapply Forall_impl; [exact Hy|].
      intros z Hz. simpl in Hz. lia.
Qed.

Lemma insertion_sort_sorted cmp (weight : JsVal -> Z) (l l' : list JsVal) :
  (forall x y, x ∈ l -> y ∈ l -> cmp x y = Normal (Some (weight x - weight y))) ->
  insertion_sort cmp l = Normal l' ->
  StronglySorted (fun a b => weight a <= weight b) l'.
Proof.
  unfold insertion_sort. revert l'. induction l as [|x l IH]; intros l' Hcmp; simpl.
  - intros [= <-]. constructor.
  - destruct (insertion_sort_perm cmp l) as (l0 & Hrun & Hl0).
    { intros y z Hy Hz. eexists. apply Hcmp; right; assumption. }
    unfold insertion_sort in Hrun. rewrite Hrun.
    apply sort_insert_sorted.
    + intros y Hy. rewrite Hl0 in Hy. apply Hcmp; [left|right; exact Hy].
    + apply IH; [intros y z Hy Hz; apply Hcmp; right; assumption|exact Hrun].
Qed.

End Sample_sort.

Module Browsers.

(** The sample browser: storage of at most eight keys, listed in the order
    of the map; a number prints in decimal, which is the string of a Number
    for an integer up to 2^53 in absolute value, as the sample clock's
    readings are. *)
#[export] Instance sample : Platform := {|
  quota_ok := fun s => bool_decide (size s ≤ 8)%nat;
  key_order := fun s => (map_to_list s).*1;
  toISOString := SampleBrowser.iso_string;
  Date_parse := SampleBrowser.parse_iso;
  Number_toString := pretty;
  Array_sort := SampleBrowser.insertion_sort;
  key_order_perm := fun s => reflexivity _;
  Array_sort_perm := insertion_sort_perm;
  Array_sort_sorted := insertion_sort_sorted
|}.

(** The same browser with its storage full: it refuses every write. *)
Definition full : Platform := {|
  quota_ok := fun _ => false;
  key_order := fun s => (map_to_list s).*1;
  toISOString := SampleBrowser.iso_string;
  Date_parse := SampleBrowser.parse_iso;
  Number_toString := pretty;
  Array_sort := SampleBrowser.insertion_sort;
  key_order_perm := fun s => reflexivity _;
  Array_sort_perm := insertion_sort_perm;
  Array_sort_sorted := insertion_sort_sorted
|}.

(** The sample document: the three forms as the page first shows them, both
    previews and the dashboard's overview present. *)
#[export] Instance document : Page := {|
  bannerEditor := Samples.blank_banner;
  bannerPreview := true;
  marketingPageEditor := Samples.filled_marketing;
  marketingPreviewContainer := true;
  landingPageEditor := Samples.typed_landing;
  campaignOverview := true;
  activeCampaignName := true;
  activeCampaignStatus := true;
  activeCampaignLastUpdated := true;
  noCampaignMessage := true
|}.

End Browsers.

(** ** The claims on the sample page *)

Import SampleBrowser Browsers.

Lemma Normal_inj {A} (a b : A) : Normal a = Normal b -> a = b.
Proof. intros [= ->]. reflexivity. Qed.

(** C1: with a campaign of the same name already stored, the list holds two
    records of that name, so the claim as the specification words it fails. *)
Lemma C1_same_name_is_listed_twice :
  (exists w',
      create_activate_list "Spring Sale" Samples.page_with_spring_sale
      = (Normal [Samples.old_spring_sale;
                 new_campaign "Spring Sale" 1704067200000 1704067200001], w'))
  /\ ~ exactly_one_and_first_if_most_recent "Spring Sale" Samples.page_with_spring_sale.
Proof.
  assert (Hlist : (create_activate_list "Spring Sale" Samples.page_with_spring_sale).1
                  = Normal [Samples.old_spring_sale;
                            new_campaign "Spring Sale" 1704067200000 1704067200001])
    by (vm_compute; reflexivity).
  destruct (create_activate_list "Spring Sale" Samples.page_with_spring_sale)
    as [c w0] eqn:Hrun.
  change ((c, w0).1) with c in Hlist. subst c.
  split; [exists w0; reflexivity|].
  intros (l & w' & Hrun' & r & Hfilter & _).
  pose proof (f_equal fst Hrun') as Hl. cbn [fst] in Hl.
  apply Normal_inj in Hl. subst l.
  vm_compute in Hfilter. discriminate.
Qed.

(** C1, as amended, on the sample page: the spring sale is created beside
    the stored winter sale. *)
Lemma C1_created_record_is_listed_once_beside_another_campaign :
  let w := Samples.page_with_winter_sale in
  let record := new_campaign "Spring Sale" 1704067200000 1704067200001 in
  quota_ok (<[campaign_key 1704067200000 := JsonText record]> (localStorage w)) = true
  /\ campaigns_datable (localStorage w)
  /\ (exists l w',
         create_activate_list "Spring Sale" w = (Normal l, w') /\
         List.filter (has_name "Spring Sale") l = [record] /\
         localStorage w' !! campaign_key 1704067200000 = Some (JsonText record) /\
         stamp record = None).
Proof.
  assert (Hquota : quota_ok (<[campaign_key 1704067200000 :=
                                 JsonText (new_campaign "Spring Sale" 1704067200000 1704067200001)]>
                               (localStorage Samples.page_with_winter_sale)) = true)
    by (vm_compute; reflexivity).
  assert (Hdatable : campaigns_datable (localStorage Samples.page_with_winter_sale)).
  { apply campaigns_plain_datable, campaigns_plain_by_entries. vm_compute. reflexivity. }
  split; [exact Hquota|]. split; [exact Hdatable|].
  refine (proj1 (C1_create_activate_list_holds_the_created_record
                   "Spring Sale" Samples.page_with_winter_sale Hquota _ Hdatable)).
  intros key v Hkey Hlookup _.
  change (localStorage Samples.page_with_winter_sale)
    with ({[ "campaign_campaign_1703980800000" := JsonText Samples.winter_sale ]}
          : gmap string Item) in Hlookup.
  apply lookup_singleton_Some in Hlookup as [_ Hv].
  injection Hv as <-. reflexivity.
Defined.


(** C3: a colour the user picked is replaced by the preset. *)
Lemma C3_typed_colour_is_overwritten :
  LandingPageEditor.bgColorInput Samples.typed_landing = Some "#123456"
  /\ LandingPageEditor.bgColorInput
       (LandingPageEditor._applyTemplate "template2" Samples.typed_landing)
     = Some "#fce4ec"
  /\ ~ template_overwrites_only_empty_fields "template2" Samples.typed_landing.
Proof.
  split; [reflexivity|]. split; [reflexivity|].
  intros Hclaim.
  destruct Hclaim as (_ & _ & _ & Hfields).
  - exists "Summer Launch". split; [reflexivity|discriminate].
  - exists "Everything new this summer.". split; [reflexivity|discriminate].
  - exists "https://example.com/summer.png". split; [reflexivity|discriminate].
  - pose proof (Forall2_lookup_lr _ _ _ 5%nat (Some "#123456") (Some "#fce4ec")
                  Hfields eq_refl eq_refl) as Hcolour.
    simpl in Hcolour. assert (Hempty := Hcolour ltac:(discriminate)).
    discriminate.
Qed.

(** C3, as amended, on the sample forms: the second template keeps the
    typed title, replaces the picked colour, fills the empty paragraph and
    leaves the missing control missing. *)
Lemma C3_template2_on_the_typed_forms :
  let landing' := LandingPageEditor._applyTemplate "template2" Samples.typed_landing in
  let marketing' := MarketingPageEditor._applyTemplate "template2" Samples.typed_marketing in
  (exists presets, LandingPageEditor.templatesDefaults "template2" = Some presets)
  /\ (exists presets', MarketingPageEditor.templatesDefaults "template2" = Some presets')
  /\ LandingPageEditor.titleInput landing' = Some "Summer Launch"
  /\ LandingPageEditor.bgColorInput landing' = Some "#fce4ec"
  /\ MarketingPageEditor.titleInput marketing' = Some "Summer Launch"
  /\ MarketingPageEditor.paragraph1Input marketing'
     = Some "Don't miss out on our limited-time discounts. Get ready for savings that will surprise you!"
  /\ MarketingPageEditor.textColorInput marketing' = None.
Proof.
  intros landing' marketing'.
  destruct (LandingPageEditor.templatesDefaults "template2") as [presets|] eqn:Hl;
    [|discriminate].
  destruct (MarketingPageEditor.templatesDefaults "template2") as [presets'|] eqn:Hm;
    [|discriminate].
  pose proof (C3_applyTemplate_keeps_typed_text_and_resets_the_rest
                "template2" Samples.typed_landing presets
                Samples.typed_marketing presets' Hl Hm) as Hc.
  fold landing' marketing' in Hc.
  destruct Hc as [(Ht & _ & _ & _ & _ & Hbg & _) (Ht' & Hp' & _ & _ & Htc')].
  injection Hl as <-. injection Hm as <-.
  split; [eexists; reflexivity|]. split; [eexists; reflexivity|].
  split; [apply (proj1 Ht "Summer Launch"); [reflexivity|discriminate]|].
  split; [apply (proj1 Hbg "#123456"); reflexivity|].
  split; [apply (proj1 Ht' "Summer Launch"); [reflexivity|discriminate]|].
  split; [apply (proj1 (proj2 Hp')); reflexivity|].
  apply (proj2 Htc'). reflexivity.
Defined.

(** C4 on the sample page: bob signs up beside ann. *)
Lemma C4_bob_signs_up_beside_ann :
  let w := Samples.page_with_ann in
  let users := [("ann", "s3cret")] in
  let m1 := <[USERS_KEY :=
                JsonText (JArr (user_record <$> (users ++ [("bob", "pw")])))]>
              (localStorage w) in
  let m2 := <[CURRENT_USER_KEY := JsonText (session_marker "bob")]> m1 in
  directory w = JArr (user_record <$> users)
  /\ ("bob" ∉ users.*1)
  /\ quota_ok m1 = true
  /\ quota_ok m2 = true
  /\ router_ready (screens w) = true
  /\ plain (read (localStorage w) ACTIVE_CAMPAIGN_KEY) = true
  /\ exists w1,
       signup "bob" "pw" w = (Normal true, w1) /\
       localStorage w1 = m2 /\
       logged_in w1 = true /\
       (exists w2, login "bob" "pw" w1 = (Normal true, w2) /\ localStorage w2 = m2) /\
       (forall password', signup "bob" password' w1 = (Normal false, w1)).
Proof.
  intros w users m1 m2.
  assert (Hdir : directory w = JArr (user_record <$> users)) by reflexivity.
  assert (Hfresh : "bob" ∉ users.*1).
  { intros Hin. apply list_elem_of_singleton in Hin. discriminate. }
  assert (Hq1 : quota_ok m1 = true) by (vm_compute; reflexivity).
  assert (Hq2 : quota_ok m2 = true) by (vm_compute; reflexivity).
  assert (Hready : router_ready (screens w) = true) by reflexivity.
  assert (Hplain : plain (read (localStorage w) ACTIVE_CAMPAIGN_KEY) = true)
    by reflexivity.
  repeat (split; [assumption|]).
  exact (C4_signup_then_login_succeeds_second_signup_fails
           "bob" "pw" users w Hdir Hfresh Hq1 Hq2 Hready Hplain).
Defined.

(** C5 on the sample page: ann mistypes her password. *)
Lemma C5_ann_mistypes_her_password :
  let w := Samples.page_with_ann in
  getUser "ann" w = (Normal Samples.ann, w)
  /\ obj_get (spread Samples.ann) "password" <> JStr "secret"
  /\ login "ann" "secret" w = (Normal false, w).
Proof.
  intros w.
  assert (Hget : getUser "ann" w = (Normal Samples.ann, w)).
  { apply (getUser_run "ann" [("ann", "s3cret")] w). reflexivity. }
  assert (Hpw : obj_get (spread Samples.ann) "password" <> JStr "secret") by discriminate.
  split; [exact Hget|]. split; [exact Hpw|].
  exact (C5_login_wrong_password_changes_nothing
           "ann" "secret" (spread Samples.ann) w w Hget Hpw).
Defined.

(** C6 on the fresh page, which has no active campaign. *)
Lemma C6_saving_on_a_fresh_page :
  let w := Samples.fresh_page in
  active_campaign_exists w = false
  /\ (exists w1, BannerEditor.saveBanner Samples.typed_banner w = (Normal tt, w1) /\
                 localStorage w1 = localStorage w /\
                 last (console w1) = Some no_active_campaign_error)
  /\ (exists w2, MarketingPageEditor.savePage Samples.typed_marketing w = (Normal tt, w2) /\
                 localStorage w2 = localStorage w /\
                 last (console w2) = Some no_active_campaign_error)
  /\ (exists w3, LandingPageEditor.savePage Samples.typed_landing w = (Normal tt, w3) /\
                 localStorage w3 = localStorage w /\
                 last (console w3) = Some no_active_campaign_error).
Proof.
  intros w.
  assert (Hnone : active_campaign_exists w = false) by reflexivity.
  split; [exact Hnone|].
  exact (C6_save_without_active_campaign_writes_nothing
           w Hnone Samples.typed_banner Samples.typed_marketing Samples.typed_landing).
Defined.

(** C7 on the fresh page: a request for the dashboard without a
    session. *)
Lemma C7_dashboard_request_without_a_session :
  let w := Samples.fresh_page in
  logged_in w = false
  /\ all_elements (screens w) = true
  /\ screens_get (screens w) "login-screen" = Some 1%nat
  /\ screens_get (screens w) "main-app-content" = Some 2%nat
  /\ 2%nat <> 1%nat
  /\ exists w',
       goToDashboard w = (Normal tt, w') /\
       goToDashboard w = goToLogin (getItem CURRENT_USER_KEY w).2 /\
       localStorage w' = localStorage w /\
       screens w' = screens w /\
       login_only 1%nat w'.
Proof.
  intros w.
  assert (Hout : logged_in w = false) by reflexivity.
  assert (Hall : all_elements (screens w) = true) by reflexivity.
  assert (Hlogin : screens_get (screens w) "login-screen" = Some 1%nat) by reflexivity.
  assert (Hshell : screens_get (screens w) "main-app-content" = Some 2%nat) by reflexivity.
  assert (Hne : 2%nat <> 1%nat) by discriminate.
  repeat (split; [assumption|]).
  exact (C7_no_session_shows_login_only
           goToDashboard w 1%nat 2%nat (or_introl eq_refl) Hout Hall Hlogin Hshell Hne).
Defined.

(** C9 on the sample page: activating the stored winter sale. *)
Lemma C9_activating_the_winter_sale :
  let w := Samples.page_with_winter_sale in
  let props := spread Samples.winter_sale in
  let lastUpdated := JStr (toISOString (clock w (ticks w))) in
  let stamped := JObj (obj_set props "lastUpdated" lastUpdated) in
  is_json (JObj props) = true
  /\ quota_ok (<[ACTIVE_CAMPAIGN_KEY := JsonText stamped]> (localStorage w)) = true
  /\ exists w1,
       setActiveCampaign (JObj props) w = (Normal tt, w1) /\
       localStorage w1 !! ACTIVE_CAMPAIGN_KEY = Some (JsonText stamped) /\
       obj_get (obj_set props "lastUpdated" lastUpdated) "lastUpdated" = lastUpdated /\
       (forall k, k <> "lastUpdated" ->
                  obj_get (obj_set props "lastUpdated" lastUpdated) k = obj_get props k) /\
       (forall key, key <> ACTIVE_CAMPAIGN_KEY ->
                    localStorage w1 !! key = localStorage w !! key) /\
       (forall id, localStorage w1 !! (CAMPAIGN_PREFIX +:+ id)
                   = localStorage w !! (CAMPAIGN_PREFIX +:+ id)).
Proof.
  intros w props lastUpdated stamped.
  assert (Hjson : is_json (JObj props) = true) by reflexivity.
  assert (Hquota : quota_ok (<[ACTIVE_CAMPAIGN_KEY := JsonText stamped]> (localStorage w))
                   = true) by (vm_compute; reflexivity).
  split; [exact Hjson|]. split; [exact Hquota|].
  destruct (C9_setActiveCampaign_touches_only_the_pointer props w Hjson)
    as (w1 & Hrun & Hactive & Hrest).
  fold lastUpdated stamped in Hactive. rewrite Hquota in Hactive.
  exists w1. split; [exact Hrun|]. split; [exact Hactive|exact Hrest].
Defined.

(** C10 on a page whose clock stands still: the second campaign replaces
    the first under the same key. *)
Lemma C10_two_campaigns_in_the_same_millisecond :
  let w := Samples.frozen_page in
  let first := new_campaign "Spring Sale" 1704067200000 1704067200000 in
  let second := new_campaign "Summer Sale" 1704067200000 1704067200000 in
  let key := "campaign_campaign_1704067200000" in
  exists w1 w2,
    createCampaign "Spring Sale" w = (Normal first, w1) /\
    has_key (spread first) "lastUpdated" = false /\
    localStorage w1 = <[key := JsonText first]> (localStorage w) /\
    createCampaign "Summer Sale" w1 = (Normal second, w2) /\
    localStorage w2 = <[key := JsonText second]> (localStorage w).
Proof.
  intros w first second key.
  destruct (C10_createCampaign_builds_and_persists_the_record "Spring Sale" w)
    as (w1 & Hrun & Hno & Hst & Hclock & Hticks & Hagain).
  assert (Hquota : quota_ok (<[key := JsonText first]> (localStorage w)) = true)
    by (vm_compute; reflexivity).
  change (localStorage w1 =
          if quota_ok (<[key := JsonText first]> (localStorage w))
          then <[key := JsonText first]> (localStorage w) else localStorage w) in Hst.
  rewrite Hquota in Hst.
  assert (Hsame : clock w1 (ticks w1) = clock w (ticks w))
    by (rewrite Hclock; reflexivity).
  destruct (Hagain "Summer Sale" Hsame) as (w2 & Hrun2 & Hst2).
  rewrite Hclock in Hrun2, Hst2.
  change (localStorage w2 =
          if quota_ok (<[key := JsonText second]> (localStorage w1))
          then <[key := JsonText second]> (localStorage w) else localStorage w1) in Hst2.
  assert (Hquota2 : quota_ok (<[key := JsonText second]> (localStorage w1)) = true).
  { rewrite Hst. vm_compute. reflexivity. }
  rewrite Hquota2 in Hst2.
  exists w1, w2.
  split; [exact Hrun|]. split; [exact Hno|]. split; [exact Hst|].
  split; [exact Hrun2|exact Hst2].
Defined.

(** C4: in a browser whose storage is full, bob's username is free and his
    signup fails all the same. *)
Lemma C4_signup_of_a_free_username_fails_in_a_full_browser :
  let w := Samples.page_with_ann in
  directory w = JArr (user_record <$> [("ann", "s3cret")])
  /\ ("bob" ∉ [("ann", "s3cret")].*1)
  /\ (@signup Browsers.full Browsers.document "bob" "pw" w).1 = Normal false.
Proof.
  intros w. split; [reflexivity|]. split.
  - intros Hin. apply list_elem_of_singleton in Hin. discriminate.
  - vm_compute. reflexivity.
Qed.

(** C9: in a browser whose storage is full, [setActiveCampaign] completes
    and no copy of the record is written under the active-campaign key. *)
Lemma C9_no_copy_is_written_in_a_full_browser :
  let w := Samples.page_with_winter_sale in
  is_json Samples.winter_sale = true
  /\ (@setActiveCampaign Browsers.full Samples.winter_sale w).1 = Normal tt
  /\ localStorage (@setActiveCampaign Browsers.full Samples.winter_sale w).2
       !! ACTIVE_CAMPAIGN_KEY = None.
Proof.
  intros w. split; [reflexivity|]. split; vm_compute; reflexivity.
Qed.

(** C10: in a browser whose storage is full, [createCampaign] returns the
    record and persists nothing. *)
Lemma C10_the_record_is_not_persisted_in_a_full_browser :
  let w := Samples.fresh_page in
  (@createCampaign Browsers.full "Spring Sale" w).1
  = Normal (new_campaign "Spring Sale" 1704067200000 1704067200001)
  /\ localStorage (@createCampaign Browsers.full "Spring Sale" w).2
       !! "campaign_campaign_1704067200000" = None.
Proof.
  intros w. split; vm_compute; reflexivity.
Qed.

(** ** The further properties on the sample pages *)

(** X1 on the page with the winter sale: the campaign is stored
    under a key of its own and read back. *)
Lemma winter_sale_is_stored_and_read_back :
  let w := Samples.page_with_winter_sale in
  has_bigint Samples.winter_sale = false
  /\ Samples.winter_sale <> JUndefined
  /\ quota_ok (<["draft" := JsonText (to_json Samples.winter_sale)]> (localStorage w)) = true
  /\ exists w1,
       setItem "draft" Samples.winter_sale w = (Normal true, w1) /\
       getItem "draft" w1 = (Normal (to_json Samples.winter_sale), w1) /\
       console w1 = console w /\
       (is_json Samples.winter_sale = true -> to_json Samples.winter_sale = Samples.winter_sale).
Proof.
  intros w.
  assert (H1 : has_bigint Samples.winter_sale = false) by reflexivity.
  assert (H2 : Samples.winter_sale <> JUndefined) by discriminate.
  assert (H3 : quota_ok (<["draft" := JsonText (to_json Samples.winter_sale)]>
                           (localStorage w)) = true) by (vm_compute; reflexivity).
  repeat (split; [assumption|]).
  exact (setItem_then_getItem_returns_the_value "draft" Samples.winter_sale w H1 H2 H3).
Defined.

(** X2 on the fresh page. *)
Lemma undefined_is_stored_as_text_that_cannot_be_read :
  let w := Samples.fresh_page in
  quota_ok (<["draft" := RawText "undefined"]> (localStorage w)) = true
  /\ exists w1 w2,
       setItem "draft" JUndefined w = (Normal true, w1) /\
       localStorage w1 !! "draft" = Some (RawText "undefined") /\
       getItem "draft" w1 = (Normal JNull, w2) /\
       console w2 = console w ++ [getItem_error] /\
       localStorage w2 = localStorage w1.
Proof.
  intros w.
  assert (H1 : quota_ok (<["draft" := RawText "undefined"]> (localStorage w)) = true)
    by (vm_compute; reflexivity).
  split; [exact H1|].
  exact (setItem_undefined_then_getItem_logs_an_error "draft" w H1).
Defined.

(** X3 on the page with ann: writing or removing the session marker
    leaves the directory alone. *)
Lemma the_session_marker_is_written_beside_the_directory :
  let w := Samples.page_with_ann in
  USERS_KEY <> CURRENT_USER_KEY
  /\ localStorage (setItem CURRENT_USER_KEY (session_marker "ann") w).2 !! USERS_KEY
     = localStorage w !! USERS_KEY
  /\ localStorage (removeItem CURRENT_USER_KEY w).2 !! USERS_KEY = localStorage w !! USERS_KEY
  /\ getItem CURRENT_USER_KEY (removeItem CURRENT_USER_KEY w).2
     = (Normal JNull, (removeItem CURRENT_USER_KEY w).2).
Proof.
  intros w.
  assert (H1 : USERS_KEY <> CURRENT_USER_KEY) by discriminate.
  split; [exact H1|].
  exact (storage_gateway_touches_only_its_key
           CURRENT_USER_KEY USERS_KEY (session_marker "ann") w H1).
Defined.

(** X4 on the fresh page. *)
Lemma the_fresh_page_is_seeded_with_testuser :
  let w := Samples.fresh_page in
  directory w = JArr []
  /\ quota_ok (<[USERS_KEY := JsonText (JArr [initialUser])]> (localStorage w)) = true
  /\ (exists w1,
         createInitialUser w = (Normal tt, w1) /\
         localStorage w1 = <[USERS_KEY := JsonText (JArr [initialUser])]> (localStorage w) /\
         getUser "testuser" w1 = (Normal initialUser, w1) /\
         createInitialUser w1 = (Normal tt, w1))
  /\ (forall w' u us,
        directory w' = JArr (u :: us) ->
        exists w'', createInitialUser w' = (Normal tt, w'') /\
                    localStorage w'' = localStorage w').
Proof.
  intros w.
  assert (H1 : directory w = JArr []) by reflexivity.
  assert (H2 : quota_ok (<[USERS_KEY := JsonText (JArr [initialUser])]> (localStorage w))
               = true) by (vm_compute; reflexivity).
  repeat (split; [assumption|]).
  exact (createInitialUser_seeds_an_empty_directory_only w H1 H2).
Defined.

(** X5 on the page with ann: bob is added, a second ann is not. *)
Lemma bob_is_added_beside_ann :
  let w := Samples.page_with_ann in
  let users := [("ann", "s3cret")] in
  directory w = JArr (user_record <$> users)
  /\ NoDup users.*1
  /\ exists b w' users',
       saveUser (user_record ("bob", "hunter2")) w = (Normal b, w') /\
       (b = true <-> "bob" ∉ users.*1) /\
       directory w' = JArr (user_record <$> users') /\
       NoDup users'.*1 /\
       (users' = users \/
        (b = true /\ users' = users ++ [("bob", "hunter2")])) /\
       (b = false -> localStorage w' = localStorage w) /\
       (b = true ->
        quota_ok (<[USERS_KEY :=
                      JsonText (JArr (user_record <$> (users ++ [("bob", "hunter2")])))]>
                    (localStorage w)) = false ->
        localStorage w' = localStorage w).
Proof.
  intros w users.
  assert (H1 : directory w = JArr (user_record <$> users)) by reflexivity.
  assert (H2 : NoDup users.*1) by apply NoDup_singleton.
  repeat (split; [assumption|]).
  exact (saveUser_keeps_usernames_distinct "bob" "hunter2" users w H1 H2).
Defined.
(** X6 on the page whose directory is an object. *)
Lemma an_object_in_place_of_the_directory_blocks_login :
  let w := Samples.page_with_corrupted_directory in
  let v := JObj [("ann", JStr "s3cret")] in
  localStorage w !! USERS_KEY = Some (JsonText v)
  /\ truthy v = true
  /\ (forall l, v <> JArr l)
  /\ getUser "ann" w = (Throw TypeError, w)
  /\ login "ann" "s3cret" w = (Throw TypeError, w)
  /\ signup "ann" "s3cret" w = (Throw TypeError, w)
  /\ (forall w' rest,
        localStorage w' !! USERS_KEY = Some (JsonText (JArr (JNull :: rest))) ->
        login "ann" "s3cret" w' = (Throw TypeError, w')).
Proof.
  intros w v.
  assert (H1 : localStorage w !! USERS_KEY = Some (JsonText v)) by reflexivity.
  assert (H2 : truthy v = true) by reflexivity.
  assert (H3 : forall l, v <> JArr l) by (intros l; discriminate).
  repeat (split; [assumption|]).
  exact (corrupted_directory_makes_login_throw "ann" "s3cret" v w H1 H2 H3).
Defined.

(** X7 on the page with ann: bob is not in the directory. *)
Lemma bob_cannot_log_in_on_the_page_with_ann :
  let w := Samples.page_with_ann in
  let users := [("ann", "s3cret")] in
  directory w = JArr (user_record <$> users)
  /\ ("bob" ∉ users.*1)
  /\ exists w',
       login "bob" "hunter2" w = (Normal false, w') /\
       localStorage w' = localStorage w /\
       classHidden w' = classHidden w /\
       rendered w' = rendered w.
Proof.
  intros w users.
  assert (H1 : directory w = JArr (user_record <$> users)) by reflexivity.
  assert (H2 : "bob" ∉ users.*1).
  { apply not_elem_of_cons. split; [discriminate | apply not_elem_of_nil]. }
  repeat (split; [assumption|]).
  exact (login_unknown_username_changes_nothing "bob" "hunter2" users w H1 H2).
Defined.

(** X8 on the document without the landing editor screen: the
    dashboard cannot be shown either. *)
Lemma the_dashboard_cannot_be_shown_without_the_landing_screen :
  let w := Samples.page_without_landing_screen in
  all_elements (screens w) = false
  /\ exists w',
       _showScreen "dashboard-screen" w = (Throw TypeError, w') /\
       localStorage w' = localStorage w /\
       classHidden w ⊆ classHidden w' /\
       rendered w' = rendered w /\
       console w' = console w.
Proof.
  intros w.
  assert (H1 : all_elements (screens w) = false) by reflexivity.
  split; [exact H1|].
  exact (missing_screen_element_blocks_navigation "dashboard-screen" w H1).
Defined.

(** X9 on the page with a session: opening the banner editor. *)
Lemma opening_the_banner_editor_keeps_the_session :
  let w := Samples.page_with_session in
  goToBannerEditor ∈ [goToLogin; goToDashboard; goToBannerEditor;
                      goToMarketingPageEditor; goToLandingPageEditor]
  /\ localStorage (goToBannerEditor w).2 = localStorage w
  /\ screens (goToBannerEditor w).2 = screens w.
Proof.
  intros w.
  assert (H1 : goToBannerEditor ∈ [goToLogin; goToDashboard; goToBannerEditor;
                                   goToMarketingPageEditor; goToLandingPageEditor])
    by (do 2 right; left).
  split; [exact H1|].
  exact (navigation_never_writes_storage goToBannerEditor w H1).
Defined.

(** X10 on the page with a session: the marketing editor is element
    5, the shell element 2. *)
Lemma ann_opens_the_marketing_editor :
  let w := Samples.page_with_session in
  (goToMarketingPageEditor, "marketing-editor-screen")
    ∈ [(goToDashboard, "dashboard-screen");
       (goToBannerEditor, "banner-editor-screen");
       (goToMarketingPageEditor, "marketing-editor-screen");
       (goToLandingPageEditor, "landing-editor-screen")]
  /\ logged_in w = true
  /\ all_elements (screens w) = true
  /\ screens_get (screens w) "marketing-editor-screen" = Some 5%nat
  /\ screens_get (screens w) "main-app-content" = Some 2%nat
  /\ plain (read (localStorage w) ACTIVE_CAMPAIGN_KEY) = true
  /\ exists w',
       goToMarketingPageEditor w = (Normal tt, w') /\
       localStorage w' = localStorage w /\
       shows_only 5%nat 2%nat w'.
Proof.
  intros w.
  assert (H1 : (goToMarketingPageEditor, "marketing-editor-screen")
                 ∈ [(goToDashboard, "dashboard-screen");
                    (goToBannerEditor, "banner-editor-screen");
                    (goToMarketingPageEditor, "marketing-editor-screen");
                    (goToLandingPageEditor, "landing-editor-screen")])
    by (do 2 right; left).
  assert (H2 : logged_in w = true) by reflexivity.
  assert (H3 : all_elements (screens w) = true) by reflexivity.
  assert (H4 : screens_get (screens w) "marketing-editor-screen" = Some 5%nat)
    by reflexivity.
  assert (H5 : screens_get (screens w) "main-app-content" = Some 2%nat) by reflexivity.
  assert (H6 : plain (read (localStorage w) ACTIVE_CAMPAIGN_KEY) = true) by reflexivity.
  repeat (split; [assumption|]).
  destruct (guarded_navigation_shows_the_screen
              goToMarketingPageEditor "marketing-editor-screen" w 5%nat 2%nat
              H1 H2 H3 H4 H5) as (r & w' & Hrun & Hst & Honly & Hr).
  rewrite (Hr H6) in Hrun.
  exists w'. split; [exact Hrun|]. split; [exact Hst|exact Honly].
Defined.

(** X11 on the page with ann. *)
Lemma ann_logs_in_and_sees_the_dashboard :
  let w := Samples.page_with_ann in
  let users := [("ann", "s3cret")] in
  read (localStorage w) USERS_KEY = JArr (user_record <$> users)
  /\ find (fun u => String.eqb u.1 "ann") users = Some ("ann", "s3cret")
  /\ quota_ok (<[CURRENT_USER_KEY := JsonText (session_marker "ann")]> (localStorage w)) = true
  /\ plain (read (localStorage w) ACTIVE_CAMPAIGN_KEY) = true
  /\ NavigationListener ∈ authChangeListeners w
  /\ all_elements (screens w) = true
  /\ screens_get (screens w) "dashboard-screen" = Some 3%nat
  /\ screens_get (screens w) "main-app-content" = Some 2%nat
  /\ exists w',
       login "ann" "s3cret" w = (Normal true, w') /\
       localStorage w'
       = <[CURRENT_USER_KEY := JsonText (session_marker "ann")]> (localStorage w) /\
       logged_in w' = true /\
       shows_only 3%nat 2%nat w'.
Proof.
  intros w users.
  assert (H1 : read (localStorage w) USERS_KEY = JArr (user_record <$> users))
    by reflexivity.
  assert (H2 : find (fun u => String.eqb u.1 "ann") users = Some ("ann", "s3cret"))
    by reflexivity.
  assert (H3 : quota_ok (<[CURRENT_USER_KEY := JsonText (session_marker "ann")]>
                           (localStorage w)) = true) by (vm_compute; reflexivity).
  assert (H4 : NavigationListener ∈ authChangeListeners w) by (right; left).
  assert (H5 : all_elements (screens w) = true) by reflexivity.
  assert (H6 : screens_get (screens w) "dashboard-screen" = Some 3%nat) by reflexivity.
  assert (H7 : screens_get (screens w) "main-app-content" = Some 2%nat) by reflexivity.
  assert (H8 : plain (read (localStorage w) ACTIVE_CAMPAIGN_KEY) = true) by reflexivity.
  repeat (split; [assumption|]).
  exact (login_opens_the_dashboard "ann" "s3cret" users w 3%nat 2%nat
           H1 H2 H3 H8 H4 H5 H6 H7).
Defined.

(** X12 on the page with a session. *)
Lemma a_reload_with_a_session_shows_the_dashboard :
  let w := Samples.page_with_session in
  NavigationListener ∈ authChangeListeners w
  /\ all_elements (screens w) = true
  /\ screens_get (screens w) "login-screen" = Some 1%nat
  /\ screens_get (screens w) "dashboard-screen" = Some 3%nat
  /\ screens_get (screens w) "main-app-content" = Some 2%nat
  /\ 2%nat <> 1%nat
  /\ plain (read (localStorage w) ACTIVE_CAMPAIGN_KEY) = true
  /\ exists w',
       checkLoginStatus w = (Normal tt, w') /\
       localStorage w' = localStorage w /\
       if logged_in w then shows_only 3%nat 2%nat w'
       else login_only 1%nat w'.
Proof.
  intros w.
  assert (H1 : NavigationListener ∈ authChangeListeners w) by (right; left).
  assert (H2 : all_elements (screens w) = true) by reflexivity.
  assert (H3 : screens_get (screens w) "login-screen" = Some 1%nat) by reflexivity.
  assert (H4 : screens_get (screens w) "dashboard-screen" = Some 3%nat) by reflexivity.
  assert (H5 : screens_get (screens w) "main-app-content" = Some 2%nat) by reflexivity.
  assert (H6 : 2%nat <> 1%nat) by discriminate.
  assert (H7 : plain (read (localStorage w) ACTIVE_CAMPAIGN_KEY) = true) by reflexivity.
  repeat (split; [assumption|]).
  exact (checkLoginStatus_shows_the_screen_of_the_session w 1%nat 3%nat 2%nat
           H1 H2 H3 H4 H5 H6 (fun _ => H7)).
Defined.

(** X13 on the page with a session. *)
Lemma ann_logs_out_and_sees_the_login_screen :
  let w := Samples.page_with_session in
  NavigationListener ∈ authChangeListeners w
  /\ all_elements (screens w) = true
  /\ screens_get (screens w) "login-screen" = Some 1%nat
  /\ screens_get (screens w) "main-app-content" = Some 2%nat
  /\ 2%nat <> 1%nat
  /\ exists w',
       logout w = (Normal tt, w') /\
       localStorage w' = delete CURRENT_USER_KEY (localStorage w) /\
       logged_in w' = false /\
       login_only 1%nat w'.
Proof.
  intros w.
  assert (H1 : NavigationListener ∈ authChangeListeners w) by (right; left).
  assert (H2 : all_elements (screens w) = true) by reflexivity.
  assert (H3 : screens_get (screens w) "login-screen" = Some 1%nat) by reflexivity.
  assert (H4 : screens_get (screens w) "main-app-content" = Some 2%nat) by reflexivity.
  assert (H5 : 2%nat <> 1%nat) by discriminate.
  repeat (split; [assumption|]).
  exact (logout_ends_the_session_and_shows_login w 1%nat 2%nat H1 H2 H3 H4 H5).
Defined.
(** X14 on the page with two campaigns: the typed banner goes
    into the winter sale. *)
Lemma the_typed_banner_is_saved_into_the_winter_sale :
  let w := Samples.page_with_two_campaigns in
  let props := Samples.winter_sale_props in
  let aprops := Samples.empty_assets in
  let banner := Samples.typed_banner in
  let data := bannerData banner in
  let key := CAMPAIGN_PREFIX +:+ "campaign_1703980800000" in
  (BannerEditor.saveBanner banner, "banner", data) ∈
    [(BannerEditor.saveBanner banner, "banner", bannerData banner);
     (MarketingPageEditor.savePage Samples.filled_marketing, "marketingPage",
      marketingPageData Samples.filled_marketing);
     (LandingPageEditor.savePage Samples.typed_landing, "landingPage",
      landingPageData Samples.typed_landing)]
  /\ localStorage w !! ACTIVE_CAMPAIGN_KEY = Some (JsonText (JObj props))
  /\ is_json (JObj props) = true
  /\ to_string (obj_get props "id") = Normal "campaign_1703980800000"
  /\ to_string (obj_get props "name") = Normal "Winter Sale"
  /\ obj_get props "assets" = JObj aprops
  /\ is_json data = true
  /\ quota_ok (<[key := JsonText (JObj (with_asset props aprops "banner" data))]>
                 (localStorage w)) = true
  /\ quota_ok (saved_storage key props aprops "banner" data (clock w (ticks w))
                 (localStorage w)) = true
  /\ exists w',
       BannerEditor.saveBanner banner w = (Normal tt, w') /\
       localStorage w'
       = saved_storage key props aprops "banner" data (clock w (ticks w))
           (localStorage w) /\
       (forall key', key' <> ACTIVE_CAMPAIGN_KEY -> key' <> key ->
                     localStorage w' !! key' = localStorage w !! key') /\
       asset_of (JObj (with_asset props aprops "banner" data)) "banner" = data /\
       (forall other, other <> "banner" ->
           asset_of (JObj (with_asset props aprops "banner" data)) other
           = asset_of (JObj props) other) /\
       (forall k, k <> "assets" ->
           obj_get (with_asset props aprops "banner" data) k = obj_get props k).
Proof.
  intros w props aprops banner data key.
  assert (H1 : (BannerEditor.saveBanner banner, "banner", data) ∈
    [(BannerEditor.saveBanner banner, "banner", bannerData banner);
     (MarketingPageEditor.savePage Samples.filled_marketing, "marketingPage",
      marketingPageData Samples.filled_marketing);
     (LandingPageEditor.savePage Samples.typed_landing, "landingPage",
      landingPageData Samples.typed_landing)]) by left.
  assert (H2 : localStorage w !! ACTIVE_CAMPAIGN_KEY = Some (JsonText (JObj props)))
    by (vm_compute; reflexivity).
  assert (H3 : is_json (JObj props) = true) by reflexivity.
  assert (Hid : to_string (obj_get props "id") = Normal "campaign_1703980800000")
    by reflexivity.
  assert (Hname : to_string (obj_get props "name") = Normal "Winter Sale")
    by reflexivity.
  assert (H4 : obj_get props "assets" = JObj aprops) by reflexivity.
  assert (H5 : is_json data = true) by reflexivity.
  assert (H6 : quota_ok (<[key :=
                             JsonText (JObj (with_asset props aprops "banner" data))]>
                           (localStorage w)) = true) by (vm_compute; reflexivity).
  assert (H7 : quota_ok (saved_storage key props aprops "banner" data (clock w (ticks w))
                           (localStorage w)) = true) by (vm_compute; reflexivity).
  repeat (split; [assumption|]).
  exact (save_stores_the_asset_and_keeps_the_others
           banner Samples.filled_marketing Samples.typed_landing
           (BannerEditor.saveBanner banner) "banner" data props aprops
           "campaign_1703980800000" "Winter Sale" w
           H1 H2 H3 Hid Hname H4 H5 H6 H7).
Defined.

(** X15 on the page with two campaigns: the typed banner is
    saved and loaded into the blank form. *)
Lemma the_typed_banner_is_loaded_into_the_blank_form :
  let w := Samples.page_with_two_campaigns in
  let props := Samples.winter_sale_props in
  let aprops := Samples.empty_assets in
  let saved := Samples.typed_banner in
  let shown := Samples.blank_banner in
  let key := CAMPAIGN_PREFIX +:+ "campaign_1703980800000" in
  localStorage w !! ACTIVE_CAMPAIGN_KEY = Some (JsonText (JObj props))
  /\ is_json (JObj props) = true
  /\ to_string (obj_get props "id") = Normal "campaign_1703980800000"
  /\ to_string (obj_get props "name") = Normal "Winter Sale"
  /\ obj_get props "assets" = JObj aprops
  /\ banner_filled saved
  /\ banner_present shown
  /\ quota_ok (<[key :=
                   JsonText (JObj (with_asset props aprops "banner" (bannerData saved)))]>
                 (localStorage w)) = true
  /\ quota_ok (saved_storage key props aprops "banner" (bannerData saved)
                 (clock w (ticks w)) (localStorage w)) = true
  /\ exists w1 w2,
       BannerEditor.saveBanner saved w = (Normal tt, w1) /\
       BannerEditor.loadBanner shown w1 = (Normal saved, w2) /\
       localStorage w2 = localStorage w1.
Proof.
  intros w props aprops saved shown key.
  assert (H1 : localStorage w !! ACTIVE_CAMPAIGN_KEY = Some (JsonText (JObj props)))
    by (vm_compute; reflexivity).
  assert (H2 : is_json (JObj props) = true) by reflexivity.
  assert (Hid : to_string (obj_get props "id") = Normal "campaign_1703980800000")
    by reflexivity.
  assert (Hname : to_string (obj_get props "name") = Normal "Winter Sale")
    by reflexivity.
  assert (H3 : obj_get props "assets" = JObj aprops) by reflexivity.
  assert (H4 : banner_filled saved).
  { repeat split; (eexists; split; [reflexivity | discriminate]). }
  assert (H5 : banner_present shown).
  { repeat split; eexists; reflexivity. }
  assert (H6 : quota_ok (<[key :=
                             JsonText (JObj (with_asset props aprops "banner"
                                               (bannerData saved)))]>
                           (localStorage w)) = true) by (vm_compute; reflexivity).
  assert (H7 : quota_ok (saved_storage key props aprops "banner" (bannerData saved)
                           (clock w (ticks w)) (localStorage w)) = true)
    by (vm_compute; reflexivity).
  repeat (split; [assumption|]).
  destruct (save_then_load_restores_the_form props aprops
              "campaign_1703980800000" "Winter Sale" w H1 H2 Hid Hname H3)
    as [Hbanner _].
  exact (Hbanner saved shown H4 H5 H6 H7).
Defined.

(** X16 on the page with two campaigns, whose active campaign has
    no banner: the typed banner is overwritten by the first template. *)
Lemma an_unsaved_banner_is_replaced_by_the_first_template :
  let w := Samples.page_with_two_campaigns in
  let ed := Samples.typed_banner in
  truthy (asset_of (read (localStorage w) ACTIVE_CAMPAIGN_KEY) "banner") = false
  /\ exists ed' w' preset,
       BannerEditor.loadBanner ed w = (Normal ed', w') /\
       localStorage w' = localStorage w /\
       BannerEditor.templates "template1" = Some preset /\
       BannerEditor.bannerTypeSelect ed' = BannerEditor.bannerTypeSelect ed /\
       overwritten (BannerEditor.bannerTextInput ed)
                   (BannerEditor.bannerTextInput ed') "Your Ad Text Here" /\
       overwritten (BannerEditor.bannerBgColorInput ed)
                   (BannerEditor.bannerBgColorInput ed')
                   (BannerEditor.bgColor preset) /\
       overwritten (BannerEditor.bannerTextColorInput ed)
                   (BannerEditor.bannerTextColorInput ed')
                   (BannerEditor.textColor preset) /\
       overwritten (BannerEditor.bannerFontSizeInput ed)
                   (BannerEditor.bannerFontSizeInput ed')
                   (pretty (BannerEditor.fontSize preset)) /\
       overwritten (BannerEditor.bannerFontFamilySelect ed)
                   (BannerEditor.bannerFontFamilySelect ed')
                   (BannerEditor.fontFamily preset).
Proof.
  intros w ed.
  assert (H1 : truthy (asset_of (read (localStorage w) ACTIVE_CAMPAIGN_KEY) "banner")
               = false) by (vm_compute; reflexivity).
  split; [exact H1|].
  destruct (load_without_a_saved_asset_starts_from_template1 w) as (_ & _ & Hbanner).
  exact (Hbanner ed H1).
Defined.

(** X17 on the page whose active campaign has no assets. *)
Lemma nothing_can_be_saved_into_the_bare_campaign :
  let w := Samples.page_with_bare_campaign in
  let v := JObj [("name", JStr "Winter Sale")] in
  localStorage w !! ACTIVE_CAMPAIGN_KEY = Some (JsonText v)
  /\ truthy v = true
  /\ has_assets_object v = false
  /\ BannerEditor.saveBanner Samples.typed_banner w = (Throw TypeError, w)
  /\ MarketingPageEditor.savePage Samples.filled_marketing w = (Throw TypeError, w)
  /\ LandingPageEditor.savePage Samples.typed_landing w = (Throw TypeError, w).
Proof.
  intros w v.
  assert (H1 : localStorage w !! ACTIVE_CAMPAIGN_KEY = Some (JsonText v)) by reflexivity.
  assert (H2 : truthy v = true) by reflexivity.
  assert (H3 : has_assets_object v = false) by reflexivity.
  repeat (split; [assumption|]).
  exact (save_throws_when_the_active_campaign_has_no_assets
           v w Samples.typed_banner Samples.filled_marketing Samples.typed_landing
           H1 H2 H3).
Defined.

(** X21 on the page with two campaigns. *)
Lemma the_dashboard_save_resets_the_assets_of_the_winter_sale :
  let w := Samples.page_with_two_campaigns in
  let props := Samples.winter_sale_props in
  let t := clock w (ticks w) in
  let updated := obj_set props "assets" (placeholder_assets t) in
  let m1 := <[CAMPAIGN_PREFIX +:+ "campaign_1703980800000" := JsonText (JObj updated)]>
              (localStorage w) in
  let m2 := <[ACTIVE_CAMPAIGN_KEY :=
                JsonText (JObj (stamped updated (clock w (S (ticks w)))))]> m1 in
  localStorage w !! ACTIVE_CAMPAIGN_KEY = Some (JsonText (JObj props))
  /\ is_json (JObj props) = true
  /\ to_string (obj_get props "id") = Normal "campaign_1703980800000"
  /\ to_string (obj_get props "name") = Normal "Winter Sale"
  /\ quota_ok m1 = true
  /\ quota_ok m2 = true
  /\ exists w',
       UIController.handleSaveCampaign w = (Normal tt, w') /\
       localStorage w' = m2 /\
       asset_of (JObj updated) "banner"
       = JObj [("content", JStr "Saved banner content"); ("version", JNum t)] /\
       asset_of (JObj updated) "marketingPage" = JNull /\
       asset_of (JObj updated) "landingPage" = JNull /\
       (forall k, k <> "assets" -> obj_get updated k = obj_get props k).
Proof.
  intros w props t updated m1 m2.
  assert (H1 : localStorage w !! ACTIVE_CAMPAIGN_KEY = Some (JsonText (JObj props)))
    by (vm_compute; reflexivity).
  assert (H2 : is_json (JObj props) = true) by reflexivity.
  assert (Hid : to_string (obj_get props "id") = Normal "campaign_1703980800000")
    by reflexivity.
  assert (Hname : to_string (obj_get props "name") = Normal "Winter Sale")
    by reflexivity.
  assert (H3 : quota_ok m1 = true) by (vm_compute; reflexivity).
  assert (H4 : quota_ok m2 = true) by (vm_compute; reflexivity).
  repeat (split; [assumption|]).
  exact (handleSaveCampaign_discards_the_saved_assets
           props "campaign_1703980800000" "Winter Sale" w H1 H2 Hid Hname H3 H4).
Defined.

(** X22 on the page with two campaigns: the summer sale is
    made the active campaign. *)
Lemma the_summer_sale_is_loaded :
  let w := Samples.page_with_two_campaigns in
  let key := "campaign_campaign_1703984400000" in
  let props := Samples.summer_sale_props in
  let active := JsonText (JObj (stamped props (clock w (ticks w)))) in
  campaigns_datable (localStorage w)
  /\ localStorage w !! key = Some (JsonText (JObj props))
  /\ String.prefix CAMPAIGN_PREFIX key = true
  /\ obj_get props "id" = JStr "campaign_1703984400000"
  /\ is_json (JObj props) = true
  /\ plain (JObj props) = true
  /\ (forall key' v,
        localStorage w !! key' = Some (JsonText v) ->
        String.prefix CAMPAIGN_PREFIX key' = true ->
        has_id "campaign_1703984400000" v = true -> v = JObj props)
  /\ quota_ok (<[ACTIVE_CAMPAIGN_KEY := active]> (localStorage w)) = true
  /\ exists w',
       UIController.handleLoadCampaign "campaign_1703984400000" w = (Normal tt, w') /\
       localStorage w' = <[ACTIVE_CAMPAIGN_KEY := active]> (localStorage w) /\
       localStorage w' !! key = Some (JsonText (JObj props)).
Proof.
  intros w key props active.
  assert (H0 : campaigns_datable (localStorage w)).
  { apply campaigns_plain_datable, campaigns_plain_by_entries. vm_compute. reflexivity. }
  assert (H1 : localStorage w !! key = Some (JsonText (JObj props)))
    by (vm_compute; reflexivity).
  assert (H2 : String.prefix CAMPAIGN_PREFIX key = true) by reflexivity.
  assert (H3 : obj_get props "id" = JStr "campaign_1703984400000") by reflexivity.
  assert (H4 : is_json (JObj props) = true) by reflexivity.
  assert (Hplain : plain (JObj props) = true) by reflexivity.
  assert (H5 : forall key' v,
             localStorage w !! key' = Some (JsonText v) ->
             String.prefix CAMPAIGN_PREFIX key' = true ->
             has_id "campaign_1703984400000" v = true -> v = JObj props).
  { intros key' v Hstored Hprefix Hid.
    cbn [w localStorage Samples.page_with_two_campaigns Samples.page] in Hstored.
    by_stored_key Hstored; injection Hstored as <-;
      first [ reflexivity | discriminate Hid | discriminate Hprefix ]. }
  assert (H6 : quota_ok (<[ACTIVE_CAMPAIGN_KEY := active]> (localStorage w)) = true)
    by (vm_compute; reflexivity).
  repeat (split; [assumption|]).
  exact (proj1 (handleLoadCampaign_activates_the_stored_record
                  "campaign_1703984400000" w H0)
               key props H1 H2 H3 H4 Hplain H5 H6).
Defined.

(** X23 on the page with two campaigns: the banner saved into the
    winter sale is back after a visit to the summer sale. *)
Lemma the_banner_of_the_winter_sale_survives_a_visit_to_the_summer_sale :
  let w := Samples.page_with_two_campaigns in
  let idA := "campaign_1703980800000" in
  let idB := "campaign_1703984400000" in
  let keyB := "campaign_campaign_1703984400000" in
  let propsA := Samples.winter_sale_props in
  let apropsA := Samples.empty_assets in
  let propsB := Samples.summer_sale_props in
  let saved := Samples.typed_banner in
  let shown := Samples.blank_banner in
  let t := clock w (ticks w) in
  let t1 := clock w (S (ticks w)) in
  let t2 := clock w (S (S (ticks w))) in
  let keyA := CAMPAIGN_PREFIX +:+ idA in
  let recordA := with_asset propsA apropsA "banner" (bannerData saved) in
  let m1 := saved_storage keyA propsA apropsA "banner" (bannerData saved) t
              (localStorage w) in
  let m2 := <[ACTIVE_CAMPAIGN_KEY := JsonText (JObj (stamped propsB t1))]> m1 in
  let m3 := <[ACTIVE_CAMPAIGN_KEY := JsonText (JObj (stamped recordA t2))]> m2 in
  localStorage w !! ACTIVE_CAMPAIGN_KEY = Some (JsonText (JObj propsA))
  /\ is_json (JObj propsA) = true
  /\ plain (JObj propsA) = true
  /\ obj_get propsA "assets" = JObj apropsA
  /\ obj_get propsA "id" = JStr idA
  /\ localStorage w !! keyB = Some (JsonText (JObj propsB))
  /\ String.prefix CAMPAIGN_PREFIX keyB = true
  /\ is_json (JObj propsB) = true
  /\ plain (JObj propsB) = true
  /\ obj_get propsB "id" = JStr idB
  /\ idB <> idA
  /\ keyB <> keyA
  /\ campaigns_datable (localStorage w)
  /\ (forall key v,
        localStorage w !! key = Some (JsonText v) ->
        String.prefix CAMPAIGN_PREFIX key = true ->
        (key <> keyA -> has_id idA v = false) /\
        (key <> keyB -> has_id idB v = false))
  /\ banner_filled saved
  /\ banner_present shown
  /\ quota_ok (<[keyA := JsonText (JObj recordA)]> (localStorage w)) = true
  /\ quota_ok m1 = true
  /\ quota_ok m2 = true
  /\ quota_ok m3 = true
  /\ exists w1 w2 w3 w4,
       BannerEditor.saveBanner saved w = (Normal tt, w1) /\
       UIController.handleLoadCampaign idB w1 = (Normal tt, w2) /\
       read (localStorage w2) ACTIVE_CAMPAIGN_KEY = JObj (stamped propsB t1) /\
       UIController.handleLoadCampaign idA w2 = (Normal tt, w3) /\
       read (localStorage w3) ACTIVE_CAMPAIGN_KEY = JObj (stamped recordA t2) /\
       BannerEditor.loadBanner shown w3 = (Normal saved, w4).
Proof.
  intros w idA idB keyB propsA apropsA propsB saved shown t t1 t2 keyA recordA m1 m2 m3.
  assert (H1 : localStorage w !! ACTIVE_CAMPAIGN_KEY = Some (JsonText (JObj propsA)))
    by (vm_compute; reflexivity).
  assert (H2 : is_json (JObj propsA) = true) by reflexivity.
  assert (H2' : plain (JObj propsA) = true) by reflexivity.
  assert (H3 : obj_get propsA "assets" = JObj apropsA) by reflexivity.
  assert (H4 : obj_get propsA "id" = JStr idA) by reflexivity.
  assert (H5 : localStorage w !! keyB = Some (JsonText (JObj propsB)))
    by (vm_compute; reflexivity).
  assert (H6 : String.prefix CAMPAIGN_PREFIX keyB = true) by reflexivity.
  assert (H7 : is_json (JObj propsB) = true) by reflexivity.
  assert (H7' : plain (JObj propsB) = true) by reflexivity.
  assert (H8 : obj_get propsB "id" = JStr idB) by reflexivity.
  assert (H9 : idB <> idA) by discriminate.
  assert (H10 : keyB <> keyA) by discriminate.
  assert (H10' : campaigns_datable (localStorage w)).
  { apply campaigns_plain_datable, campaigns_plain_by_entries. vm_compute. reflexivity. }
  assert (H11 : forall key v,
             localStorage w !! key = Some (JsonText v) ->
             String.prefix CAMPAIGN_PREFIX key = true ->
             (key <> keyA -> has_id idA v = false) /\
             (key <> keyB -> has_id idB v = false)).
  { intros key v Hstored Hprefix.
    cbn [w localStorage Samples.page_with_two_campaigns Samples.page] in Hstored.
    by_stored_key Hstored; injection Hstored as <-;
      first [ discriminate Hprefix
            | split; intros Hother;
              first [ reflexivity | exfalso; apply Hother; reflexivity ] ]. }
  assert (H12 : banner_filled saved).
  { repeat split; (eexists; split; [reflexivity | discriminate]). }
  assert (H13 : banner_present shown).
  { repeat split; eexists; reflexivity. }
  assert (H14 : quota_ok (<[keyA := JsonText (JObj recordA)]> (localStorage w))
                = true) by (vm_compute; reflexivity).
  assert (H15 : quota_ok m1 = true) by (vm_compute; reflexivity).
  assert (H16 : quota_ok m2 = true) by (vm_compute; reflexivity).
  assert (H17 : quota_ok m3 = true) by (vm_compute; reflexivity).
  repeat (split; [assumption|]).
  exact (saved_banner_survives_switching_campaigns
           idA idB keyB propsA apropsA propsB saved shown w
           H1 H2 H2' H3 H4 H5 H6 H7 H7' H8 H9 H10 H10' H11 H12 H13 H14 H15 H16 H17).
Defined.

(** X24 on the page with ann, the form holding her name and
    password. *)
Lemma ann_submits_the_login_form :
  let w := Samples.page_with_ann in
  let users := [("ann", "s3cret")] in
  let ui := Samples.login_form "ann" "s3cret" in
  read (localStorage w) USERS_KEY = JArr (user_record <$> users)
  /\ UIController.usernameInput ui = Some "ann"
  /\ UIController.passwordInput ui = Some "s3cret"
  /\ "ann" <> ""
  /\ "s3cret" <> ""
  /\ find (fun u => String.eqb u.1 "ann") users = Some ("ann", "s3cret")
  /\ quota_ok (<[CURRENT_USER_KEY := JsonText (session_marker "ann")]>
                 (localStorage w)) = true
  /\ plain (read (localStorage w) ACTIVE_CAMPAIGN_KEY) = true
  /\ NavigationListener ∈ authChangeListeners w
  /\ all_elements (screens w) = true
  /\ screens_get (screens w) "dashboard-screen" = Some 3%nat
  /\ screens_get (screens w) "main-app-content" = Some 2%nat
  /\ exists ui' w',
       UIController.handleLogin (ui, w) = (Normal tt, (ui', w')) /\
       localStorage w'
       = <[CURRENT_USER_KEY := JsonText (session_marker "ann")]> (localStorage w) /\
       shows_only 3%nat 2%nat w' /\
       UIController.usernameInput ui' = Some "" /\
       UIController.passwordInput ui' = Some "" /\
       UIController.loginErrorDisplay ui'
       = set_value (UIController.loginErrorDisplay ui) ("", true).
Proof.
  intros w users ui.
  assert (H1 : read (localStorage w) USERS_KEY = JArr (user_record <$> users))
    by reflexivity.
  assert (H2 : UIController.usernameInput ui = Some "ann") by reflexivity.
  assert (H3 : UIController.passwordInput ui = Some "s3cret") by reflexivity.
  assert (H4 : "ann" <> "") by discriminate.
  assert (H5 : "s3cret" <> "") by discriminate.
  assert (H6 : find (fun u => String.eqb u.1 "ann") users = Some ("ann", "s3cret"))
    by reflexivity.
  assert (H7 : quota_ok (<[CURRENT_USER_KEY := JsonText (session_marker "ann")]>
                           (localStorage w)) = true) by (vm_compute; reflexivity).
  assert (H8 : NavigationListener ∈ authChangeListeners w) by (right; left).
  assert (H9 : all_elements (screens w) = true) by reflexivity.
  assert (H10 : screens_get (screens w) "dashboard-screen" = Some 3%nat) by reflexivity.
  assert (H11 : screens_get (screens w) "main-app-content" = Some 2%nat) by reflexivity.
  assert (H12 : plain (read (localStorage w) ACTIVE_CAMPAIGN_KEY) = true) by reflexivity.
  repeat (split; [assumption|]).
  exact (proj1 (proj2 (handleLogin_opens_the_dashboard_or_shows_the_error
                         users ui w H1))
               "ann" "s3cret" 3%nat 2%nat H2 H3 H4 H5 H6 H7 H12 H8 H9 H10 H11).
Defined.

(** X26 on the fresh page, the name input holding
    "Spring Sale". *)
Lemma the_spring_sale_is_created_from_the_dashboard :
  let w := Samples.fresh_page in
  let ui := Samples.login_form "ann" "s3cret" in
  let campaignName := value_or (UIController.newCampaignNameInput ui) "New Campaign" in
  let record := new_campaign campaignName (clock w (ticks w)) (clock w (S (ticks w))) in
  let m1 := <[campaign_key (clock w (ticks w)) := JsonText record]> (localStorage w) in
  let m2 := <[ACTIVE_CAMPAIGN_KEY :=
                JsonText (JObj (stamped (spread record) (clock w (S (S (ticks w))))))]>
              m1 in
  quota_ok m1 = true
  /\ quota_ok m2 = true
  /\ exists ui' w',
       UIController.handleCreateCampaign (ui, w)
       = (match UIController.newCampaignNameInput ui with
          | Some _ => Normal tt
          | None => Throw TypeError
          end, (ui', w')) /\
       localStorage w' = m2 /\
       UIController.newCampaignNameInput ui'
       = set_value (UIController.newCampaignNameInput ui) "" /\
       UIController.campaignListContainer ui' = UIController.campaignListContainer ui.
Proof.
  intros w ui campaignName record m1 m2.
  assert (H1 : quota_ok m1 = true) by (vm_compute; reflexivity).
  assert (H2 : quota_ok m2 = true) by (vm_compute; reflexivity).
  repeat (split; [assumption|]).
  exact (handleCreateCampaign_creates_and_activates ui w H1 H2).
Defined.

(** X27 on the page with two campaigns. *)
Lemma the_two_stored_campaigns_are_listed :
  let w := Samples.page_with_two_campaigns in
  let ui := Samples.login_form "ann" "s3cret" in
  UIController.campaignListContainer ui = Some []
  /\ campaigns_plain (localStorage w)
  /\ exists ui' w' campaigns items,
       UIController.renderCampaignList (ui, w) = (Normal tt, (ui', w')) /\
       localStorage w' = localStorage w /\
       getAllCampaigns w = (Normal campaigns, w') /\
       campaigns ≡ₚ stored_campaigns (localStorage w) /\
       (Forall (fun v => is_Some (stamp v)) campaigns ->
        StronglySorted not_older campaigns) /\
       Forall2 (fun c item => item_of c = Normal item) campaigns items /\
       UIController.campaignListContainer ui' = Some items /\
       UIController.noCampaignsFoundMessage ui'
       = set_value (UIController.noCampaignsFoundMessage ui)
           (negb (Nat.eqb (length (stored_campaigns (localStorage w))) 0)).
Proof.
  intros w ui.
  assert (H1 : UIController.campaignListContainer ui = Some []) by reflexivity.
  assert (H2 : campaigns_plain (localStorage w)).
  { apply campaigns_plain_by_entries. vm_compute. reflexivity. }
  split; [exact H1|]. split; [exact H2|].
  exact (proj1 (renderCampaignList_shows_every_stored_campaign ui w) [] H1 H2).
Defined.


Section Full_storage.

#[local] Existing Instance Browsers.full.

(** X20 on the page with two campaigns, in a browser whose
    storage is full. *)
Lemma the_banner_is_reported_saved_in_a_full_browser :
  let w := Samples.page_with_two_campaigns in
  let props := Samples.winter_sale_props in
  let aprops := Samples.empty_assets in
  let banner := Samples.typed_banner in
  let data := bannerData banner in
  let key := CAMPAIGN_PREFIX +:+ "campaign_1703980800000" in
  (BannerEditor.saveBanner banner, "banner", data, "Banner saved and campaign updated.") ∈
    [(BannerEditor.saveBanner banner, "banner", bannerData banner,
      "Banner saved and campaign updated.");
     (MarketingPageEditor.savePage Samples.filled_marketing, "marketingPage",
      marketingPageData Samples.filled_marketing,
      "Marketing page saved and campaign updated.");
     (LandingPageEditor.savePage Samples.typed_landing, "landingPage",
      landingPageData Samples.typed_landing,
      "Landing page saved and campaign updated.")]
  /\ localStorage w !! ACTIVE_CAMPAIGN_KEY = Some (JsonText (JObj props))
  /\ is_json (JObj props) = true
  /\ to_string (obj_get props "id") = Normal "campaign_1703980800000"
  /\ to_string (obj_get props "name") = Normal "Winter Sale"
  /\ obj_get props "assets" = JObj aprops
  /\ is_json data = true
  /\ quota_ok (<[key := JsonText (JObj (with_asset props aprops "banner" data))]>
                 (localStorage w)) = false
  /\ quota_ok (<[ACTIVE_CAMPAIGN_KEY :=
                   JsonText (JObj (stamped (with_asset props aprops "banner" data)
                                     (clock w (ticks w))))]>
                 (localStorage w)) = false
  /\ exists w',
       BannerEditor.saveBanner banner w = (Normal tt, w') /\
       localStorage w' = localStorage w /\
       console w' =
         console w ++ [setItem_error;
                       campaign_saved_log "Winter Sale" key;
                       setItem_error;
                       active_campaign_updated_log;
                       mkLog LLog "Banner saved and campaign updated."].
Proof.
  intros w props aprops banner data key.
  assert (H1 : (BannerEditor.saveBanner banner, "banner", data,
                "Banner saved and campaign updated.") ∈
    [(BannerEditor.saveBanner banner, "banner", bannerData banner,
      "Banner saved and campaign updated.");
     (MarketingPageEditor.savePage Samples.filled_marketing, "marketingPage",
      marketingPageData Samples.filled_marketing,
      "Marketing page saved and campaign updated.");
     (LandingPageEditor.savePage Samples.typed_landing, "landingPage",
      landingPageData Samples.typed_landing,
      "Landing page saved and campaign updated.")]) by left.
  assert (H2 : localStorage w !! ACTIVE_CAMPAIGN_KEY = Some (JsonText (JObj props)))
    by (vm_compute; reflexivity).
  assert (H3 : is_json (JObj props) = true) by reflexivity.
  assert (Hid : to_string (obj_get props "id") = Normal "campaign_1703980800000")
    by reflexivity.
  assert (Hname : to_string (obj_get props "name") = Normal "Winter Sale")
    by reflexivity.
  assert (H4 : obj_get props "assets" = JObj aprops) by reflexivity.
  assert (H5 : is_json data = true) by reflexivity.
  assert (H6 : quota_ok (<[key :=
                             JsonText (JObj (with_asset props aprops "banner" data))]>
                           (localStorage w)) = false) by reflexivity.
  assert (H7 : quota_ok (<[ACTIVE_CAMPAIGN_KEY :=
                             JsonText (JObj (stamped (with_asset props aprops "banner" data)
                                               (clock w (ticks w))))]>
                           (localStorage w)) = false) by reflexivity.
  repeat (split; [assumption|]).
  exact (save_reports_success_when_the_browser_refuses_the_writes
           banner Samples.filled_marketing Samples.typed_landing
           (BannerEditor.saveBanner banner) "banner" data
           "Banner saved and campaign updated." props aprops
           "campaign_1703980800000" "Winter Sale" w
           H1 H2 H3 Hid Hname H4 H5 H6 H7).
Defined.

(** X25 on the page with ann, in a browser whose storage is
    full: bob is told that his username already exists. *)
Lemma bob_is_told_that_his_username_exists :
  let w := Samples.page_with_ann in
  let users := [("ann", "s3cret")] in
  let ui := Samples.login_form "bob" "hunter2" in
  directory w = JArr (user_record <$> users)
  /\ ("bob" ∉ users.*1)
  /\ quota_ok (<[USERS_KEY :=
                   JsonText (JArr (user_record <$> (users ++ [("bob", "hunter2")])))]>
                 (localStorage w)) = false
  /\ UIController.usernameInput ui = Some "bob"
  /\ UIController.passwordInput ui = Some "hunter2"
  /\ "bob" <> ""
  /\ "hunter2" <> ""
  /\ exists w',
       signup "bob" "hunter2" w = (Normal false, w') /\
       localStorage w' = localStorage w /\
       UIController.handleSignup (ui, w)
       = (Normal tt,
          (with_login_error
             ("Username already exists. Please choose a different one.", false) ui, w')).
Proof.
  intros w users ui.
  assert (H1 : directory w = JArr (user_record <$> users)) by reflexivity.
  assert (H2 : "bob" ∉ users.*1).
  { apply not_elem_of_cons. split; [discriminate | apply not_elem_of_nil]. }
  assert (H3 : quota_ok (<[USERS_KEY :=
                   JsonText (JArr (user_record <$> (users ++ [("bob", "hunter2")])))]>
                 (localStorage w)) = false) by reflexivity.
  assert (H4 : UIController.usernameInput ui = Some "bob") by reflexivity.
  assert (H5 : UIController.passwordInput ui = Some "hunter2") by reflexivity.
  assert (H6 : "bob" <> "") by discriminate.
  assert (H7 : "hunter2" <> "") by discriminate.
  repeat (split; [assumption|]).
  exact (signup_blames_the_username_when_the_browser_refuses_the_write
           "bob" "hunter2" users ui w H1 H2 H3 H4 H5 H6 H7).
Defined.

End Full_storage.
(** X18 on the typed landing form: after the first template, the
    second one leaves title, paragraph and image alone. *)
Lemma the_second_template_keeps_the_text_of_the_first :
  let ed := Samples.typed_landing in
  let ed1 := LandingPageEditor._applyTemplate "template1" ed in
  let ed2 := LandingPageEditor._applyTemplate "template2" ed1 in
  is_Some (LandingPageEditor.templatesDefaults "template1")
  /\ ("template2" ∉ inherited_names)
  /\ LandingPageEditor.titleInput ed2 = LandingPageEditor.titleInput ed1
  /\ LandingPageEditor.paragraphInput ed2 = LandingPageEditor.paragraphInput ed1
  /\ LandingPageEditor.imageUrlInput ed2 = LandingPageEditor.imageUrlInput ed1.
Proof.
  intros ed ed1 ed2.
  assert (H1 : is_Some (LandingPageEditor.templatesDefaults "template1"))
    by (eexists; reflexivity).
  assert (H2 : "template2" ∉ inherited_names)
    by (apply (bool_decide_unpack ("template2" ∉ inherited_names));
        vm_compute; exact I).
  repeat (split; [assumption|]).
  destruct applyTemplate_composes as (_ & _ & _ & _ & _ & _ & Hlanding & _).
  exact (Hlanding "template1" "template2" ed H1 H2).
Defined.

Section Sample_mailer.

#[local] Existing Instance Samples.mailer.

(** X29 on the request to mail the winter sale page. *)
Lemma the_review_request_is_mailed :
  let event := Samples.review_request in
  let host := SendMail.mkHost [] [] in
  (exists parsed,
      SendMail.httpMethod event = JStr "POST" /\
      SendMail.body event = JsonText parsed /\
      SendMail.complete parsed /\
      SendMail.sendMail_resolves SendMail.transportOptions
        (SendMail.mail_of parsed) = true)
  /\ exists response,
       (SendMail.handler event host).1 = Normal response /\
       SendMail.statusCode response = 200.
Proof.
  intros event host.
  assert (H1 : exists parsed,
             SendMail.httpMethod event = JStr "POST" /\
             SendMail.body event = JsonText parsed /\
             SendMail.complete parsed /\
             SendMail.sendMail_resolves SendMail.transportOptions
               (SendMail.mail_of parsed) = true).
  { eexists. split; [reflexivity|]. split; [reflexivity|].
    split; [repeat split; reflexivity | reflexivity]. }
  split; [exact H1|].
  pose proof (handler_mails_only_complete_requests event host) as H.
  cbv zeta in H. destruct H as (_ & _ & [_ Hsent] & _).
  exact (Hsent H1).
Defined.

End Sample_mailer.
